(** * Dynamic HL7 ORU_R01 generator: a shallow embedding and its properties

    The development follows [DynamicHL7Generator] and
    [DynamicHL7BatchProcessor].  Python values are modelled by an
    inductive type of JSON trees, Python dictionaries by insertion-ordered
    association lists, exceptions by an error monad, and the wall clock by
    a sequence of readings indexed by the number of reads made so far.
    Reading the configuration file and logging are left out: the compiler
    starts from the rows of the file and the encoder from the compiled
    mappings.  The files that the batch processor writes are a dictionary
    from names to contents. *)

From Stdlib Require Import String Ascii List ZArith NArith Lia Bool Floats.
From Stdlib Require Import DecimalString DecimalZ Sorted Permutation.
Import ListNotations.
Open Scope string_scope.
Open Scope Z_scope.

Set Warnings "-register-all".

(** ** Python strings

    A [str] is a sequence of code points.  It is modelled by the [string]
    of the bytes of its UTF-8 encoding, a lone surrogate being encoded
    like any other code point: the ASCII characters are the bytes below
    128, and every other character is a lead byte followed by
    continuation bytes.  Splitting, joining, comparing and replacing one
    ASCII character by another act on the bytes as they act on the code
    points. *)
Module PyStr.

Fixpoint string_map (f : ascii -> ascii) (s : string) : string :=
  match s with
  | EmptyString => EmptyString
  | String c r => String (f c) (string_map f r)
  end.

(** [s.replace(old, new)] for one-character ASCII [old] and [new], the
    only form the generator uses. *)
Definition replace_char (old new c : ascii) : ascii :=
  if Ascii.eqb c old then new else c.

Definition replace (old new : ascii) (s : string) : string :=
  string_map (replace_char old new) s.

(** *** Characters *)

(** A byte below 128. *)
Definition is_ascii (c : ascii) : bool :=
  match c with Ascii _ _ _ _ _ _ _ b7 => negb b7 end.

(** A byte from 128 to 191: it continues the character before it. *)
Definition is_continuation (c : ascii) : bool :=
  match c with Ascii _ _ _ _ _ _ b6 b7 => (b7 && negb b6)%bool end.

Definition continues (s : string) : bool :=
  match s with
  | String c _ => is_continuation c
  | EmptyString => false
  end.

(** The characters of a text, each with the bytes of its encoding: a
    character ends where a byte follows that is not a continuation
    byte. *)
Fixpoint characters (s : string) : list string :=
  match s with
  | EmptyString => []
  | String c r =>
      match characters r with
      | ch :: rest =>
          if continues r then String c ch :: rest
          else String c "" :: ch :: rest
      | [] => [String c ""]
      end
  end.

(** The code point of a character: the lead byte tells the number of
    bytes.  Bytes that are not the encoding of a code point have none. *)
Definition code_point (ch : string) : option N :=
  let n := N_of_ascii in
  match ch with
  | String a "" => if is_ascii a then Some (n a) else None
  | String a (String b "") =>
      if ((192 <=? n a) && (n a <? 224))%N
      then Some ((n a - 192) * 64 + (n b - 128))%N else None
  | String a (String b (String c "")) =>
      if ((224 <=? n a) && (n a <? 240))%N
      then Some ((n a - 224) * 4096 + (n b - 128) * 64 + (n c - 128))%N
      else None
  | String a (String b (String c (String d ""))) =>
      if ((240 <=? n a) && (n a <? 248))%N
      then Some ((n a - 240) * 262144 + (n b - 128) * 4096
                 + (n c - 128) * 64 + (n d - 128))%N
      else None
  | _ => None
  end.

(** The encoding of a code point. *)
Definition utf8 (c : N) : string :=
  let byte := ascii_of_N in
  if (c <? 0x80)%N then String (byte c) ""
  else if (c <? 0x800)%N then
    String (byte (0xC0 + c / 64)%N) (String (byte (0x80 + c mod 64)%N) "")
  else if (c <? 0x10000)%N then
    String (byte (0xE0 + c / 4096)%N)
      (String (byte (0x80 + (c / 64) mod 64)%N)
         (String (byte (0x80 + c mod 64)%N) ""))
  else
    String (byte (0xF0 + c / 262144)%N)
      (String (byte (0x80 + (c / 4096) mod 64)%N)
         (String (byte (0x80 + (c / 64) mod 64)%N)
            (String (byte (0x80 + c mod 64)%N) ""))).

Definition encode (l : list N) : string :=
  fold_right (fun c s => utf8 c ++ s) "" l.

(** The texts of a list, one after the other. *)
Definition cat (l : list string) : string := fold_right append "" l.

(** *** Upper case

    [str.upper()] replaces every character by its upper case, which can
    be several characters.  The tables are those of CPython 3.11 (Unicode
    14.0) for the characters from 128 on: [case_ranges] lists the
    characters with an upper case of one character, as (first, last,
    step, upper case of first), the upper cases going up with the
    characters; [special_casing] lists the others. *)
Definition case_ranges : list (N * N * N * N) :=
  [(0xB5, 0xB5, 1, 0x39C); (0xE0, 0xF6, 1, 0xC0); (0xF8, 0xFE, 1, 0xD8);
   (0xFF, 0xFF, 1, 0x178); (0x101, 0x12F, 2, 0x100);
   (0x131, 0x131, 1, 0x49); (0x133, 0x137, 2, 0x132);
   (0x13A, 0x148, 2, 0x139); (0x14B, 0x177, 2, 0x14A);
   (0x17A, 0x17E, 2, 0x179); (0x17F, 0x17F, 1, 0x53);
   (0x180, 0x180, 1, 0x243); (0x183, 0x185, 2, 0x182);
   (0x188, 0x188, 1, 0x187); (0x18C, 0x18C, 1, 0x18B);
   (0x192, 0x192, 1, 0x191); (0x195, 0x195, 1, 0x1F6);
   (0x199, 0x199, 1, 0x198); (0x19A, 0x19A, 1, 0x23D);
   (0x19E, 0x19E, 1, 0x220); (0x1A1, 0x1A5, 2, 0x1A0);
   (0x1A8, 0x1A8, 1, 0x1A7); (0x1AD, 0x1AD, 1, 0x1AC);
   (0x1B0, 0x1B0, 1, 0x1AF); (0x1B4, 0x1B6, 2, 0x1B3);
   (0x1B9, 0x1B9, 1, 0x1B8); (0x1BD, 0x1BD, 1, 0x1BC);
   (0x1BF, 0x1BF, 1, 0x1F7); (0x1C5, 0x1C5, 1, 0x1C4);
   (0x1C6, 0x1C6, 1, 0x1C4); (0x1C8, 0x1C8, 1, 0x1C7);
   (0x1C9, 0x1C9, 1, 0x1C7); (0x1CB, 0x1CB, 1, 0x1CA);
   (0x1CC, 0x1CC, 1, 0x1CA); (0x1CE, 0x1DC, 2, 0x1CD);
   (0x1DD, 0x1DD, 1, 0x18E); (0x1DF, 0x1EF, 2, 0x1DE);
   (0x1F2, 0x1F2, 1, 0x1F1); (0x1F3, 0x1F3, 1, 0x1F1);
   (0x1F5, 0x1F5, 1, 0x1F4); (0x1F9, 0x21F, 2, 0x1F8);
   (0x223, 0x233, 2, 0x222); (0x23C, 0x23C, 1, 0x23B);
   (0x23F, 0x240, 1, 0x2C7E); (0x242, 0x242, 1, 0x241);
   (0x247, 0x24F, 2, 0x246); (0x250, 0x250, 1, 0x2C6F);
   (0x251, 0x251, 1, 0x2C6D); (0x252, 0x252, 1, 0x2C70);
   (0x253, 0x253, 1, 0x181); (0x254, 0x254, 1, 0x186);
   (0x256, 0x257, 1, 0x189); (0x259, 0x259, 1, 0x18F);
   (0x25B, 0x25B, 1, 0x190); (0x25C, 0x25C, 1, 0xA7AB);
   (0x260, 0x260, 1, 0x193); (0x261, 0x261, 1, 0xA7AC);
   (0x263, 0x263, 1, 0x194); (0x265, 0x265, 1, 0xA78D);
   (0x266, 0x266, 1, 0xA7AA); (0x268, 0x268, 1, 0x197);
   (0x269, 0x269, 1, 0x196); (0x26A, 0x26A, 1, 0xA7AE);
   (0x26B, 0x26B, 1, 0x2C62); (0x26C, 0x26C, 1, 0xA7AD);
   (0x26F, 0x26F, 1, 0x19C); (0x271, 0x271, 1, 0x2C6E);
   (0x272, 0x272, 1, 0x19D); (0x275, 0x275, 1, 0x19F);
   (0x27D, 0x27D, 1, 0x2C64); (0x280, 0x280, 1, 0x1A6);
   (0x282, 0x282, 1, 0xA7C5); (0x283, 0x283, 1, 0x1A9);
   (0x287, 0x287, 1, 0xA7B1); (0x288, 0x288, 1, 0x1AE);
   (0x289, 0x289, 1, 0x244); (0x28A, 0x28B, 1, 0x1B1);
   (0x28C, 0x28C, 1, 0x245); (0x292, 0x292, 1, 0x1B7);
   (0x29D, 0x29D, 1, 0xA7B2); (0x29E, 0x29E, 1, 0xA7B0);
   (0x345, 0x345, 1, 0x399); (0x371, 0x373, 2, 0x370);
   (0x377, 0x377, 1, 0x376); (0x37B, 0x37D, 1, 0x3FD);
   (0x3AC, 0x3AC, 1, 0x386); (0x3AD, 0x3AF, 1, 0x388);
   (0x3B1, 0x3C1, 1, 0x391); (0x3C2, 0x3C2, 1, 0x3A3);
   (0x3C3, 0x3CB, 1, 0x3A3); (0x3CC, 0x3CC, 1, 0x38C);
   (0x3CD, 0x3CE, 1, 0x38E); (0x3D0, 0x3D0, 1, 0x392);
   (0x3D1, 0x3D1, 1, 0x398); (0x3D5, 0x3D5, 1, 0x3A6);
   (0x3D6, 0x3D6, 1, 0x3A0); (0x3D7, 0x3D7, 1, 0x3CF);
   (0x3D9, 0x3EF, 2, 0x3D8); (0x3F0, 0x3F0, 1, 0x39A);
   (0x3F1, 0x3F1, 1, 0x3A1); (0x3F2, 0x3F2, 1, 0x3F9);
   (0x3F3, 0x3F3, 1, 0x37F); (0x3F5, 0x3F5, 1, 0x395);
   (0x3F8, 0x3F8, 1, 0x3F7); (0x3FB, 0x3FB, 1, 0x3FA);
   (0x430, 0x44F, 1, 0x410); (0x450, 0x45F, 1, 0x400);
   (0x461, 0x481, 2, 0x460); (0x48B, 0x4BF, 2, 0x48A);
   (0x4C2, 0x4CE, 2, 0x4C1); (0x4CF, 0x4CF, 1, 0x4C0);
   (0x4D1, 0x52F, 2, 0x4D0); (0x561, 0x586, 1, 0x531);
   (0x10D0, 0x10FA, 1, 0x1C90); (0x10FD, 0x10FF, 1, 0x1CBD);
   (0x13F8, 0x13FD, 1, 0x13F0); (0x1C80, 0x1C80, 1, 0x412);
   (0x1C81, 0x1C81, 1, 0x414); (0x1C82, 0x1C82, 1, 0x41E);
   (0x1C83, 0x1C84, 1, 0x421); (0x1C85, 0x1C85, 1, 0x422);
   (0x1C86, 0x1C86, 1, 0x42A); (0x1C87, 0x1C87, 1, 0x462);
   (0x1C88, 0x1C88, 1, 0xA64A); (0x1D79, 0x1D79, 1, 0xA77D);
   (0x1D7D, 0x1D7D, 1, 0x2C63); (0x1D8E, 0x1D8E, 1, 0xA7C6);
   (0x1E01, 0x1E95, 2, 0x1E00); (0x1E9B, 0x1E9B, 1, 0x1E60);
   (0x1EA1, 0x1EFF, 2, 0x1EA0); (0x1F00, 0x1F07, 1, 0x1F08);
   (0x1F10, 0x1F15, 1, 0x1F18); (0x1F20, 0x1F27, 1, 0x1F28);
   (0x1F30, 0x1F37, 1, 0x1F38); (0x1F40, 0x1F45, 1, 0x1F48);
   (0x1F51, 0x1F57, 2, 0x1F59); (0x1F60, 0x1F67, 1, 0x1F68);
   (0x1F70, 0x1F71, 1, 0x1FBA); (0x1F72, 0x1F75, 1, 0x1FC8);
   (0x1F76, 0x1F77, 1, 0x1FDA); (0x1F78, 0x1F79, 1, 0x1FF8);
   (0x1F7A, 0x1F7B, 1, 0x1FEA); (0x1F7C, 0x1F7D, 1, 0x1FFA);
   (0x1FB0, 0x1FB1, 1, 0x1FB8); (0x1FBE, 0x1FBE, 1, 0x399);
   (0x1FD0, 0x1FD1, 1, 0x1FD8); (0x1FE0, 0x1FE1, 1, 0x1FE8);
   (0x1FE5, 0x1FE5, 1, 0x1FEC); (0x214E, 0x214E, 1, 0x2132);
   (0x2170, 0x217F, 1, 0x2160); (0x2184, 0x2184, 1, 0x2183);
   (0x24D0, 0x24E9, 1, 0x24B6); (0x2C30, 0x2C5F, 1, 0x2C00);
   (0x2C61, 0x2C61, 1, 0x2C60); (0x2C65, 0x2C65, 1, 0x23A);
   (0x2C66, 0x2C66, 1, 0x23E); (0x2C68, 0x2C6C, 2, 0x2C67);
   (0x2C73, 0x2C73, 1, 0x2C72); (0x2C76, 0x2C76, 1, 0x2C75);
   (0x2C81, 0x2CE3, 2, 0x2C80); (0x2CEC, 0x2CEE, 2, 0x2CEB);
   (0x2CF3, 0x2CF3, 1, 0x2CF2); (0x2D00, 0x2D25, 1, 0x10A0);
   (0x2D27, 0x2D27, 1, 0x10C7); (0x2D2D, 0x2D2D, 1, 0x10CD);
   (0xA641, 0xA66D, 2, 0xA640); (0xA681, 0xA69B, 2, 0xA680);
   (0xA723, 0xA72F, 2, 0xA722); (0xA733, 0xA76F, 2, 0xA732);
   (0xA77A, 0xA77C, 2, 0xA779); (0xA77F, 0xA787, 2, 0xA77E);
   (0xA78C, 0xA78C, 1, 0xA78B); (0xA791, 0xA793, 2, 0xA790);
   (0xA794, 0xA794, 1, 0xA7C4); (0xA797, 0xA7A9, 2, 0xA796);
   (0xA7B5, 0xA7C3, 2, 0xA7B4); (0xA7C8, 0xA7CA, 2, 0xA7C7);
   (0xA7D1, 0xA7D1, 1, 0xA7D0); (0xA7D7, 0xA7D9, 2, 0xA7D6);
   (0xA7F6, 0xA7F6, 1, 0xA7F5); (0xAB53, 0xAB53, 1, 0xA7B3);
   (0xAB70, 0xABBF, 1, 0x13A0); (0xFF41, 0xFF5A, 1, 0xFF21);
   (0x10428, 0x1044F, 1, 0x10400); (0x104D8, 0x104FB, 1, 0x104B0);
   (0x10597, 0x105BB, 2, 0x10570); (0x10598, 0x105A0, 2, 0x10571);
   (0x105A4, 0x105B0, 2, 0x1057D); (0x105B4, 0x105B8, 2, 0x1058D);
   (0x105BC, 0x105BC, 1, 0x10595); (0x10CC0, 0x10CF2, 1, 0x10C80);
   (0x118C0, 0x118DF, 1, 0x118A0); (0x16E60, 0x16E7F, 1, 0x16E40);
   (0x1E922, 0x1E943, 1, 0x1E900)]%N.

Definition special_casing : list (N * list N) :=
  [(0xDF, [0x53; 0x53]); (0x149, [0x2BC; 0x4E]); (0x1F0, [0x4A; 0x30C]);
   (0x390, [0x399; 0x308; 0x301]); (0x3B0, [0x3A5; 0x308; 0x301]);
   (0x587, [0x535; 0x552]); (0x1E96, [0x48; 0x331]);
   (0x1E97, [0x54; 0x308]); (0x1E98, [0x57; 0x30A]);
   (0x1E99, [0x59; 0x30A]); (0x1E9A, [0x41; 0x2BE]);
   (0x1F50, [0x3A5; 0x313]); (0x1F52, [0x3A5; 0x313; 0x300]);
   (0x1F54, [0x3A5; 0x313; 0x301]); (0x1F56, [0x3A5; 0x313; 0x342]);
   (0x1F80, [0x1F08; 0x399]); (0x1F81, [0x1F09; 0x399]);
   (0x1F82, [0x1F0A; 0x399]); (0x1F83, [0x1F0B; 0x399]);
   (0x1F84, [0x1F0C; 0x399]); (0x1F85, [0x1F0D; 0x399]);
   (0x1F86, [0x1F0E; 0x399]); (0x1F87, [0x1F0F; 0x399]);
   (0x1F88, [0x1F08; 0x399]); (0x1F89, [0x1F09; 0x399]);
   (0x1F8A, [0x1F0A; 0x399]); (0x1F8B, [0x1F0B; 0x399]);
   (0x1F8C, [0x1F0C; 0x399]); (0x1F8D, [0x1F0D; 0x399]);
   (0x1F8E, [0x1F0E; 0x399]); (0x1F8F, [0x1F0F; 0x399]);
   (0x1F90, [0x1F28; 0x399]); (0x1F91, [0x1F29; 0x399]);
   (0x1F92, [0x1F2A; 0x399]); (0x1F93, [0x1F2B; 0x399]);
   (0x1F94, [0x1F2C; 0x399]); (0x1F95, [0x1F2D; 0x399]);
   (0x1F96, [0x1F2E; 0x399]); (0x1F97, [0x1F2F; 0x399]);
   (0x1F98, [0x1F28; 0x399]); (0x1F99, [0x1F29; 0x399]);
   (0x1F9A, [0x1F2A; 0x399]); (0x1F9B, [0x1F2B; 0x399]);
   (0x1F9C, [0x1F2C; 0x399]); (0x1F9D, [0x1F2D; 0x399]);
   (0x1F9E, [0x1F2E; 0x399]); (0x1F9F, [0x1F2F; 0x399]);
   (0x1FA0, [0x1F68; 0x399]); (0x1FA1, [0x1F69; 0x399]);
   (0x1FA2, [0x1F6A; 0x399]); (0x1FA3, [0x1F6B; 0x399]);
   (0x1FA4, [0x1F6C; 0x399]); (0x1FA5, [0x1F6D; 0x399]);
   (0x1FA6, [0x1F6E; 0x399]); (0x1FA7, [0x1F6F; 0x399]);
   (0x1FA8, [0x1F68; 0x399]); (0x1FA9, [0x1F69; 0x399]);
   (0x1FAA, [0x1F6A; 0x399]); (0x1FAB, [0x1F6B; 0x399]);
   (0x1FAC, [0x1F6C; 0x399]); (0x1FAD, [0x1F6D; 0x399]);
   (0x1FAE, [0x1F6E; 0x399]); (0x1FAF, [0x1F6F; 0x399]);
   (0x1FB2, [0x1FBA; 0x399]); (0x1FB3, [0x391; 0x399]);
   (0x1FB4, [0x386; 0x399]); (0x1FB6, [0x391; 0x342]);
   (0x1FB7, [0x391; 0x342; 0x399]); (0x1FBC, [0x391; 0x399]);
   (0x1FC2, [0x1FCA; 0x399]); (0x1FC3, [0x397; 0x399]);
   (0x1FC4, [0x389; 0x399]); (0x1FC6, [0x397; 0x342]);
   (0x1FC7, [0x397; 0x342; 0x399]); (0x1FCC, [0x397; 0x399]);
   (0x1FD2, [0x399; 0x308; 0x300]); (0x1FD3, [0x399; 0x308; 0x301]);
   (0x1FD6, [0x399; 0x342]); (0x1FD7, [0x399; 0x308; 0x342]);
   (0x1FE2, [0x3A5; 0x308; 0x300]); (0x1FE3, [0x3A5; 0x308; 0x301]);
   (0x1FE4, [0x3A1; 0x313]); (0x1FE6, [0x3A5; 0x342]);
   (0x1FE7, [0x3A5; 0x308; 0x342]); (0x1FF2, [0x1FFA; 0x399]);
   (0x1FF3, [0x3A9; 0x399]); (0x1FF4, [0x38F; 0x399]);
   (0x1FF6, [0x3A9; 0x342]); (0x1FF7, [0x3A9; 0x342; 0x399]);
   (0x1FFC, [0x3A9; 0x399]); (0xFB00, [0x46; 0x46]); (0xFB01, [0x46; 0x49]);
   (0xFB02, [0x46; 0x4C]); (0xFB03, [0x46; 0x46; 0x49]);
   (0xFB04, [0x46; 0x46; 0x4C]); (0xFB05, [0x53; 0x54]);
   (0xFB06, [0x53; 0x54]); (0xFB13, [0x544; 0x546]);
   (0xFB14, [0x544; 0x535]); (0xFB15, [0x544; 0x53B]);
   (0xFB16, [0x54E; 0x546]); (0xFB17, [0x544; 0x53D])]%N.

Definition unicode_spaces : list N :=
  [0x85; 0xA0; 0x1680; 0x2000; 0x2001; 0x2002; 0x2003; 0x2004; 0x2005;
   0x2006; 0x2007; 0x2008; 0x2009; 0x200A; 0x2028; 0x2029; 0x202F; 0x205F;
   0x3000]%N.

Definition decimal_zeros : list N :=
  [0x660; 0x6F0; 0x7C0; 0x966; 0x9E6; 0xA66; 0xAE6; 0xB66; 0xBE6; 0xC66;
   0xCE6; 0xD66; 0xDE6; 0xE50; 0xED0; 0xF20; 0x1040; 0x1090; 0x17E0; 0x1810;
   0x1946; 0x19D0; 0x1A80; 0x1A90; 0x1B50; 0x1BB0; 0x1C40; 0x1C50; 0xA620;
   0xA8D0; 0xA900; 0xA9D0; 0xA9F0; 0xAA50; 0xABF0; 0xFF10; 0x104A0; 0x10D30;
   0x11066; 0x110F0; 0x11136; 0x111D0; 0x112F0; 0x11450; 0x114D0; 0x11650;
   0x116C0; 0x11730; 0x118E0; 0x11950; 0x11C50; 0x11D50; 0x11DA0; 0x16A60;
   0x16AC0; 0x16B50; 0x1D7CE; 0x1D7D8; 0x1D7E2; 0x1D7EC; 0x1D7F6; 0x1E140;
   0x1E2F0; 0x1E950; 0x1FBF0]%N.

Definition expand_range (r : N * N * N * N) : list (N * list N) :=
  let '(first, last, step, image) := r in
  map (fun k => (first + N.of_nat k * step, [image + N.of_nat k * step])%N)
    (seq 0 (S (N.to_nat ((last - first) / step)))).

Definition upper_table : list (N * list N) :=
  Eval vm_compute in (special_casing ++ flat_map expand_range case_ranges)%list.

Definition to_upper (c : N) : option (list N) :=
  option_map snd (find (fun e => (fst e =? c)%N) upper_table).

Definition upper_ascii (c : ascii) : ascii :=
  let n := nat_of_ascii c in
  if (Nat.leb 97 n && Nat.leb n 122)%bool then ascii_of_nat (n - 32) else c.

Definition upper_char (ch : string) : string :=
  match ch with
  | String a "" => if is_ascii a then String (upper_ascii a) "" else ch
  | _ =>
      match code_point ch with
      | Some c =>
          match to_upper c with
          | Some image => encode image
          | None => ch
          end
      | None => ch
      end
  end.

(** [s.upper()] *)
Definition upper (s : string) : string := cat (map upper_char (characters s)).

Fixpoint startswith (s p : string) : bool :=
  match p, s with
  | EmptyString, _ => true
  | String a p', String b s' => (Ascii.eqb a b && startswith s' p')%bool
  | String _ _, EmptyString => false
  end.

(** [sub in s] *)
Fixpoint contains (s sub : string) : bool :=
  (startswith s sub ||
   match s with
   | EmptyString => false
   | String _ r => contains r sub
   end)%bool.

(** [sep.join(parts)] *)
Fixpoint join (sep : string) (parts : list string) : string :=
  match parts with
  | [] => ""
  | [p] => p
  | p :: rest => p ++ sep ++ join sep rest
  end.

(** [s.split(sep)] for a one-character separator: the result is never
    empty, and adjacent separators give empty parts. *)
Fixpoint split (sep : ascii) (s : string) : list string :=
  match s with
  | EmptyString => [""]
  | String c r =>
      if Ascii.eqb c sep then "" :: split sep r
      else match split sep r with
           | [] => [String c ""]
           | p :: ps => String c p :: ps
           end
  end.

(** [str(n)] for an integer. *)
Definition str_int (z : Z) : string := NilZero.string_of_int (Z.to_int z).

(** [s.zfill(width)] for a string of digits. *)
Definition zfill (width : nat) (s : string) : string :=
  string_of_list_ascii (repeat "0"%char (width - String.length s)) ++ s.

(** *** [int(s)]

    [int] first brings the text to ASCII: a character from 128 on becomes
    a space when it is white space, its digit when it is a decimal digit
    of any script, and a question mark otherwise; the ASCII characters
    stay.  Then it reads the ASCII text: white space, a sign, digits with
    single underscores between them, white space.  The tables are those
    of CPython 3.11 (Unicode 14.0): the white space from 128 on, and the
    zero of each run of ten decimal digits.  The bound that the
    interpreter can be set to put on the number of digits is left out. *)

(** ASCII white space: tab, line feed, vertical tab, form feed, carriage
    return, space. *)
Definition is_space (c : ascii) : bool :=
  let n := nat_of_ascii c in
  ((Nat.leb 9 n && Nat.leb n 13) || Nat.eqb n 32)%bool.

Definition to_decimal (c : N) : option N :=
  option_map (fun zero => c - zero)%N
    (find (fun zero => (zero <=? c) && (c <? zero + 10))%N decimal_zeros).

Definition ascii_char (ch : string) : string :=
  match ch with
  | String a "" => if is_ascii a then ch else "?"
  | _ =>
      match code_point ch with
      | Some c =>
          if existsb (N.eqb c) unicode_spaces then " "
          else match to_decimal c with
               | Some d => String (ascii_of_N (48 + d)) ""
               | None => "?"
               end
      | None => "?"
      end
  end.

Definition to_ascii (s : string) : string :=
  cat (map ascii_char (characters s)).

Definition digit_of (c : ascii) : option Z :=
  let n := nat_of_ascii c in
  if (Nat.leb 48 n && Nat.leb n 57)%bool then Some (Z.of_nat (n - 48)) else None.

Fixpoint lstrip (s : string) : string :=
  match s with
  | String c r => if is_space c then lstrip r else s
  | EmptyString => s
  end.

Fixpoint rev_string (s acc : string) : string :=
  match s with
  | EmptyString => acc
  | String c r => rev_string r (String c acc)
  end.

Definition strip (s : string) : string :=
  rev_string (lstrip (rev_string (lstrip s) "")) "".

(** Digits of a base-10 literal; a single underscore may separate two
    digits.  [prev] tells whether the previous character was a digit. *)
Fixpoint digits (s : string) (acc : Z) (prev : bool) : option Z :=
  match s with
  | EmptyString => if prev then Some acc else None
  | String c r =>
      match digit_of c with
      | Some d => digits r (10 * acc + d) true
      | None =>
          if (Ascii.eqb c "_" && prev)%bool then digits r acc false else None
      end
  end.

(** [int(s)]: [None] stands for [ValueError]. *)
Definition py_int (s : string) : option Z :=
  match strip (to_ascii s) with
  | String "-" r => option_map Z.opp (digits r 0 false)
  | String "+" r => digits r 0 false
  | t => digits t 0 false
  end.

End PyStr.

(** ** Python dictionaries

    A [dict] keeps its keys in insertion order, and assigning to a key
    that is already present replaces the value where the key stands. *)
Class EqKey (K : Type) := key_eqb : K -> K -> bool.

#[export] Instance string_key : EqKey string := String.eqb.

#[export] Instance option_string_key : EqKey (option string) :=
  fun a b =>
    match a, b with
    | Some x, Some y => String.eqb x y
    | None, None => true
    | _, _ => false
    end.

Module PyDict.
Section Dict.
Context {K V : Type} `{EqKey K}.

Definition dict := list (K * V).

(** [d.get(k)] *)
Fixpoint get (d : dict) (k : K) : option V :=
  match d with
  | [] => None
  | (k', v) :: r => if key_eqb k' k then Some v else get r k
  end.

(** [k in d] *)
Definition mem (d : dict) (k : K) : bool :=
  match get d k with Some _ => true | None => false end.

(** [d[k] = v] *)
Fixpoint set (d : dict) (k : K) (v : V) : dict :=
  match d with
  | [] => [(k, v)]
  | (k', v') :: r =>
      if key_eqb k' k then (k', v) :: r else (k', v') :: set r k v
  end.

Definition keys (d : dict) : list K := map fst d.
Definition values (d : dict) : list V := map snd d.
Definition items (d : dict) : list (K * V) := d.

(** [dict(pairs)] *)
Definition of_items (pairs : list (K * V)) : dict :=
  fold_left (fun d kv => set d (fst kv) (snd kv)) pairs [].
End Dict.
Arguments dict : clear implicits.
End PyDict.

(** ** Input records: JSON trees as Python holds them *)
Inductive Json : Type :=
| JNull
| JBool (b : bool)
| JInt (z : Z)
| JFloat (f : float)
| JStr (s : string)
| JList (l : list Json)
| JDict (d : list (string * Json)).

(** [bool(v)] *)
Definition truthy (v : Json) : bool :=
  match v with
  | JNull => false
  | JBool b => b
  | JInt z => negb (Z.eqb z 0)
  | JFloat f => negb (PrimFloat.eqb f 0%float)
  | JStr s => negb (String.eqb s "")
  | JList l => match l with [] => false | _ => true end
  | JDict d => match d with [] => false | _ => true end
  end.

(** [type(v).__name__] *)
Definition type_name (v : Json) : string :=
  match v with
  | JNull => "NoneType"
  | JBool _ => "bool"
  | JInt _ => "int"
  | JFloat _ => "float"
  | JStr _ => "str"
  | JList _ => "list"
  | JDict _ => "dict"
  end.

(** [a or b] *)
Definition py_or (a b : Json) : Json := if truthy a then a else b.

(** ** Exceptions *)
Inductive Exn : Type :=
| KeyError (key : string)
| IndexError (msg : string)
| TypeError (msg : string)
| ValueError (literal : string)
| AttributeError (type attribute : string).

Inductive Result (A : Type) : Type :=
| Ok (a : A)
| Raise (e : Exn).
Arguments Ok {A} a.
Arguments Raise {A} e.

Definition bind {A B : Type} (r : Result A) (k : A -> Result B) : Result B :=
  match r with
  | Ok a => k a
  | Raise e => Raise e
  end.

Notation "x <- c ;; k" := (bind c (fun x => k))
  (at level 61, c at next level, right associativity).

(** [for x in l: acc = f(acc, x)], stopping at the first exception. *)
Fixpoint foldM {A B : Type} (f : A -> B -> Result A) (acc : A) (l : list B)
  : Result A :=
  match l with
  | [] => Ok acc
  | x :: r => acc' <- f acc x ;; foldM f acc' r
  end.

(** [[f(x) for x in l]], stopping at the first exception. *)
Fixpoint mapM {A B : Type} (f : A -> Result B) (l : list A) : Result (list B) :=
  match l with
  | [] => Ok []
  | x :: r => y <- f x ;; ys <- mapM f r ;; Ok (y :: ys)
  end.

(** ** The wall clock

    [datetime.now()] is an effect: a computation that reads the clock is
    a function of the number of readings made before it, and returns the
    number made after it. *)
Record DateTime : Type := {
  year : Z; month : Z; day : Z;
  hour : Z; minute : Z; second : Z; microsecond : Z
}.

Definition M (A : Type) : Type := nat -> Result A * nat.

Definition ret {A : Type} (a : A) : M A := fun t => (Ok a, t).

Definition raise {A : Type} (e : Exn) : M A := fun t => (Raise e, t).

Definition lift {A : Type} (r : Result A) : M A := fun t => (r, t).

Definition bindM {A B : Type} (c : M A) (k : A -> M B) : M B :=
  fun t =>
    match c t with
    | (Ok a, t') => k a t'
    | (Raise e, t') => (Raise e, t')
    end.

Notation "x <~ c ;; k" := (bindM c (fun x => k))
  (at level 61, c at next level, right associativity).

Fixpoint foldMM {A B : Type} (f : A -> B -> M A) (acc : A) (l : list B) : M A :=
  match l with
  | [] => ret acc
  | x :: r => acc' <~ f acc x ;; foldMM f acc' r
  end.

(** [sorted(l, key=key)]: Python's sort is stable, so the result is the
    one list that is ordered by [key] and keeps elements of equal key in
    the order of [l]; insertion from the right computes it. *)
Section Sorted.
Context {A : Type} (key : A -> Z).

Fixpoint insert_by (x : A) (l : list A) : list A :=
  match l with
  | [] => [x]
  | y :: r => if key x <=? key y then x :: y :: r else y :: insert_by x r
  end.

Fixpoint sorted_by (l : list A) : list A :=
  match l with
  | [] => []
  | x :: r => insert_by x (sorted_by r)
  end.
End Sorted.

(** ** The compiled configuration *)

(** One row of [csv.DictReader]: column name to text, or to [None] where
    the line is shorter than the header. *)
Definition Row : Type := PyDict.dict string (option string).

(** [row[col]] *)
Definition row_item (row : Row) (col : string) : Result (option string) :=
  match PyDict.get row col with
  | Some v => Ok v
  | None => Raise (KeyError col)
  end.

(** [row.get(col, '')] *)
Definition row_get (row : Row) (col : string) : option string :=
  match PyDict.get row col with
  | Some v => v
  | None => Some ""
  end.

(** [bool(x)] and [f"{x}"] for a value that is a [str] or [None]. *)
Definition truthy_text (x : option string) : bool :=
  match x with
  | Some s => negb (String.eqb s "")
  | None => false
  end.

Definition format_text (x : option string) : string :=
  match x with
  | Some s => s
  | None => "None"
  end.

Module FieldConfig.
Record t : Type := mk {
  identifier : option string;
  display_name : option string;
  data_type : option string;
  unit : option string;
  sequence : Z;
  json_attribute : string;
  child_obr : option string;
  segment_id : option string;
  hl7_key : option string
}.
End FieldConfig.

Record Mappings : Type := {
  segment_order : list (option string);
  segments : PyDict.dict (option string) (PyDict.dict string FieldConfig.t);
  obr_sections : PyDict.dict string (list FieldConfig.t);
  field_sequence : PyDict.dict string Z
}.

Definition empty_mappings : Mappings :=
  {| segment_order := []; segments := []; obr_sections := [];
     field_sequence := [] |}.

(** [int(row['SEQUENCE']) if row['SEQUENCE'] else 999] *)
Definition sequence_of (text : option string) : Result Z :=
  match text with
  | Some s =>
      if truthy_text (Some s) then
        match PyStr.py_int s with
        | Some z => Ok z
        | None => Raise (ValueError s)
        end
      else Ok 999
  | None => Ok 999
  end.

(** The dictionary [field_config] built from one row, with the segment
    name and the group tag read on the way. *)
Definition read_row (row : Row)
  : Result (option string * FieldConfig.t) :=
  segment <- row_item row "SEGMENT" ;;
  let segment_id := row_get row "SEGMENT_ID" in
  let child_obr := row_get row "CHILD_OBR" in
  attribute <- row_item row "JSON_ATTRIBUTE" ;;
  json_attr <- match attribute with
               | Some a => Ok (PyStr.upper (PyStr.replace " " "_" a))
               | None => Raise (AttributeError "NoneType" "replace")
               end ;;
  let hl7_key := row_get row "HL7_KEY" in
  identifier <- row_item row "IDENTIFIER" ;;
  display_name <- row_item row "DISPLAY_NAME" ;;
  data_type <- row_item row "DATA_TYPE" ;;
  let unit := row_get row "UNIT" in
  sequence_text <- row_item row "SEQUENCE" ;;
  sequence <- sequence_of sequence_text ;;
  Ok (segment,
      FieldConfig.mk identifier display_name data_type unit sequence
        json_attr child_obr segment_id hl7_key).

(** A row goes to its group when it is an [OBX] row with a group tag. *)
Definition group_of (segment : option string) (fc : FieldConfig.t)
  : option string :=
  if (key_eqb segment (Some "OBX") && truthy_text (FieldConfig.child_obr fc))%bool
  then FieldConfig.child_obr fc else None.

(** The part of the loop body that files a row in the mappings. *)
Definition file_row (m : Mappings) (segment : option string)
    (fc : FieldConfig.t) : Mappings :=
  let json_attr := FieldConfig.json_attribute fc in
  let order :=
    if existsb (key_eqb segment) (segment_order m) then segment_order m
    else (segment_order m ++ [segment])%list in
  let segs :=
    if PyDict.mem (segments m) segment then segments m
    else PyDict.set (segments m) segment [] in
  let seqs :=
    PyDict.set (field_sequence m)
      (format_text segment ++ "_" ++ json_attr) (FieldConfig.sequence fc) in
  match group_of segment fc with
  | Some tag =>
      let fields :=
        match PyDict.get (obr_sections m) tag with
        | Some l => l
        | None => []
        end in
      {| segment_order := order; segments := segs;
         obr_sections := PyDict.set (obr_sections m) tag (fields ++ [fc])%list;
         field_sequence := seqs |}
  | None =>
      let fields :=
        match PyDict.get segs segment with
        | Some d => d
        | None => []
        end in
      {| segment_order := order;
         segments := PyDict.set segs segment (PyDict.set fields json_attr fc);
         obr_sections := obr_sections m;
         field_sequence := seqs |}
  end.

Definition add_row (m : Mappings) (row : Row) : Result Mappings :=
  r <- read_row row ;;
  Ok (file_row m (fst r) (snd r)).

Definition sequence_of_item (kv : string * FieldConfig.t) : Z :=
  FieldConfig.sequence (snd kv).

(** The two closing loops: every segment's dictionary and every group's
    list is replaced by its sorted version. *)
Definition sort_mappings (m : Mappings) : Mappings :=
  {| segment_order := segment_order m;
     segments :=
       map (fun kv =>
              (fst kv,
               PyDict.of_items (sorted_by sequence_of_item (PyDict.items (snd kv)))))
           (segments m);
     obr_sections :=
       map (fun kv => (fst kv, sorted_by FieldConfig.sequence (snd kv)))
           (obr_sections m);
     field_sequence := field_sequence m |}.

Definition _build_dynamic_mappings (config_data : list Row) : Result Mappings :=
  m <- foldM add_row empty_mappings config_data ;;
  Ok (sort_mappings m).

(** ** Normalisation and path resolution *)

(** [key.replace(' ', '_').replace('-', '_').upper()] *)
Definition normalize_key (key : string) : string :=
  PyStr.upper (PyStr.replace "-" "_" (PyStr.replace " " "_" key)).

Fixpoint _normalize_json_data (data : Json) : Json :=
  match data with
  | JDict d =>
      JDict
        (fold_left
           (fun normalized kv =>
              match kv with
              | (key, value) =>
                  PyDict.set normalized (normalize_key key)
                    (_normalize_json_data value)
              end)
           d [])
  | JList l => JList (map _normalize_json_data l)
  | _ => data
  end.

(** [item.get(key)]: only a dictionary has the method. *)
Definition item_get (key : string) (item : Json) : Result Json :=
  match item with
  | JDict d =>
      match PyDict.get d key with
      | Some v => Ok v
      | None => Ok JNull
      end
  | _ => Raise (AttributeError (type_name item) "get")
  end.

(** The loop over the keys of the path; [JNull] is Python's [None]. *)
Fixpoint walk (current : Json) (keys : list string) : Result Json :=
  match keys with
  | [] => Ok current
  | key :: rest =>
      match current with
      | JDict d =>
          match PyDict.get d key with
          | Some v => walk v rest
          | None => Ok JNull
          end
      | JList (first :: others) =>
          match first with
          | JDict d0 =>
              if PyDict.mem d0 key then
                projected <- mapM (item_get key) (first :: others) ;;
                walk (JList projected) rest
              else Ok JNull
          | _ => Ok JNull
          end
      | _ => Ok JNull
      end
  end.

(** [except (KeyError, IndexError, TypeError): return None] *)
Definition except_lookup_errors (r : Result Json) : Result Json :=
  match r with
  | Raise (KeyError _) | Raise (IndexError _) | Raise (TypeError _) => Ok JNull
  | _ => r
  end.

Definition _get_field_value (data : Json) (field_path : string) : Result Json :=
  except_lookup_errors (walk data (PyStr.split "." field_path)).

(** [d.get(key, default)] on a value that has to be a dictionary. *)
Definition json_get (v : Json) (key : string) (default : Json) : Result Json :=
  match v with
  | JDict d =>
      match PyDict.get d key with
      | Some x => Ok x
      | None => Ok default
      end
  | _ => Raise (AttributeError (type_name v) "get")
  end.

(** [v.items()] *)
Definition json_items (v : Json) : Result (list (string * Json)) :=
  match v with
  | JDict d => Ok d
  | _ => Raise (AttributeError (type_name v) "items")
  end.

(** ** The generator

    The section fixes what an instance holds or inherits from Python: the
    compiled mappings, the clock, and the text Python prints for a float
    and for a quoted string. *)
Section Generator.
Variable repr_float : float -> string.
Variable repr_str : string -> string.
Variable now : nat -> DateTime.
Variable segment_mappings : Mappings.

Definition version : string := "2.5".

(** [repr(v)] *)
Fixpoint py_repr (v : Json) : string :=
  match v with
  | JNull => "None"
  | JBool b => if b then "True" else "False"
  | JInt z => PyStr.str_int z
  | JFloat f => repr_float f
  | JStr s => repr_str s
  | JList l => "[" ++ PyStr.join ", " (map py_repr l) ++ "]"
  | JDict d =>
      "{" ++ PyStr.join ", "
               (map (fun kv =>
                       match kv with
                       | (k, x) => repr_str k ++ ": " ++ py_repr x
                       end) d)
          ++ "}"
  end.

(** [str(v)], which is also [f"{v}"] *)
Definition py_str (v : Json) : string :=
  match v with
  | JStr s => s
  | _ => py_repr v
  end.

(** [str(e)] *)
Definition str_exn (e : Exn) : string :=
  match e with
  | KeyError k => repr_str k
  | IndexError msg => msg
  | TypeError msg => msg
  | ValueError lit => "invalid literal for int() with base 10: " ++ repr_str lit
  | AttributeError ty attr =>
      "'" ++ ty ++ "' object has no attribute '" ++ attr ++ "'"
  end.

(** [strftime("%Y%m%d%H%M%S")] *)
Definition strftime (d : DateTime) : string :=
  PyStr.zfill 4 (PyStr.str_int (year d)) ++
  PyStr.zfill 2 (PyStr.str_int (month d)) ++
  PyStr.zfill 2 (PyStr.str_int (day d)) ++
  PyStr.zfill 2 (PyStr.str_int (hour d)) ++
  PyStr.zfill 2 (PyStr.str_int (minute d)) ++
  PyStr.zfill 2 (PyStr.str_int (second d)).

(** [isoformat()] *)
Definition isoformat (d : DateTime) : string :=
  PyStr.zfill 4 (PyStr.str_int (year d)) ++ "-" ++
  PyStr.zfill 2 (PyStr.str_int (month d)) ++ "-" ++
  PyStr.zfill 2 (PyStr.str_int (day d)) ++ "T" ++
  PyStr.zfill 2 (PyStr.str_int (hour d)) ++ ":" ++
  PyStr.zfill 2 (PyStr.str_int (minute d)) ++ ":" ++
  PyStr.zfill 2 (PyStr.str_int (second d)) ++
  (if microsecond d =? 0 then ""
   else "." ++ PyStr.zfill 6 (PyStr.str_int (microsecond d))).

(** Every call reads the clock. *)
Definition _get_timestamp : M string :=
  fun t => (Ok (strftime (now t)), S t).

(** *** The lines of the fixed segments *)
Definition msh_line (ts1 ts2 : string) : string :=
  "MSH|^~\&|SENDING_APP|SENDING_FACILITY|RECEIVING_APP|RECEIVING_FACILITY|"
  ++ ts1 ++ "||ORU^R01|" ++ ts2 ++ "|P|" ++ version.

Definition bhs_line (ts batch_type batch_id : string) : string :=
  "BHS|^~\&|SENDING_APP|SENDING_FACILITY|RECEIVING_APP|RECEIVING_FACILITY|"
  ++ ts ++ "||BatchType-" ++ batch_type ++ "||" ++ batch_id.

Definition pv1_line (set_id : Z) (clinic_name : string) : string :=
  "PV1|" ++ PyStr.str_int set_id ++ "|o|^^^" ++ clinic_name.

Definition orc_line (treatment_id ts : string) : string :=
  "ORC|RE|" ++ treatment_id ++ "|FILLER_ID|||||||" ++ ts.

(** What one configured identifier adds to [id_fields]. *)
Definition pid_token (fc : FieldConfig.t) (field_value : Json) : list string :=
  if truthy field_value then
    if (String.eqb (FieldConfig.json_attribute fc) "ERP_PATIENT_ID"
        || String.eqb (FieldConfig.json_attribute fc) "BAXTER_PATIENT_ID")%bool
    then [py_str field_value ++ "^^^Baxter_Patient_ID"]
    else if String.eqb (FieldConfig.json_attribute fc) "CLINIC_PATIENT_ID"
    then [py_str field_value ++ "^^^Clinic_Patient_ID"]
    else []
  else [].

Definition pid_id_fields (data : Json) (fields : list FieldConfig.t)
  : Result (list string) :=
  foldM (fun id_fields fc =>
           field_value <-
             _get_field_value data
               ("PATIENT_INFO." ++ FieldConfig.json_attribute fc) ;;
           Ok (id_fields ++ pid_token fc field_value)%list)
        [] fields.

Definition pid_name (first_name last_name middle_name : Json) : string :=
  if truthy (py_or first_name last_name) then
    py_str (py_or last_name (JStr "")) ++ "^" ++
    py_str (py_or first_name (JStr "")) ++ "^" ++
    py_str (py_or middle_name (JStr ""))
  else "".

(** The line built from the configured identifiers [fields]. *)
Definition pid_fields_line (data : Json) (set_id : Z)
    (fields : list FieldConfig.t) : Result (list string) :=
  let pid_fields := ["PID"; PyStr.str_int set_id] in
  id_fields <- pid_id_fields data fields ;;
  let pid_fields :=
    (pid_fields ++ id_fields ++ repeat "" (4 - length id_fields))%list in
  first_name <- _get_field_value data "PATIENT_INFO.FIRST_NAME" ;;
  last_name <- _get_field_value data "PATIENT_INFO.LAST_NAME" ;;
  middle_name <- _get_field_value data "PATIENT_INFO.MIDDLE_NAME" ;;
  let pid_fields :=
    (pid_fields ++ [pid_name first_name last_name middle_name])%list in
  Ok [PyStr.join "|" pid_fields].

Definition pid_segment (data : Json) (set_id : Z) : Result (list string) :=
  fields <- match PyDict.get (segments segment_mappings) (Some "PID") with
            | Some d => Ok (PyDict.values d)
            | None => Raise (KeyError "PID")
            end ;;
  pid_fields_line data set_id fields.

Definition _build_segment (segment_type : string) (data : Json) (set_id : Z)
  : M (list string) :=
  if String.eqb segment_type "MSH" then
    ts1 <~ _get_timestamp ;;
    ts2 <~ _get_timestamp ;;
    ret [msh_line ts1 ts2]
  else if String.eqb segment_type "BHS" then
    batch_data <~ lift (json_get data "BATCH" (JDict [])) ;;
    ts <~ _get_timestamp ;;
    batch_type <~ lift (json_get batch_data "TYPE" (JStr "Normal")) ;;
    batch_id <~ lift (json_get batch_data "ID" (JStr "")) ;;
    ret [bhs_line ts (py_str batch_type) (py_str batch_id)]
  else if String.eqb segment_type "PID" then
    lift (pid_segment data set_id)
  else if String.eqb segment_type "PV1" then
    clinic <~ lift (_get_field_value data "PATIENT_INFO.CLINIC_NAME") ;;
    ret [pv1_line set_id (py_str (py_or clinic (JStr "XYZClinic")))]
  else if String.eqb segment_type "ORC" then
    treatment <~ lift (_get_field_value data "PATIENT_INFO.TREATMENT_ID") ;;
    ts <~ _get_timestamp ;;
    ret [orc_line (py_str (py_or treatment (JStr ""))) ts]
  else ret [].

(** *** Configured groups *)
Definition obr_line (obr_counter : Z) (obr_identifier obr_display_name : string)
  : string :=
  "OBR|" ++ PyStr.str_int obr_counter ++ "|||" ++ obr_identifier ++ "^"
  ++ obr_display_name ++ "|||202510151234" ++ PyStr.str_int (23 + obr_counter).

Definition obx_line (obx_config : FieldConfig.t) (value : Json)
    (obr_set_id obx_set_id : Z) : string :=
  let unit_str :=
    if truthy_text (FieldConfig.unit obx_config)
    then "|" ++ format_text (FieldConfig.unit obx_config) else "" in
  "OBX|" ++ PyStr.str_int obx_set_id ++ "|"
  ++ format_text (FieldConfig.data_type obx_config) ++ "|"
  ++ format_text (FieldConfig.identifier obx_config) ++ "^"
  ++ format_text (FieldConfig.display_name obx_config) ++ "|"
  ++ PyStr.str_int obr_set_id ++ "|" ++ py_str value ++ unit_str ++ "|||||F".

Definition _add_obx_segment (segments : list string) (obx_config : FieldConfig.t)
    (value : Json) (obr_set_id obx_set_id : Z) : list string :=
  (segments ++ [obx_line obx_config value obr_set_id obx_set_id])%list.

(** [self.segment_mappings['obr_sections'].get(tag, [])] *)
Definition section_fields (tag : option string) : list FieldConfig.t :=
  match tag with
  | Some t =>
      match PyDict.get (obr_sections segment_mappings) t with
      | Some l => l
      | None => []
      end
  | None => []
  end.

(** The first field of the group bound to the attribute, if any. *)
Definition matching_config (obx_config : FieldConfig.t) (attr : string)
  : option FieldConfig.t :=
  find (fun config => String.eqb (FieldConfig.json_attribute config) attr)
       (section_fields (FieldConfig.child_obr obx_config)).

(** One attribute of a nested record; the state is the list of lines
    and the local child counter. *)
Definition nested_attribute (obr_counter : Z) (obx_config : FieldConfig.t)
    (st : list string * Z) (kv : string * Json) : list string * Z :=
  match matching_config obx_config (fst kv) with
  | Some config =>
      (_add_obx_segment (fst st) config (snd kv) obr_counter (snd st),
       snd st + 1)
  | None => st
  end.

Definition _process_nested_obx (segments : list string)
    (nested_data : list (string * Json)) (obr_counter : Z)
    (obx_config : FieldConfig.t) (obx_counter : Z) : Result (list string) :=
  st <- foldM (fun st kv =>
                 if String.eqb (fst kv) "CYCLEATTRIBUTES" then
                   attrs <- json_items (snd kv) ;;
                   Ok (fold_left (nested_attribute obr_counter obx_config)
                                 attrs st)
                 else Ok (nested_attribute obr_counter obx_config st kv))
              (segments, obx_counter) nested_data ;;
  Ok (fst st).

(** The state of the loops of [_build_obr_section]: the lines, the
    parent counter and the child counter. *)
Definition SectionState : Type := (list string * Z * Z)%type.

Definition section_item (obx_config : FieldConfig.t) (st : SectionState)
    (item : Json) : Result SectionState :=
  match st with
  | (segments, obr_counter, obx_counter) =>
      match item with
      | JDict d =>
          segments' <- _process_nested_obx segments d obr_counter obx_config
                         obx_counter ;;
          Ok (segments', obr_counter + 1, 1)
      | _ =>
          Ok (_add_obx_segment segments obx_config item obr_counter obx_counter,
              obr_counter, obx_counter + 1)
      end
  end.

Definition section_field (obr_section : string) (data : Json)
    (st : SectionState) (obx_config : FieldConfig.t) : Result SectionState :=
  let json_attr := FieldConfig.json_attribute obx_config in
  direct <- _get_field_value data json_attr ;;
  field_value <- match direct with
                 | JNull => _get_field_value data (obr_section ++ "." ++ json_attr)
                 | _ => Ok direct
                 end ;;
  match field_value with
  | JNull => Ok st
  | JList l => foldM (section_item obx_config) st l
  | _ =>
      match st with
      | (segments, obr_counter, obx_counter) =>
          Ok (_add_obx_segment segments obx_config field_value obr_counter
                obx_counter,
              obr_counter, obx_counter + 1)
      end
  end.

Definition _build_obr_section (obr_section : string) (data : Json)
    (obr_counter : Z) : Result (list string) :=
  obr_fields <- match PyDict.get (segments segment_mappings) (Some "OBR") with
                | Some d => Ok d
                | None => Raise (KeyError "OBR")
                end ;;
  match PyDict.get obr_fields obr_section with
  | None => Ok []
  | Some obr_config =>
      let segments :=
        [obr_line obr_counter
           (format_text (FieldConfig.identifier obr_config))
           (format_text (FieldConfig.display_name obr_config))] in
      st <- foldM (section_field obr_section data) (segments, obr_counter, 1)
              (section_fields (Some obr_section)) ;;
      Ok (fst (fst st))
  end.

(** *** The message *)
Definition is_obr (s : string) : bool := PyStr.startswith s "OBR".

(** The loop over the configured groups, from the lines and the parent
    counter it starts with. *)
Definition group_step (data : Json) (st : list string * Z) (obr_section : string)
  : Result (list string * Z) :=
  obr_segments <- _build_obr_section obr_section data (snd st) ;;
  Ok ((fst st ++ obr_segments)%list,
      match obr_segments with
      | [] => snd st
      | _ => snd st + Z.of_nat (length (filter is_obr obr_segments))
      end).

Definition fixed_segment_step (data : Json) (hl7_segments : list string)
    (segment_type : string) : M (list string) :=
  segments <~ _build_segment segment_type data 1 ;;
  ret (hl7_segments ++ segments)%list.

Definition nte_line (treatment_id : string) : string :=
  "NTE|1||Treatment ID: " ++ treatment_id ++ "|".

Definition device_line (device_type : string) : string :=
  "OBX|1|ST|DEVICE_TYPE^Device Type|1|" ++ device_type ++ "||||||F".

(** The lines of the message, before they are joined. *)
Definition hl7_segments (json_data : Json) : M (list string) :=
  let normalized_data := _normalize_json_data json_data in
  lines <~ foldMM (fixed_segment_step normalized_data) []
             ["BHS"; "MSH"; "PID"; "PV1"; "ORC"] ;;
  let lines :=
    (lines ++
     ["OBR|1|||VITAL_SIGNS^Vitals Panel^CLINIC_APP|||20251015123423"])%list in
  treatment <~ lift (_get_field_value normalized_data "PATIENT_INFO.TREATMENT_ID") ;;
  let lines :=
    (lines ++
     [nte_line (py_str (py_or treatment (JStr "")));
      "NTE|2||Clinic Timezone: PST"])%list in
  device_type <~ lift (_get_field_value normalized_data "PATIENT_INFO.DEVICE_TYPE") ;;
  let lines :=
    if truthy device_type then
      (lines ++ [device_line (py_str device_type)])%list
    else lines in
  st <~ lift (foldM (group_step normalized_data) (lines, 2)
                (PyDict.keys (obr_sections segment_mappings))) ;;
  ret (fst st ++ ["BTS|1|final segment|100"])%list.

Definition generate_hl7 (json_data : Json) : M string :=
  lines <~ hl7_segments json_data ;;
  ret (PyStr.join (String "010"%char "") lines).

(** ** The batch processor *)
Inductive Outcome : Type :=
| Success (sequence : Z) (hl7_message : string) (timestamp : string)
| Failure (sequence : Z) (error : string) (timestamp : string).

Definition outcome_sequence (o : Outcome) : Z :=
  match o with Success i _ _ | Failure i _ _ => i end.

Definition outcome_status (o : Outcome) : string :=
  match o with Success _ _ _ => "success" | Failure _ _ _ => "error" end.

Definition outcome_timestamp (o : Outcome) : string :=
  match o with Success _ _ ts | Failure _ _ ts => ts end.

(** One turn of the loop: the record, its number, the clock. *)
Definition process_record (i : Z) (json_data : Json) (t : nat) : Outcome * nat :=
  match generate_hl7 json_data t with
  | (Ok hl7_message, t') => (Success i hl7_message (isoformat (now t')), S t')
  | (Raise e, t') => (Failure i (str_exn e) (isoformat (now t')), S t')
  end.

Fixpoint process_from (i : Z) (json_data_list : list Json) (t : nat)
  : list Outcome * nat :=
  match json_data_list with
  | [] => ([], t)
  | json_data :: rest =>
      let (o, t') := process_record i json_data t in
      let (os, t'') := process_from (i + 1) rest t' in
      (o :: os, t'')
  end.

Definition process_batch (json_data_list : list Json) (t : nat)
  : list Outcome * nat :=
  process_from 1 json_data_list t.

End Generator.

(** ** Writing the messages to files

    [process_to_files] runs the batch and then writes the message of each
    successful outcome to the file named after its number.  The files are a
    dictionary from names to contents; [open(filename, 'w')] creates or
    replaces the file, or raises [OSError], which nothing catches. *)
Definition Files : Type := PyDict.dict string string.

(** [f"{n:03d}"] *)
Definition format_03d (n : Z) : string :=
  if n <? 0 then "-" ++ PyStr.zfill 2 (PyStr.str_int (- n))
  else PyStr.zfill 3 (PyStr.str_int n).

(** [f"{output_prefix}_{sequence:03d}.hl7"] *)
Definition output_filename (output_prefix : string) (sequence : Z) : string :=
  output_prefix ++ "_" ++ format_03d sequence ++ ".hl7".


Inductive OSError : Type :=
| CannotOpen (filename : string).

Section FileOutput.

Variable repr_float : PrimFloat.float -> string.
Variable repr_str : string -> string.
Variable now : nat -> DateTime.
Variable segment_mappings : Mappings.

(** Whether [open(filename, 'w')] succeeds. *)
Variable can_open : string -> bool.

(** The loop over the outcomes, with the files and [success_count]; the
    files are returned as the loop leaves them, also when it raises. *)
Fixpoint save_results (output_prefix : string) (outcomes : list Outcome)
  (files : Files) (success_count : Z) : (OSError + Z) * Files :=
  match outcomes with
  | [] => (inr success_count, files)
  | Success sequence hl7_message _ :: rest =>
      let filename := output_filename output_prefix sequence in
      if can_open filename then
        save_results output_prefix rest
          (PyDict.set files filename hl7_message) (success_count + 1)
      else (inl (CannotOpen filename), files)
  | Failure _ _ _ :: rest => save_results output_prefix rest files success_count
  end.


End FileOutput.

(** * Notions used in the statements *)

(** The two replacements of [normalize_key] on one byte, and its three
    steps on one character. *)
Definition replace_both (c : ascii) : ascii :=
  PyStr.replace_char "-" "_" (PyStr.replace_char " " "_" c).

Definition normalize_char (ch : string) : string :=
  PyStr.upper_char (PyStr.string_map replace_both ch).

(** One character: a byte and the continuation bytes after it. *)
Definition is_char (ch : string) : bool :=
  match ch with
  | String _ t => forallb PyStr.is_continuation (list_ascii_of_string t)
  | EmptyString => false
  end.

(** What the normalisation needs of an upper case in the table: it is
    not empty, it starts a character, its characters are left as they are
    by the normalisation, and it holds no space and no hyphen. *)
Definition image_ok (image : list N) : bool :=
  let u := PyStr.encode image in
  (negb (String.eqb u "") && negb (PyStr.continues u)
   && forallb (fun x => String.eqb (normalize_char x) x) (PyStr.characters u)
   && forallb (fun b => negb (Ascii.eqb b "-") && negb (Ascii.eqb b " "))
        (list_ascii_of_string u))%bool.

(** A row reads well up to its sequence column: the other columns that
    the compiler indexes are there, and the attribute has a text. *)
Definition other_columns_read (row : Row) : Prop :=
  (exists v, PyDict.get row "SEGMENT" = Some v) /\
  (exists a, PyDict.get row "JSON_ATTRIBUTE" = Some (Some a)) /\
  (exists v, PyDict.get row "IDENTIFIER" = Some v) /\
  (exists v, PyDict.get row "DISPLAY_NAME" = Some v) /\
  (exists v, PyDict.get row "DATA_TYPE" = Some v).

(** Two outcomes of a resolution that the encoder cannot tell apart where
    it tests the value for truth: the same outcome, or two values that
    are both false ([""], [0], [None], ...). *)
Definition same_when_truthy (r1 r2 : Result Json) : Prop :=
  r1 = r2 \/
  exists v1 v2, r1 = Ok v1 /\ r2 = Ok v2 /\ truthy v1 = false /\ truthy v2 = false.

(** The paths the patient-identification segment resolves. *)
Definition pid_paths (fields : list FieldConfig.t) : list string :=
  (map (fun fc => ("PATIENT_INFO." ++ FieldConfig.json_attribute fc)%string) fields
   ++ ["PATIENT_INFO.FIRST_NAME"; "PATIENT_INFO.LAST_NAME";
       "PATIENT_INFO.MIDDLE_NAME"])%list.

(** The lines a message starts with, ahead of the configured groups. *)
Definition head_lines (fixed : list string) (treatment_id : string)
    (device : list string) : list string :=
  (fixed
   ++ ["OBR|1|||VITAL_SIGNS^Vitals Panel^CLINIC_APP|||20251015123423";
       nte_line treatment_id;
       "NTE|2||Clinic Timezone: PST"]
   ++ device)%list.

(** The counter a line carries: its second field, read as a decimal
    number. *)
Definition set_id_of (line : string) : option Z :=
  match PyStr.split "|" line with
  | _ :: field :: _ => option_map Z.of_int (NilZero.int_of_string field)
  | _ => None
  end.

(** The counters of the parent lines, in the order of the lines. *)
Definition parent_counters (lines : list string) : list (option Z) :=
  map set_id_of (filter is_obr lines).

(** [later] is [earlier] followed by lines that are not parent lines. *)
Definition adds_children (earlier later : list string) : Prop :=
  exists children,
    later = (earlier ++ children)%list /\
    Forall (fun l => is_obr l = false) children.

Definition state_lines (st : SectionState) : list string := fst (fst st).

(** [count_up c k] is [c; c + 1; ...], [k] numbers. *)
Fixpoint count_up (c : Z) (k : nat) : list Z :=
  match k with
  | O => []
  | S k' => c :: count_up (c + 1) k'
  end.

(** Two outcomes agree when both raise the same exception, or both
    return and the values are related by [R]. *)
Definition agree {A : Type} (R : A -> A -> Prop) (r1 r2 : Result A) : Prop :=
  match r1, r2 with
  | Ok a1, Ok a2 => R a1 a2
  | Raise e1, Raise e2 => e1 = e2
  | _, _ => False
  end.

(** Two computations agree whatever the clock shows to each. *)
Definition alike {A : Type} (R : A -> A -> Prop) (c1 c2 : M A) : Prop :=
  forall t1 t2, agree R (fst (c1 t1)) (fst (c2 t2)).

Definition any {A : Type} (_ _ : A) : Prop := True.

(** Encoding the record raises an error, at some state of the clock. *)
Definition encoding_fails (repr_float : float -> string)
    (repr_str : string -> string) (now : nat -> DateTime) (m : Mappings)
    (json_data : Json) : Prop :=
  exists t e, fst (generate_hl7 repr_float repr_str now m json_data t) = Raise e.

(** A row as the compiler reads it: its segment and its field. *)
Definition ReadRow : Type := (option string * FieldConfig.t)%type.

(** The rows filed directly under [segment], as pairs of attribute and
    field, in the order of the configuration. *)
Definition is_direct (segment : option string) (r : ReadRow) : bool :=
  (key_eqb (fst r) segment &&
   match group_of (fst r) (snd r) with
   | None => true
   | Some _ => false
   end)%bool.

Definition direct_rows (segment : option string) (cfgs : list ReadRow)
  : list (string * FieldConfig.t) :=
  map (fun r => (FieldConfig.json_attribute (snd r), snd r))
      (filter (is_direct segment) cfgs).

(** The rows filed under the group [tag], in the order of the
    configuration. *)
Definition in_group (tag : string) (r : ReadRow) : bool :=
  match group_of (fst r) (snd r) with
  | Some t => key_eqb t tag
  | None => false
  end.

Definition group_rows (tag : string) (cfgs : list ReadRow) : list FieldConfig.t :=
  map snd (filter (in_group tag) cfgs).

Definition file_rows (cfgs : list ReadRow) (m : Mappings) : Mappings :=
  fold_left (fun m r => file_row m (fst r) (snd r)) cfgs m.

Definition lookup_segment (m : Mappings) (segment : option string)
  : PyDict.dict string FieldConfig.t :=
  match PyDict.get (segments m) segment with
  | Some d => d
  | None => []
  end.

Definition lookup_group (m : Mappings) (tag : string) : list FieldConfig.t :=
  match PyDict.get (obr_sections m) tag with
  | Some l => l
  | None => []
  end.

(** Ascending by sequence number. *)
Definition ascending (fields : list FieldConfig.t) : Prop :=
  StronglySorted
    (fun a b => FieldConfig.sequence a <= FieldConfig.sequence b) fields.

(** The fields of one sequence number, in the order of the list. *)
Definition with_sequence (k : Z) (fields : list FieldConfig.t)
  : list FieldConfig.t :=
  filter (fun fc => FieldConfig.sequence fc =? k) fields.

(** [s] is [l] with some elements left out. *)
Inductive subsequence {A : Type} : list A -> list A -> Prop :=
| sub_nil : forall l, subsequence [] l
| sub_take : forall x s l, subsequence s l -> subsequence (x :: s) (x :: l)
| sub_skip : forall y s l, subsequence s l -> subsequence s (y :: l).

Definition fails {A : Type} (r : Result A) : Prop := exists e, r = Raise e.

(** * Sample configurations and records *)
Module Examples.

(** Python's [repr] of a text that holds no quote and no escape. *)
Definition quote (s : string) : string := "'" ++ s ++ "'".

(** The samples hold no float, so the text printed for one plays no
    part in them. *)
Definition no_float (f : float) : string := "".

(** A clock that advances by one second between two readings. *)
Definition ticking_clock (n : nat) : DateTime :=
  {| year := 2025; month := 10; day := 15; hour := 12; minute := 34;
     second := Z.of_nat n; microsecond := 0 |}.

(** A line of the configuration file with all ten columns. *)
Definition config_row (segment child_obr attribute identifier display_name
    data_type unit sequence : string) : Row :=
  [("SEGMENT", Some segment); ("SEGMENT_ID", Some "");
   ("CHILD_OBR", Some child_obr); ("JSON_ATTRIBUTE", Some attribute);
   ("HL7_KEY", Some ""); ("IDENTIFIER", Some identifier);
   ("DISPLAY_NAME", Some display_name); ("DATA_TYPE", Some data_type);
   ("UNIT", Some unit); ("SEQUENCE", Some sequence)].

Definition text_sequence_row : Row :=
  config_row "PID" "" "Clinic Patient ID" "CPID" "Clinic Patient ID" "ST" "" "abc".

Definition empty_sequence_row : Row :=
  config_row "PID" "" "Clinic Patient ID" "CPID" "Clinic Patient ID" "ST" "" "".

(** The same line in a file whose header has no [SEQUENCE] column. *)
Definition no_sequence_row : Row :=
  [("SEGMENT", Some "PID"); ("JSON_ATTRIBUTE", Some "Clinic Patient ID");
   ("IDENTIFIER", Some "CPID"); ("DISPLAY_NAME", Some "Clinic Patient ID");
   ("DATA_TYPE", Some "ST")].

(** A group [ACTUAL_THERAPY] with three child fields, and a group
    [VITALS] with one. *)
Definition therapy_config : list Row :=
  [config_row "PID" "" "Clinic Patient ID" "CPID" "Clinic Patient ID" "ST" "" "1";
   config_row "OBR" "" "Actual Therapy" "AT" "Actual Therapy" "ST" "" "1";
   config_row "OBR" "" "Vitals" "VT" "Vitals" "ST" "" "2";
   config_row "OBX" "ACTUAL_THERAPY" "Actual Therapy" "CYC" "Cycles" "ST" "" "1";
   config_row "OBX" "ACTUAL_THERAPY" "Cycle Type" "CT" "Cycle Type" "ST" "" "2";
   config_row "OBX" "ACTUAL_THERAPY" "Fill Volume" "FV" "Fill Volume" "NM" "mL" "3";
   config_row "OBX" "VITALS" "Weight" "WT" "Weight" "NM" "kg" "1"].

Definition therapy_mappings : Mappings :=
  match _build_dynamic_mappings therapy_config with
  | Ok m => m
  | Raise _ => empty_mappings
  end.

(** A record with two therapy cycles. *)
Definition two_cycles : Json :=
  JDict
    [("Patient Info",
      JDict [("Clinic Patient ID", JStr "9820609");
             ("Treatment ID", JInt 1264740)]);
     ("Actual Therapy",
      JList
        [JDict [("Cycle Type", JStr "Night 5");
                ("CycleAttributes", JDict [("Fill Volume", JInt 100)])];
         JDict [("Cycle Type", JStr "Night 6");
                ("CycleAttributes", JDict [("Fill Volume", JInt 200)])]]);
     ("Weight", JInt 70)].

(** The lines of its message, for the clock that starts at second 0. *)
Definition two_cycles_lines : list string :=
  ["BHS|^~\&|SENDING_APP|SENDING_FACILITY|RECEIVING_APP|RECEIVING_FACILITY|20251015123400||BatchType-Normal||";
   "MSH|^~\&|SENDING_APP|SENDING_FACILITY|RECEIVING_APP|RECEIVING_FACILITY|20251015123401||ORU^R01|20251015123402|P|2.5";
   "PID|1|9820609^^^Clinic_Patient_ID||||";
   "PV1|1|o|^^^XYZClinic";
   "ORC|RE|1264740|FILLER_ID|||||||20251015123403";
   "OBR|1|||VITAL_SIGNS^Vitals Panel^CLINIC_APP|||20251015123423";
   "NTE|1||Treatment ID: 1264740|";
   "NTE|2||Clinic Timezone: PST";
   "OBR|2|||AT^Actual Therapy|||20251015123425";
   "OBX|1|ST|CT^Cycle Type|2|Night 5|||||F";
   "OBX|2|NM|FV^Fill Volume|2|100|mL|||||F";
   "OBX|1|ST|CT^Cycle Type|3|Night 6|||||F";
   "OBX|2|NM|FV^Fill Volume|3|200|mL|||||F";
   "OBX|1|ST|CT^Cycle Type|4|Night 5|||||F";
   "OBX|2|ST|CT^Cycle Type|4|Night 6|||||F";
   "OBR|3|||VT^Vitals|||20251015123426";
   "OBX|1|NM|WT^Weight|3|70|kg|||||F";
   "BTS|1|final segment|100"].

(** A record whose list of cycles holds a text next to a cycle. *)
Definition mixed_cycles : Json :=
  JDict
    [("Patient Info", JDict [("Clinic Patient ID", JStr "9820609")]);
     ("Actual Therapy",
      JList [JDict [("Cycle Type", JStr "Night 5")]; JStr "aborted"])].

(** The row [{segment=PID, attribute="Clinic Patient ID", sequence=1,
    identifier=CPID}], with a display name, a data type and any further
    columns. *)
Definition clinic_id_row (display_name data_type : option string)
    (further : Row) : Row :=
  ([("SEGMENT", Some "PID"); ("JSON_ATTRIBUTE", Some "Clinic Patient ID");
    ("SEQUENCE", Some "1"); ("IDENTIFIER", Some "CPID");
    ("DISPLAY_NAME", display_name); ("DATA_TYPE", data_type)]
   ++ further)%list.

Definition clinic_id_record : Json :=
  JDict [("PATIENT_INFO", JDict [("CLINIC_PATIENT_ID", JStr "9820609")])].

(** Two records that differ in that the first holds an empty text and
    a zero where the second holds nothing. *)
Definition falsy_ids_record : Json :=
  JDict
    [("PATIENT_INFO",
      JDict [("CLINIC_PATIENT_ID", JStr ""); ("ERP_PATIENT_ID", JInt 0);
             ("FIRST_NAME", JStr "John")])].

Definition missing_ids_record : Json :=
  JDict [("PATIENT_INFO", JDict [("FIRST_NAME", JStr "John")])].

Definition id_field (attribute : string) : FieldConfig.t :=
  FieldConfig.mk (Some "ID") (Some "Identifier") (Some "ST") (Some "") 1
    attribute (Some "") (Some "") (Some "").

(** A record whose batch entry is a text, not a dictionary. *)
Definition text_batch : Json :=
  JDict [("Batch", JStr "x")].

(** Three identifiers of the same sequence number; the third row names
    the attribute of the first again. *)
Definition repeated_attribute_config : list Row :=
  [config_row "PID" "" "Clinic Patient ID" "FIRST" "Clinic Patient ID" "ST" "" "1";
   config_row "PID" "" "ERP Patient ID" "ERP" "ERP Patient ID" "ST" "" "1";
   config_row "PID" "" "Clinic Patient ID" "SECOND" "Clinic Patient ID" "ST" "" "1"].

End Examples.

(** * Further notions *)

(** A tree in canonical form: at every depth the keys of a dictionary
    are pairwise distinct and are left as they are by [normalize_key]. *)
Inductive canonical : Json -> Prop :=
| canonical_null : canonical JNull
| canonical_bool : forall b, canonical (JBool b)
| canonical_int : forall z, canonical (JInt z)
| canonical_float : forall f, canonical (JFloat f)
| canonical_str : forall s, canonical (JStr s)
| canonical_list : forall l, Forall canonical l -> canonical (JList l)
| canonical_dict : forall d,
    NoDup (map fst d) ->
    Forall (fun kv => normalize_key (fst kv) = fst kv /\ canonical (snd kv)) d ->
    canonical (JDict d).

(** The pairs [_normalize_json_data] assigns, one per entry. *)
Definition normalized_items (d : list (string * Json)) : list (string * Json) :=
  map (fun kv => (normalize_key (fst kv), _normalize_json_data (snd kv))) d.

(** The bytes of a text. *)
Definition chars (s : string) : list ascii := list_ascii_of_string s.

(** ** Induction on records *)
Fixpoint Json_induction (P : Json -> Prop)
    (Hnull : P JNull) (Hbool : forall b, P (JBool b))
    (Hint : forall z, P (JInt z)) (Hfloat : forall f, P (JFloat f))
    (Hstr : forall s, P (JStr s))
    (Hlist : forall l, Forall P l -> P (JList l))
    (Hdict : forall d, Forall (fun kv => P (snd kv)) d -> P (JDict d))
    (v : Json) {struct v} : P v :=
  match v with
  | JNull => Hnull
  | JBool b => Hbool b
  | JInt z => Hint z
  | JFloat f => Hfloat f
  | JStr s => Hstr s
  | JList l =>
      Hlist l
        ((fix all (l : list Json) : Forall P l :=
            match l with
            | [] => Forall_nil P
            | x :: r =>
                Forall_cons x
                  (Json_induction P Hnull Hbool Hint Hfloat Hstr Hlist Hdict x)
                  (all r)
            end) l)
  | JDict d =>
      Hdict d
        ((fix all (d : list (string * Json))
            : Forall (fun kv => P (snd kv)) d :=
            match d with
            | [] => Forall_nil _
            | (k, x) :: r =>
                Forall_cons (k, x)
                  (Json_induction P Hnull Hbool Hint Hfloat Hstr Hlist Hdict x)
                  (all r)
            end) d)
  end.

(** A path component: a text without a dot. *)
Definition no_dot (key : string) : Prop :=
  forallb (fun c => negb (Ascii.eqb c ".")) (chars key) = true.

Definition is_dict (v : Json) : bool :=
  match v with
  | JDict _ => true
  | _ => false
  end.

(** What a record holds under [key]; [None] when it does not hold it. *)
Definition record_value (key : string) (item : Json) : Json :=
  match item with
  | JDict d =>
      match PyDict.get d key with
      | Some v => v
      | None => JNull
      end
  | _ => JNull
  end.

(** The elements of a list in the order in which they first occur. *)
Fixpoint first_seen (l : list (option string)) : list (option string) :=
  match l with
  | [] => []
  | x :: r => x :: filter (fun y => negb (key_eqb x y)) (first_seen r)
  end.

(** Seeing one more element. *)
Definition see (seen : list (option string)) (x : option string)
  : list (option string) :=
  if existsb (key_eqb x) seen then seen else (seen ++ [x])%list.

(** A row can be read. *)
Definition reads (row : Row) : Prop := exists r, read_row row = Ok r.

(** The sequence column holds nothing, or the text of an integer. *)
Definition sequence_reads (row : Row) : Prop :=
  exists text,
    PyDict.get row "SEQUENCE" = Some text /\
    (text = None \/ text = Some "" \/
     exists s z, text = Some s /\ PyStr.py_int s = Some z).

(** [later] is [earlier] followed by lines that satisfy [P]. *)
Definition adds_lines (P : string -> Prop) (earlier later : list string) : Prop :=
  exists added, later = (earlier ++ added)%list /\ Forall P added.

(** A child line: a line that starts with [OBX|]. *)
Definition is_child_line (line : string) : Prop :=
  PyStr.startswith line "OBX|" = true.


(** A record that holds no list, at any depth. *)
Inductive list_free : Json -> Prop :=
| list_free_null : list_free JNull
| list_free_bool : forall b, list_free (JBool b)
| list_free_int : forall z, list_free (JInt z)
| list_free_float : forall f, list_free (JFloat f)
| list_free_str : forall s, list_free (JStr s)
| list_free_dict : forall d,
    Forall (fun kv => list_free (snd kv)) d -> list_free (JDict d).

(** The value a group resolves for a field: the field's key on the
    record, and when that gives nothing, the key under the group's tag. *)
Definition resolved (obr_section : string) (d : Json) (fc : FieldConfig.t)
  : Result Json :=
  direct <- _get_field_value d (FieldConfig.json_attribute fc) ;;
  match direct with
  | JNull =>
      _get_field_value d (obr_section ++ "." ++ FieldConfig.json_attribute fc)
  | _ => Ok direct
  end.

(** The values a resolved value gives child lines for: none for [None],
    the elements for a list, the value itself otherwise. *)
Definition child_values (v : Json) : list Json :=
  match v with
  | JNull => []
  | JList l => l
  | _ => [v]
  end.

(** A value that holds no record in a list. *)
Definition no_records (v : Json) : Prop :=
  match v with
  | JList l => forallb (fun item => negb (is_dict item)) l = true
  | _ => True
  end.

(** The fields of a group with the values that give child lines. *)
Definition child_items (fields : list FieldConfig.t) (values : list Json)
  : list (FieldConfig.t * Json) :=
  flat_map (fun fv => map (pair (fst fv)) (child_values (snd fv)))
           (combine fields values).

(** Child lines numbered from [n], all under the parent [c]. *)
Fixpoint numbered (repr_float : float -> string) (repr_str : string -> string)
    (c n : Z) (items : list (FieldConfig.t * Json)) : list string :=
  match items with
  | [] => []
  | (fc, v) :: r =>
      obx_line repr_float repr_str fc v c n
      :: numbered repr_float repr_str c (n + 1) r
  end.

(** * Files *)

(** The number that a string of decimal digits, with or without a minus
    sign, stands for. *)
Definition digits_value (s : string) : option Z :=
  option_map Z.of_uint (NilEmpty.uint_of_string s).

Definition read_number (s : string) : option Z :=
  match s with
  | String "-" r => option_map Z.opp (digits_value r)
  | _ => digits_value s
  end.

(** The files that the outcomes of a batch call for, in the order of the
    outcomes: the name and the message of every success. *)
Fixpoint written (output_prefix : string) (outcomes : list Outcome)
  : list (string * string) :=
  match outcomes with
  | [] => []
  | Success sequence hl7_message _ :: rest =>
      (output_filename output_prefix sequence, hl7_message)
      :: written output_prefix rest
  | Failure _ _ _ :: rest => written output_prefix rest
  end.


(** * Further samples *)
Module MoreExamples.

(** A child field whose attribute name holds a hyphen, and a record that
    holds a value under that name. *)
Definition hyphen_row : Row :=
  Examples.config_row "OBX" "VITALS" "Pre-Treatment Weight" "WT" "Weight" "NM"
    "kg" "1".

Definition hyphen_field : FieldConfig.t :=
  FieldConfig.mk (Some "WT") (Some "Weight") (Some "NM") (Some "kg") 1
    "PRE-TREATMENT_WEIGHT" (Some "VITALS") (Some "") (Some "").

Definition hyphen_record : Json :=
  JDict [("Vitals", JDict [("Pre-Treatment Weight", JInt 70)])].

Definition repeated_attribute_mappings : Mappings :=
  match _build_dynamic_mappings Examples.repeated_attribute_config with
  | Ok m => m
  | Raise _ => empty_mappings
  end.

(** A configuration without a PID row, and one with a child row but no
    OBR row. *)
Definition no_pid_config : list Row :=
  [Examples.config_row "PV1" "" "Clinic Name" "CN" "Clinic Name" "ST" "" "1"].

Definition no_pid_mappings : Mappings :=
  match _build_dynamic_mappings no_pid_config with
  | Ok m => m
  | Raise _ => empty_mappings
  end.

Definition no_obr_config : list Row :=
  [Examples.config_row "PID" "" "Clinic Patient ID" "CPID" "Clinic Patient ID"
     "ST" "" "1";
   Examples.config_row "OBX" "VITALS" "Weight" "WT" "Weight" "NM" "kg" "1"].

Definition no_obr_mappings : Mappings :=
  match _build_dynamic_mappings no_obr_config with
  | Ok m => m
  | Raise _ => empty_mappings
  end.

(** A record without lists. *)
Definition flat_record : Json :=
  JDict
    [("Patient Info",
      JDict [("Clinic Patient ID", JStr "9820609"); ("First Name", JStr "John")]);
     ("Vitals", JDict [("Weight", JInt 70)]);
     ("Batch", JDict [("ID", JStr "b-1")])].

(** A record whose weight is a list of readings, one of them missing. *)
Definition readings_record : Json :=
  JDict [("WEIGHT", JList [JInt 70; JNull; JInt 71])].

End MoreExamples.

(** * Properties *)

(** ** Strings *)
Module PyStrFacts.
Import PyStr.

Lemma string_map_compose (f g : ascii -> ascii) (s : string) :
  string_map f (string_map g s) = string_map (fun c => f (g c)) s.
Proof.
  induction s as [|c r IH]; simpl; [reflexivity|].
  now rewrite IH.
Qed.

Lemma string_map_ext (f g : ascii -> ascii) (s : string) :
  (forall c, f c = g c) -> string_map f s = string_map g s.
Proof.
  intros E. induction s as [|c r IH]; simpl; [reflexivity|].
  now rewrite E, IH.
Qed.

Lemma split_field (sep : ascii) (s r : string) :
  forallb (fun c => negb (Ascii.eqb c sep)) (list_ascii_of_string s) = true ->
  split sep (s ++ String sep r) = s :: split sep r.
Proof.
  induction s as [|c s' IH]; simpl.
  - intros _. now rewrite Ascii.eqb_refl.
  - intros H. apply andb_prop in H as [Hc Hs].
    destruct (Ascii.eqb c sep); [discriminate|].
    now rewrite IH.
Qed.

Lemma digits_hold_no_bar (d : Decimal.uint) :
  forallb (fun c => negb (Ascii.eqb c "|"))
          (list_ascii_of_string (NilEmpty.string_of_uint d)) = true.
Proof. induction d; simpl; auto. Qed.

Lemma str_int_holds_no_bar (z : Z) :
  forallb (fun c => negb (Ascii.eqb c "|")) (list_ascii_of_string (str_int z))
  = true.
Proof.
  unfold str_int, NilZero.string_of_int, NilZero.string_of_uint.
  destruct (Z.to_int z) as [d|d]; destruct d; simpl;
    auto using digits_hold_no_bar.
Qed.

(** Reading back the text of an integer gives the integer. *)
Lemma read_str_int (z : Z) :
  option_map Z.of_int (NilZero.int_of_string (str_int z)) = Some z.
Proof.
  unfold str_int. rewrite <- (DecimalZ.of_to z) at 2.
  destruct (Z.to_int z) as [d|d] eqn:E.
  - destruct d; try (rewrite NilZero.isi by discriminate; reflexivity).
    reflexivity.
  - destruct d; try (rewrite NilZero.isi by discriminate; reflexivity).
    reflexivity.
Qed.

End PyStrFacts.

(** ** Characters *)

Lemma cat_characters (s : string) : PyStr.cat (PyStr.characters s) = s.
Proof.
  induction s as [|c r IH]; cbn [PyStr.characters]; [reflexivity|].
  destruct (PyStr.characters r) as [|ch rest].
  - cbn in *. now rewrite <- IH.
  - destruct (PyStr.continues r); cbn in *; now rewrite IH.
Qed.

Lemma characters_cons (c : ascii) (r : string) :
  PyStr.characters (String c r) <> [].
Proof.
  cbn [PyStr.characters]. destruct (PyStr.characters r); [discriminate|].
  destruct (PyStr.continues r); discriminate.
Qed.

Lemma characters_app (a b : string) :
  PyStr.continues b = false ->
  PyStr.characters (a ++ b) = (PyStr.characters a ++ PyStr.characters b)%list.
Proof.
  intros B. induction a as [|c r IH]; [reflexivity|].
  change (String c r ++ b) with (String c (r ++ b)).
  cbn [PyStr.characters]. rewrite IH. destruct r as [|d r'].
  - cbn [PyStr.characters app append]. rewrite B.
    now destruct (PyStr.characters b).
  - pose proof (characters_cons d r') as N.
    change (PyStr.continues (String d r' ++ b))
      with (PyStr.continues (String d r')).
    destruct (PyStr.characters (String d r')) as [|x xs]; [contradiction|].
    cbn [app]. now destruct (PyStr.continues (String d r')).
Qed.

Lemma characters_char (ch : string) :
  is_char ch = true -> PyStr.characters ch = [ch].
Proof.
  destruct ch as [|a t]; [discriminate|]. cbn [is_char].
  revert a. induction t as [|b t IH]; intros a; [reflexivity|].
  cbn [list_ascii_of_string forallb]. intros H.
  apply andb_prop in H as [Hb Ht].
  cbn [PyStr.characters] in *. specialize (IH b Ht).
  cbn [PyStr.characters] in IH. rewrite IH.
  cbn [PyStr.continues]. now rewrite Hb.
Qed.

Lemma characters_are_chars (s : string) :
  Forall (fun ch => is_char ch = true) (PyStr.characters s).
Proof.
  induction s as [|c r IH]; cbn [PyStr.characters]; [constructor|].
  pose proof (cat_characters r) as E.
  destruct (PyStr.characters r) as [|ch rest]; [now repeat constructor|].
  inversion_clear IH as [|? ? Hch Hrest].
  destruct (PyStr.continues r) eqn:C.
  - constructor; [|exact Hrest].
    destruct ch as [|a t]; [discriminate|].
    cbn in E. subst r. cbn [PyStr.continues] in C.
    cbn [is_char list_ascii_of_string forallb] in *. now rewrite C.
  - now repeat constructor.
Qed.

(** All characters of a text but the first start with a byte that is
    not a continuation byte. *)
Lemma characters_start (s : string) :
  Forall (fun ch => PyStr.continues ch = false) (tl (PyStr.characters s)).
Proof.
  induction s as [|c r IH]; cbn [PyStr.characters]; [constructor|].
  pose proof (cat_characters r) as E.
  destruct (PyStr.characters r) as [|ch rest]; [constructor|].
  cbn [tl] in IH. destruct (PyStr.continues r) eqn:C; cbn [tl]; [exact IH|].
  constructor; [|exact IH].
  destruct ch as [|a t]; [reflexivity|]. cbn in E. now subst r.
Qed.

Lemma characters_string_map (f : ascii -> ascii) (s : string) :
  (forall c, PyStr.is_continuation (f c) = PyStr.is_continuation c) ->
  PyStr.characters (PyStr.string_map f s)
  = map (PyStr.string_map f) (PyStr.characters s).
Proof.
  intros F. induction s as [|c r IH]; [reflexivity|].
  cbn [PyStr.string_map PyStr.characters]. rewrite IH.
  assert (C : PyStr.continues (PyStr.string_map f r) = PyStr.continues r).
  { destruct r; [reflexivity|]. apply F. }
  rewrite C. destruct (PyStr.characters r) as [|ch rest]; [reflexivity|].
  cbn [map]. now destruct (PyStr.continues r).
Qed.

Lemma cat_app (l1 l2 : list string) :
  PyStr.cat (l1 ++ l2) = PyStr.cat l1 ++ PyStr.cat l2.
Proof.
  induction l1 as [|x r IH]; [reflexivity|].
  cbn [app PyStr.cat fold_right] in *. fold (PyStr.cat (r ++ l2)).
  fold (PyStr.cat r). rewrite IH.
  generalize (PyStr.cat r) (PyStr.cat l2). clear.
  induction x as [|c x IH]; intros a b; [reflexivity|].
  cbn. now rewrite IH.
Qed.

(** ** Key normalisation *)

Lemma replace_both_continuation (c : ascii) :
  PyStr.is_continuation (replace_both c) = PyStr.is_continuation c.
Proof. destruct c as [[] [] [] [] [] [] [] []]; reflexivity. Qed.

Lemma replace_both_idempotent (c : ascii) :
  replace_both (replace_both c) = replace_both c.
Proof. destruct c as [[] [] [] [] [] [] [] []]; reflexivity. Qed.

Lemma string_map_idempotent (f : ascii -> ascii) (s : string) :
  (forall c, f (f c) = f c) ->
  PyStr.string_map f (PyStr.string_map f s) = PyStr.string_map f s.
Proof.
  intros F. induction s as [|c r IH]; cbn; [reflexivity|]. now rewrite F, IH.
Qed.

Lemma normalize_key_chars (k : string) :
  normalize_key k = PyStr.cat (map normalize_char (PyStr.characters k)).
Proof.
  unfold normalize_key, PyStr.upper, PyStr.replace.
  assert (E : PyStr.string_map (PyStr.replace_char "-" "_")
                (PyStr.string_map (PyStr.replace_char " " "_") k)
              = PyStr.string_map replace_both k).
  { induction k as [|c r IH]; cbn; [reflexivity|]. now rewrite IH. }
  rewrite E, (characters_string_map _ _ replace_both_continuation), map_map.
  reflexivity.
Qed.

Lemma upper_table_ok :
  forallb (fun e => image_ok (snd e)) PyStr.upper_table = true.
Proof. vm_compute. reflexivity. Qed.

Lemma to_upper_ok (c : N) (image : list N) :
  PyStr.to_upper c = Some image -> image_ok image = true.
Proof.
  unfold PyStr.to_upper.
  destruct (find _ PyStr.upper_table) as [e|] eqn:F; [|discriminate].
  intros [= <-]. apply find_some in F as [I _].
  pose proof upper_table_ok as T. rewrite forallb_forall in T. exact (T e I).
Qed.

(** What [upper_char] makes of a character: nothing, the upper case of
    an ASCII letter, or an upper case of the table. *)
Lemma upper_char_cases (ch : string) :
  PyStr.upper_char ch = ch \/
  (exists a, ch = String a "" /\ PyStr.is_ascii a = true /\
             PyStr.upper_char ch = String (PyStr.upper_ascii a) "") \/
  (exists c image, PyStr.to_upper c = Some image /\
                   PyStr.upper_char ch = PyStr.encode image).
Proof.
  unfold PyStr.upper_char. destruct ch as [|a [|b t]].
  - now left.
  - destruct (PyStr.is_ascii a) eqn:A; [|now left].
    right; left. now exists a.
  - destruct (PyStr.code_point _) as [c|]; [|now left].
    destruct (PyStr.to_upper c) as [image|] eqn:U; [|now left].
    right; right. now exists c, image.
Qed.

Lemma normalize_ascii (a : ascii) :
  PyStr.is_ascii (replace_both a) = true ->
  let u := String (PyStr.upper_ascii (replace_both a)) "" in
  normalize_char u = u /\
  PyStr.upper_ascii (replace_both a) <> "-"%char /\
  PyStr.upper_ascii (replace_both a) <> " "%char /\
  PyStr.is_continuation (PyStr.upper_ascii (replace_both a)) = false.
Proof.
  destruct a as [[] [] [] [] [] [] [] []]; intros H; try discriminate H;
    cbv; repeat split; discriminate.
Qed.

Lemma replaced_bytes (s : string) (b : ascii) :
  In b (chars (PyStr.string_map replace_both s)) ->
  b <> "-"%char /\ b <> " "%char.
Proof.
  induction s as [|c r IH]; cbn; [tauto|].
  intros [<-|I]; [|now apply IH].
  destruct c as [[] [] [] [] [] [] [] []]; split; discriminate.
Qed.

Lemma is_char_string_map (ch : string) :
  is_char ch = true -> is_char (PyStr.string_map replace_both ch) = true.
Proof.
  destruct ch as [|a t]; [discriminate|]. cbn [is_char PyStr.string_map].
  induction t as [|b t IH]; [reflexivity|].
  cbn [PyStr.string_map list_ascii_of_string forallb].
  intros H. apply andb_prop in H as [Hb Ht].
  now rewrite replace_both_continuation, Hb, IH.
Qed.

(** The normalisation of one character: its characters are left as they
    are by the normalisation, it is not empty, it starts a character when
    the character does, and it holds no hyphen and no space. *)
Lemma normalize_char_shape (ch : string) :
  is_char ch = true ->
  let u := normalize_char ch in
  Forall (fun x => normalize_char x = x) (PyStr.characters u) /\
  u <> "" /\
  (PyStr.continues ch = false -> PyStr.continues u = false) /\
  (forall b, In b (chars u) -> b <> "-"%char /\ b <> " "%char).
Proof.
  intros C u. subst u. unfold normalize_char.
  pose proof (is_char_string_map ch C) as C'.
  assert (S : PyStr.continues (PyStr.string_map replace_both ch)
              = PyStr.continues ch).
  { destruct ch; [reflexivity|]. apply replace_both_continuation. }
  pose proof (replaced_bytes ch) as B.
  assert (I : PyStr.string_map replace_both (PyStr.string_map replace_both ch)
              = PyStr.string_map replace_both ch)
    by apply string_map_idempotent, replace_both_idempotent.
  destruct (upper_char_cases (PyStr.string_map replace_both ch))
    as [E|[(a & E & A & U)|(c & image & T & U)]].
  - rewrite E. repeat split.
    + rewrite (characters_char _ C'). repeat constructor.
      unfold normalize_char. now rewrite I.
    + destruct ch; [discriminate C|discriminate].
    + now rewrite S.
    + now apply B.
    + now apply B.
  - rewrite U. destruct ch as [|a0 [|? ?]]; try discriminate E.
    cbn in E. injection E as <-.
    destruct (normalize_ascii a0 A) as (N & H1 & H2 & H3).
    repeat split.
    + cbn. repeat constructor. exact N.
    + discriminate.
    + intros _. exact H3.
    + destruct H as [<-|[]]. exact H1.
    + destruct H as [<-|[]]. exact H2.
  - rewrite U. apply to_upper_ok in T. unfold image_ok in T.
    cbv zeta in T. apply andb_prop in T as [T T4].
    apply andb_prop in T as [T T3]. apply andb_prop in T as [T1 T2].
    repeat split.
    + rewrite forallb_forall in T3. apply Forall_forall. intros x Hx.
      now apply String.eqb_eq, T3.
    + intros Z. rewrite Z in T1. discriminate.
    + intros _. now apply negb_true_iff in T2.
    + rewrite forallb_forall in T4. specialize (T4 b H).
      apply andb_prop in T4 as [T4 _]. intros ->. discriminate.
    + rewrite forallb_forall in T4. specialize (T4 b H).
      apply andb_prop in T4 as [_ T4]. intros ->. discriminate.
Qed.

(** The characters of the characters of a text, one after the other,
    when every character but the first starts one. *)
Lemma characters_cat (l : list string) :
  Forall (fun u => u <> "" /\ PyStr.continues u = false) (tl l) ->
  PyStr.characters (PyStr.cat l) = flat_map PyStr.characters l.
Proof.
  induction l as [|u r IH]; [reflexivity|]. cbn [tl]. intros F.
  cbn [PyStr.cat fold_right flat_map]. fold (PyStr.cat r).
  rewrite characters_app.
  - f_equal. apply IH. destruct r; [constructor|]. now inversion F.
  - destruct r as [|v r']; [reflexivity|]. inversion F as [|? ? [N S] _]; subst.
    cbn [PyStr.cat fold_right]. destruct v; [contradiction|exact S].
Qed.

Lemma normalized_characters (k : string) :
  PyStr.characters (normalize_key k)
  = flat_map (fun ch => PyStr.characters (normalize_char ch))
      (PyStr.characters k).
Proof.
  rewrite normalize_key_chars, characters_cat.
  - now rewrite flat_map_concat_map, map_map, <- flat_map_concat_map.
  - pose proof (characters_are_chars k) as C.
    pose proof (characters_start k) as S.
    destruct (PyStr.characters k) as [|ch rest]; [constructor|].
    cbn [map tl] in *. inversion C as [|? ? _ Cr]; subst. clear C.
    induction rest as [|x r IH]; [constructor|].
    inversion Cr; inversion S; subst. cbn [map]. constructor; [|now apply IH].
    destruct (normalize_char_shape x) as (_ & N & St & _); [assumption|].
    split; [exact N|now apply St].
Qed.

Lemma normalized_characters_fixed (k : string) :
  Forall (fun x => normalize_char x = x) (PyStr.characters (normalize_key k)).
Proof.
  rewrite normalized_characters. apply Forall_flat_map.
  pose proof (characters_are_chars k) as C.
  eapply Forall_impl; [|exact C]. intros ch H.
  now destruct (normalize_char_shape ch H).
Qed.

Lemma normalized_key_fixed (k : string) :
  normalize_key (normalize_key k) = normalize_key k.
Proof.
  rewrite (normalize_key_chars (normalize_key k)).
  pose proof (normalized_characters_fixed k) as F.
  pose proof (cat_characters (normalize_key k)) as E.
  revert F E. generalize (PyStr.characters (normalize_key k)) as l.
  intros l F <-. f_equal.
  induction F as [|x r Hx _ IH]; [reflexivity|]. cbn [map]. now rewrite Hx, IH.
Qed.

Lemma chars_cat (l : list string) (b : ascii) :
  In b (chars (PyStr.cat l)) <-> exists u, In u l /\ In b (chars u).
Proof.
  induction l as [|u r IH]; cbn [PyStr.cat fold_right].
  - split; [intros []|intros (? & [] & _)].
  - fold (PyStr.cat r). unfold chars in *.
    assert (A : forall x y, list_ascii_of_string (x ++ y)
                = (list_ascii_of_string x ++ list_ascii_of_string y)%list).
    { induction x as [|c x IHx]; intros y; cbn; [reflexivity|]. now rewrite IHx. }
    rewrite A, in_app_iff, IH. split.
    + intros [I|(v & V & I)]; [exists u; split; [now left|exact I]|].
      exists v. split; [now right|exact I].
    + intros (v & [<-|V] & I); [now left|right; now exists v].
Qed.

(** A normalised key holds no hyphen and no space. *)
Lemma normalized_key_bytes (k : string) (b : ascii) :
  In b (chars (normalize_key k)) -> b <> "-"%char /\ b <> " "%char.
Proof.
  rewrite normalize_key_chars, chars_cat. intros (u & U & I).
  apply in_map_iff in U as (ch & <- & C).
  pose proof (characters_are_chars k) as F. rewrite Forall_forall in F.
  destruct (normalize_char_shape ch (F ch C)) as (_ & _ & _ & B).
  now apply B.
Qed.

(** [upper] keeps a hyphen. *)
Lemma upper_keeps_hyphen (s : string) :
  In "-"%char (chars s) -> In "-"%char (chars (PyStr.upper s)).
Proof.
  intros I. rewrite <- (cat_characters s) in I. apply chars_cat in I.
  destruct I as (ch & C & I). unfold PyStr.upper. apply chars_cat.
  exists (PyStr.upper_char ch). split; [now apply in_map|].
  pose proof (characters_are_chars s) as F. rewrite Forall_forall in F.
  specialize (F ch C). destruct ch as [|a t]; [destruct I|].
  assert (A : a = "-"%char).
  { destruct I as [A|I]; [exact A|]. exfalso. cbn [is_char] in F.
    rewrite forallb_forall in F. specialize (F _ I). discriminate. }
  subst a.
  replace (PyStr.upper_char (String "-" t)) with (String "-" t); [now left|].
  destruct t as [|b [|c [|d [|e t]]]]; reflexivity.
Qed.

(** Samples with characters beyond ASCII. *)
Lemma upper_samples :
  PyStr.upper "straße" = "STRASSE" /\
  normalize_key "prénom-usuel" = "PRÉNOM_USUEL" /\
  PyStr.py_int "١٢" = Some 12 /\
  PyStr.py_int (String (ascii_of_nat 28) "7") = None.
Proof. repeat split; vm_compute; reflexivity. Qed.

(** C9. Normalising a key that is already normalised gives the same key:
    [normalize (normalize k) = normalize k] for every key [k]. *)
Theorem normalize_key_idempotent (k : string) :
  normalize_key (normalize_key k) = normalize_key k.
Proof. apply normalized_key_fixed. Qed.

(** ** Path resolution *)

Lemma mapM_item_get_raises (key : string) (items : list Json) (e : Exn) :
  mapM (item_get key) items = Raise e ->
  exists ty, e = AttributeError ty "get".
Proof.
  induction items as [|item rest IH]; simpl; [discriminate|].
  destruct (item_get key item) as [v|e'] eqn:E; simpl.
  - destruct (mapM (item_get key) rest) as [vs|e'']; simpl; [discriminate|].
    intros [= <-]. now apply IH.
  - intros [= <-]. destruct item; simpl in E; try (injection E as <-; eauto).
    destruct (PyDict.get d key); discriminate.
Qed.

(** The only exception that leaves the loop is the one of [item.get]. *)
Lemma walk_raises (keys : list string) :
  forall (current : Json) (e : Exn),
    walk current keys = Raise e -> exists ty, e = AttributeError ty "get".
Proof.
  induction keys as [|key rest IH]; intros current e; cbn -[mapM];
    [discriminate|].
  destruct current as [| | | | |l|d]; try discriminate.
  - destruct l as [|first others]; [discriminate|].
    destruct first as [| | | | | |d0]; try discriminate.
    destruct (PyDict.mem d0 key); [|discriminate].
    destruct (mapM (item_get key) (JDict d0 :: others)) as [vs|e'] eqn:E;
      cbn -[mapM].
    + apply IH.
    + intros [= <-]. eapply mapM_item_get_raises, E.
  - destruct (PyDict.get d key); [apply IH|discriminate].
Qed.

Lemma get_field_value_raises (data : Json) (field_path : string) (e : Exn) :
  _get_field_value data field_path = Raise e ->
  exists ty, e = AttributeError ty "get".
Proof.
  unfold _get_field_value, except_lookup_errors.
  destruct (walk data (PyStr.split "." field_path)) as [v|e'] eqn:W;
    [discriminate|].
  destruct (walk_raises _ _ _ W) as [ty ->]. intros [= <-]. eauto.
Qed.

(** C6. Path resolution is not total: on a normalised record whose list
    holds a text after a dictionary, projecting a key of that dictionary
    calls [get] on the text.  The [AttributeError] is not among the
    exceptions [_get_field_value] turns into [None], and it ends the
    encoding of the record. *)
Theorem get_field_value_mixed_list_raises :
  _normalize_json_data Examples.mixed_cycles
  = JDict
      [("PATIENT_INFO", JDict [("CLINIC_PATIENT_ID", JStr "9820609")]);
       ("ACTUAL_THERAPY",
        JList [JDict [("CYCLE_TYPE", JStr "Night 5")]; JStr "aborted"])] /\
  _get_field_value (_normalize_json_data Examples.mixed_cycles)
    "ACTUAL_THERAPY.CYCLE_TYPE"
  = Raise (AttributeError "str" "get") /\
  fst (generate_hl7 Examples.no_float Examples.quote Examples.ticking_clock
         Examples.therapy_mappings Examples.mixed_cycles 0%nat)
  = Raise (AttributeError "str" "get").
Proof.
  repeat split; vm_compute; reflexivity.
Qed.

(** ** Reading the configuration *)

Lemma foldM_app {A B : Type} (f : A -> B -> Result A) (l1 l2 : list B) (a : A) :
  foldM f a (l1 ++ l2)%list = (a' <- foldM f a l1 ;; foldM f a' l2).
Proof.
  revert a. induction l1 as [|x r IH]; intros a; simpl; [reflexivity|].
  destruct (f a x); simpl; [apply IH|reflexivity].
Qed.

Lemma foldM_fails_at {A B : Type} (f : A -> B -> Result A) (x : B) :
  (forall a, fails (f a x)) ->
  forall (before after : list B) (a : A), fails (foldM f a (before ++ x :: after)%list).
Proof.
  intros F before after a. rewrite foldM_app.
  destruct (foldM f a before) as [a'|e]; simpl.
  - destruct (F a') as [e ->]. simpl. now exists e.
  - now exists e.
Qed.

Lemma sequence_of_empty (text : option string) :
  text = None \/ text = Some "" -> sequence_of text = Ok 999.
Proof. intros [-> | ->]; reflexivity. Qed.

Lemma sequence_of_unparseable (s : string) :
  s <> "" -> PyStr.py_int s = None -> sequence_of (Some s) = Raise (ValueError s).
Proof.
  intros N P. unfold sequence_of, truthy_text.
  destruct (String.eqb_spec s ""); [contradiction|]. simpl. now rewrite P.
Qed.

Lemma read_row_empty_sequence (row : Row) :
  other_columns_read row ->
  PyDict.get row "SEQUENCE" = Some None \/ PyDict.get row "SEQUENCE" = Some (Some "") ->
  exists segment fc,
    read_row row = Ok (segment, fc) /\ FieldConfig.sequence fc = 999.
Proof.
  intros ([seg Hs] & [a Ha] & [i Hi] & [d Hd] & [t Ht]) Hq.
  unfold read_row, row_item. rewrite Hs, Ha, Hi, Hd, Ht. simpl.
  destruct Hq as [-> | ->]; simpl; eauto.
Qed.

Lemma read_row_unparseable_sequence (row : Row) (s : string) :
  PyDict.get row "SEQUENCE" = Some (Some s) ->
  s <> "" -> PyStr.py_int s = None -> fails (read_row row).
Proof.
  intros Hq N P. unfold read_row, row_item.
  destruct (PyDict.get row "SEGMENT"); [|eexists; reflexivity]. simpl.
  destruct (PyDict.get row "JSON_ATTRIBUTE") as [[a|]|];
    [|eexists; reflexivity..]. simpl.
  destruct (PyDict.get row "IDENTIFIER"); [|eexists; reflexivity]. simpl.
  destruct (PyDict.get row "DISPLAY_NAME"); [|eexists; reflexivity]. simpl.
  destruct (PyDict.get row "DATA_TYPE"); [|eexists; reflexivity]. simpl.
  rewrite Hq. cbn [bind]. rewrite (sequence_of_unparseable s N P).
  eexists; reflexivity.
Qed.

Lemma read_row_no_sequence_column (row : Row) :
  PyDict.get row "SEQUENCE" = None -> fails (read_row row).
Proof.
  intros Hq. unfold read_row, row_item.
  destruct (PyDict.get row "SEGMENT"); [|eexists; reflexivity]. simpl.
  destruct (PyDict.get row "JSON_ATTRIBUTE") as [[a|]|];
    [|eexists; reflexivity..]. simpl.
  destruct (PyDict.get row "IDENTIFIER"); [|eexists; reflexivity]. simpl.
  destruct (PyDict.get row "DISPLAY_NAME"); [|eexists; reflexivity]. simpl.
  destruct (PyDict.get row "DATA_TYPE"); [|eexists; reflexivity]. simpl.
  rewrite Hq. eexists; reflexivity.
Qed.

Lemma compile_fails_at (row : Row) :
  fails (read_row row) ->
  forall before after, fails (_build_dynamic_mappings (before ++ row :: after)%list).
Proof.
  intros F before after. unfold _build_dynamic_mappings.
  destruct (foldM_fails_at add_row row) with (before := before)
    (after := after) (a := empty_mappings) as [e ->].
  - intros m. unfold add_row. destruct F as [e ->]. now exists e.
  - now exists e.
Qed.

(** C4, as the code has it.  A row whose sequence column is there and is
    empty (or was cut off a short line) is filed with the sequence number
    999, whatever was filed before it.  A row whose sequence text is not
    empty and does not read as an integer, and a row of a file without the
    sequence column, make the compilation fail wherever they stand. *)
Theorem sequence_defaults_only_when_empty (row : Row) :
  other_columns_read row ->
  (PyDict.get row "SEQUENCE" = Some None \/
   PyDict.get row "SEQUENCE" = Some (Some "") ->
   forall m, exists segment fc,
     add_row m row = Ok (file_row m segment fc) /\
     FieldConfig.sequence fc = 999) /\
  (forall s, PyDict.get row "SEQUENCE" = Some (Some s) ->
             s <> "" -> PyStr.py_int s = None ->
   forall before after,
     fails (_build_dynamic_mappings (before ++ row :: after)%list)) /\
  (PyDict.get row "SEQUENCE" = None ->
   forall before after,
     fails (_build_dynamic_mappings (before ++ row :: after)%list)).
Proof.
  intros R. repeat split.
  - intros Hq m. destruct (read_row_empty_sequence row R Hq) as (seg & fc & E & S).
    exists seg, fc. unfold add_row. rewrite E. now split.
  - intros s Hq N P. apply compile_fails_at.
    eapply read_row_unparseable_sequence; eauto.
  - intros Hq. apply compile_fails_at. now apply read_row_no_sequence_column.
Qed.

Lemma empty_sequence_row_reads : other_columns_read Examples.empty_sequence_row.
Proof. unfold other_columns_read. repeat split; eexists; reflexivity. Defined.

Lemma text_sequence_row_reads : other_columns_read Examples.text_sequence_row.
Proof. unfold other_columns_read. repeat split; eexists; reflexivity. Defined.

Lemma sequence_defaults_only_when_empty_witness :
  (exists segment fc,
     add_row empty_mappings Examples.empty_sequence_row
     = Ok (file_row empty_mappings segment fc) /\
     FieldConfig.sequence fc = 999) /\
  fails (_build_dynamic_mappings ([] ++ Examples.text_sequence_row :: [])%list).
Proof.
  split.
  - apply (proj1 (sequence_defaults_only_when_empty _ empty_sequence_row_reads)).
    right; reflexivity.
  - apply (proj1 (proj2 (sequence_defaults_only_when_empty _ text_sequence_row_reads))
             "abc").
    + reflexivity.
    + discriminate.
    + reflexivity.
Defined.

(** C4 as stated fails: a sequence text that is not a number, and a file
    without the sequence column, stop the compilation. *)
Lemma unparseable_sequence_fails :
  _build_dynamic_mappings [Examples.text_sequence_row] = Raise (ValueError "abc") /\
  _build_dynamic_mappings [Examples.no_sequence_row] = Raise (KeyError "SEQUENCE") /\
  ~ (exists m, _build_dynamic_mappings [Examples.text_sequence_row] = Ok m).
Proof.
  repeat split; try reflexivity.
  intros [m E]. discriminate E.
Qed.

(** ** The patient-identification segment *)

(** C5. With the configuration made of the row [{segment=PID,
    attribute="Clinic Patient ID", sequence=1, identifier=CPID}] and the
    record [{"PATIENT_INFO": {"CLINIC_PATIENT_ID": "9820609"}}], the
    encoding succeeds at every state of the clock, and the third line of
    the message is a PID line that holds the token
    [9820609^^^Clinic_Patient_ID]. *)
Theorem clinic_patient_id_token (repr_float : float -> string)
    (repr_str : string -> string) (now : nat -> DateTime)
    (display_name data_type : option string) (further : Row) (t : nat) :
  exists m lines,
    _build_dynamic_mappings [Examples.clinic_id_row display_name data_type further]
    = Ok m /\
    hl7_segments repr_float repr_str now m Examples.clinic_id_record t
    = (Ok lines, (4 + t)%nat) /\
    generate_hl7 repr_float repr_str now m Examples.clinic_id_record t
    = (Ok (PyStr.join (String "010"%char "") lines), (4 + t)%nat) /\
    lines
    = [bhs_line (strftime (now t)) "Normal" "";
       msh_line (strftime (now (1 + t)%nat)) (strftime (now (2 + t)%nat));
       "PID|1|9820609^^^Clinic_Patient_ID||||";
       "PV1|1|o|^^^XYZClinic";
       orc_line "" (strftime (now (3 + t)%nat));
       "OBR|1|||VITAL_SIGNS^Vitals Panel^CLINIC_APP|||20251015123423";
       "NTE|1||Treatment ID: |";
       "NTE|2||Clinic Timezone: PST";
       "BTS|1|final segment|100"] /\
    PyStr.contains "PID|1|9820609^^^Clinic_Patient_ID||||"
      "9820609^^^Clinic_Patient_ID" = true.
Proof.
  eexists. eexists. split; [reflexivity|].
  split; [|split; [|split; [reflexivity|reflexivity]]].
  - reflexivity.
  - reflexivity.
Qed.

Section PidFacts.
Variable repr_float : float -> string.
Variable repr_str : string -> string.

Lemma foldM_ext_in {A B : Type} (f g : A -> B -> Result A) (l : list B) :
  (forall a x, In x l -> f a x = g a x) ->
  forall a, foldM f a l = foldM g a l.
Proof.
  induction l as [|x r IH]; intros E a; simpl; [reflexivity|].
  rewrite E by now left.
  destruct (g a x); simpl; [|reflexivity].
  apply IH. intros; apply E; now right.
Qed.

Lemma pid_token_falsy (fc : FieldConfig.t) (v : Json) :
  truthy v = false -> pid_token repr_float repr_str fc v = [].
Proof. intros F. unfold pid_token. now rewrite F. Qed.

Lemma pid_id_fields_skip (data : Json) (fc : FieldConfig.t) (v : Json)
    (before after : list FieldConfig.t) :
  _get_field_value data ("PATIENT_INFO." ++ FieldConfig.json_attribute fc) = Ok v ->
  truthy v = false ->
  pid_id_fields repr_float repr_str data (before ++ fc :: after)
  = pid_id_fields repr_float repr_str data (before ++ after).
Proof.
  intros G F. unfold pid_id_fields. rewrite !foldM_app.
  destruct (foldM _ [] before) as [acc|e]; [|reflexivity].
  cbn [bind foldM]. rewrite G. cbn [bind].
  rewrite pid_token_falsy by assumption. now rewrite app_nil_r.
Qed.

Lemma pid_token_same (fc : FieldConfig.t) (v1 v2 : Json) :
  same_when_truthy (Ok v1) (Ok v2) ->
  pid_token repr_float repr_str fc v1 = pid_token repr_float repr_str fc v2.
Proof.
  intros [[= ->] | (w1 & w2 & [= <-] & [= <-] & F1 & F2)]; [reflexivity|].
  now rewrite !pid_token_falsy.
Qed.

Lemma or_empty_same (v1 v2 : Json) :
  same_when_truthy (Ok v1) (Ok v2) ->
  py_or v1 (JStr "") = py_or v2 (JStr "") /\ truthy v1 = truthy v2.
Proof.
  intros [[= ->] | (w1 & w2 & [= <-] & [= <-] & F1 & F2)]; [now split|].
  unfold py_or. now rewrite F1, F2.
Qed.

Lemma truthy_or (a b : Json) : truthy (py_or a b) = (truthy a || truthy b)%bool.
Proof. unfold py_or. destruct (truthy a) eqn:E; [now rewrite E|reflexivity]. Qed.

Lemma same_when_truthy_cases (r1 r2 : Result Json) :
  same_when_truthy r1 r2 ->
  (exists e, r1 = Raise e /\ r2 = Raise e) \/
  (exists v1 v2, r1 = Ok v1 /\ r2 = Ok v2 /\ same_when_truthy (Ok v1) (Ok v2)).
Proof.
  intros [<- | (v1 & v2 & -> & -> & F)].
  - destruct r1 as [v|e].
    + right. exists v, v. repeat split. now left.
    + left. eauto.
  - right. exists v1, v2. repeat split. right. exists v1, v2. tauto.
Qed.

Lemma pid_id_fields_same (d1 d2 : Json) (fields : list FieldConfig.t) :
  Forall (fun p => same_when_truthy (_get_field_value d1 p) (_get_field_value d2 p))
         (map (fun fc => "PATIENT_INFO." ++ FieldConfig.json_attribute fc) fields) ->
  pid_id_fields repr_float repr_str d1 fields
  = pid_id_fields repr_float repr_str d2 fields.
Proof.
  unfold pid_id_fields. generalize (@nil string) as acc.
  induction fields as [|fc rest IH]; intros acc H; [reflexivity|].
  inversion H as [|p ps Hp Hrest]; subst. cbn [foldM append] in Hp |- *.
  destruct (same_when_truthy_cases _ _ Hp) as [(e & -> & ->) | (v1 & v2 & -> & -> & S)];
    [reflexivity|].
  cbn [bind]. rewrite (pid_token_same fc v1 v2 S). now apply IH.
Qed.

Lemma pid_fields_line_same (d1 d2 : Json) (set_id : Z) (fields : list FieldConfig.t) :
  Forall (fun p => same_when_truthy (_get_field_value d1 p) (_get_field_value d2 p))
         (pid_paths fields) ->
  pid_fields_line repr_float repr_str d1 set_id fields
  = pid_fields_line repr_float repr_str d2 set_id fields.
Proof.
  unfold pid_paths. intros H. apply Forall_app in H as [Hids Hnames].
  inversion Hnames as [|? ? Hf Hn1]; subst.
  inversion Hn1 as [|? ? Hl Hn2]; subst.
  inversion Hn2 as [|? ? Hm _]; subst.
  unfold pid_fields_line. rewrite (pid_id_fields_same d1 d2 fields Hids).
  destruct (pid_id_fields repr_float repr_str d2 fields) as [ids|e];
    [cbn [bind]|reflexivity].
  destruct (same_when_truthy_cases _ _ Hf) as [(e & -> & ->) | (f1 & f2 & -> & -> & Sf)];
    [reflexivity|cbn [bind]].
  destruct (same_when_truthy_cases _ _ Hl) as [(e & -> & ->) | (l1 & l2 & -> & -> & Sl)];
    [reflexivity|cbn [bind]].
  destruct (same_when_truthy_cases _ _ Hm) as [(e & -> & ->) | (m1 & m2 & -> & -> & Sm)];
    [reflexivity|cbn [bind]].
  destruct (or_empty_same _ _ Sf) as [Ef Tf], (or_empty_same _ _ Sl) as [El Tl],
    (or_empty_same _ _ Sm) as [Em _].
  unfold pid_name. now rewrite !truthy_or, Ef, El, Em, Tf, Tl.
Qed.

(** C10.  Presence of an identifier is tested by truth.  When the value
    resolved for a configured identifier is the empty text, zero, or
    [None] (the attribute is missing), the PID line is the line built
    without that identifier: it adds no token.  And a record that holds
    such false values gives the same PID line as any record that differs
    from it only in that false values are missing or are other false
    values. *)
Theorem falsy_identifier_adds_no_token (data : Json) (set_id : Z)
    (before after : list FieldConfig.t) (fc : FieldConfig.t) (v : Json) :
  _get_field_value data ("PATIENT_INFO." ++ FieldConfig.json_attribute fc) = Ok v ->
  v = JStr "" \/ v = JInt 0 \/ v = JNull ->
  pid_fields_line repr_float repr_str data set_id (before ++ fc :: after)
  = pid_fields_line repr_float repr_str data set_id (before ++ after) /\
  forall other : Json,
    Forall (fun p => same_when_truthy (_get_field_value data p)
                                      (_get_field_value other p))
           (pid_paths (before ++ fc :: after)) ->
    pid_fields_line repr_float repr_str data set_id (before ++ fc :: after)
    = pid_fields_line repr_float repr_str other set_id (before ++ fc :: after).
Proof.
  intros G F. split.
  - unfold pid_fields_line. rewrite (pid_id_fields_skip data fc v); auto.
    destruct F as [-> | [-> | ->]]; reflexivity.
  - intros other H. now apply pid_fields_line_same.
Qed.
End PidFacts.

Lemma falsy_identifier_adds_no_token_witness :
  let fields := [Examples.id_field "ERP_PATIENT_ID"] in
  let fc := Examples.id_field "CLINIC_PATIENT_ID" in
  pid_fields_line Examples.no_float Examples.quote Examples.falsy_ids_record 1
    ([] ++ fc :: fields)
  = pid_fields_line Examples.no_float Examples.quote Examples.falsy_ids_record 1
      ([] ++ fields) /\
  pid_fields_line Examples.no_float Examples.quote Examples.falsy_ids_record 1
    ([] ++ fc :: fields)
  = pid_fields_line Examples.no_float Examples.quote Examples.missing_ids_record 1
      ([] ++ fc :: fields) /\
  pid_fields_line Examples.no_float Examples.quote Examples.falsy_ids_record 1
    ([] ++ fc :: fields)
  = Ok ["PID|1|||||^John^"].
Proof.
  intros fields fc.
  destruct (falsy_identifier_adds_no_token Examples.no_float Examples.quote
              Examples.falsy_ids_record 1 [] fields fc (JStr ""))
    as [A B].
  - reflexivity.
  - left; reflexivity.
  - split; [exact A|]. split; [|reflexivity].
    apply B. unfold pid_paths. cbn [map app].
    apply Forall_cons.
    { right. exists (JStr ""), JNull. repeat split. }
    apply Forall_cons.
    { right. exists (JInt 0), JNull. repeat split. }
    repeat (apply Forall_cons; [left; reflexivity|]).
    apply Forall_nil.
Defined.

(** ** The message *)
Section MessageFacts.
Variable repr_float : float -> string.
Variable repr_str : string -> string.
Variable now : nat -> DateTime.
Variable m : Mappings.

Ltac run :=
  cbn -[strftime bhs_line msh_line orc_line pv1_line py_str pid_fields_line
        _get_field_value foldM nte_line device_line group_step PyStr.join
        json_get PyDict.get].

Lemma pid_segment_one_line (data : Json) (set_id : Z) (segs : list string) :
  pid_segment repr_float repr_str m data set_id = Ok segs ->
  exists pid, segs = [pid] /\ is_obr pid = false.
Proof.
  unfold pid_segment, pid_fields_line.
  destruct (PyDict.get (segments m) (Some "PID")); [|discriminate]. cbn [bind].
  destruct (pid_id_fields _ _ _ _); [|discriminate]. cbn [bind].
  destruct (_get_field_value data "PATIENT_INFO.FIRST_NAME"); [|discriminate].
  destruct (_get_field_value data "PATIENT_INFO.LAST_NAME"); [|discriminate].
  destruct (_get_field_value data "PATIENT_INFO.MIDDLE_NAME"); [|discriminate].
  cbn [bind]. intros [= <-]. eexists. split; reflexivity.
Qed.

(** The five fixed segments: one line each, four readings of the
    clock. *)
Lemma fixed_segments_shape (d : Json) (t : nat) (lines : list string) (t' : nat) :
  foldMM (fixed_segment_step repr_float repr_str now m d) []
    ["BHS"; "MSH"; "PID"; "PV1"; "ORC"] t = (Ok lines, t') ->
  t' = (4 + t)%nat /\
  exists bt bi pid pv1 tr,
    lines = [bhs_line (strftime (now t)) bt bi;
             msh_line (strftime (now (1 + t)%nat)) (strftime (now (2 + t)%nat));
             pid; pv1_line 1 pv1; orc_line tr (strftime (now (3 + t)%nat))] /\
    is_obr pid = false.
Proof.
  cbn [foldMM]. unfold fixed_segment_step, _build_segment. run.
  unfold bindM, lift, ret, _get_timestamp.
  destruct (json_get d "BATCH" (JDict [])) as [b|e]; [|discriminate].
  destruct (json_get b "TYPE" (JStr "Normal")) as [ty|e]; [|discriminate].
  destruct (json_get b "ID" (JStr "")) as [id|e]; [|discriminate].
  destruct (pid_segment repr_float repr_str m d 1) as [segs|e] eqn:P;
    [|discriminate].
  destruct (pid_segment_one_line _ _ _ P) as (pid & -> & N).
  destruct (_get_field_value d "PATIENT_INFO.CLINIC_NAME") as [c|e];
    [|discriminate].
  destruct (_get_field_value d "PATIENT_INFO.TREATMENT_ID") as [tr|e];
    [|discriminate].
  intros [= <- <-]. split; [reflexivity|].
  do 5 eexists. split; [reflexivity|exact N].
Qed.

(** The parts of a message that was encoded. *)
Lemma hl7_segments_shape (json_data : Json) (t : nat) (lines : list string)
    (t' : nat) :
  hl7_segments repr_float repr_str now m json_data t = (Ok lines, t') ->
  exists fixed treatment_id device st,
    foldMM (fixed_segment_step repr_float repr_str now m
              (_normalize_json_data json_data)) []
      ["BHS"; "MSH"; "PID"; "PV1"; "ORC"] t = (Ok fixed, t') /\
    Forall (fun l => is_obr l = false) device /\
    foldM (group_step repr_float repr_str m (_normalize_json_data json_data))
      (head_lines fixed treatment_id device, 2)
      (PyDict.keys (obr_sections m)) = Ok st /\
    lines = (fst st ++ ["BTS|1|final segment|100"])%list.
Proof.
  unfold hl7_segments. generalize (_normalize_json_data json_data) as d. intros d.
  unfold bindM at 1.
  destruct (foldMM _ _ _ t) as [[fixed|e] t1] eqn:F; [|discriminate].
  unfold bindM, lift, ret.
  destruct (_get_field_value d "PATIENT_INFO.TREATMENT_ID") as [tr|e];
    [|discriminate].
  destruct (_get_field_value d "PATIENT_INFO.DEVICE_TYPE") as [dev|e];
    [|discriminate].
  destruct (foldM _ _ _) as [st|e] eqn:G; [|discriminate].
  intros [= <- <-].
  exists fixed, (py_str repr_float repr_str (py_or tr (JStr ""))),
    (if truthy dev then [device_line (py_str repr_float repr_str dev)] else []),
    st.
  repeat split.
  - destruct (truthy dev); repeat constructor.
  - rewrite <- G. f_equal. f_equal. unfold head_lines, nte_line.
    destruct (truthy dev); rewrite <- ?app_assoc; [reflexivity|].
    now rewrite app_nil_r.
Qed.

(** A loop whose steps keep a transitive relation keeps it. *)
Lemma foldM_invariant {A B : Type} (R : A -> A -> Prop) (f : A -> B -> Result A) :
  (forall a, R a a) ->
  (forall a b c, R a b -> R b c -> R a c) ->
  (forall a x a', f a x = Ok a' -> R a a') ->
  forall l a a', foldM f a l = Ok a' -> R a a'.
Proof.
  intros Rrefl Rtrans Rstep. induction l as [|x r IH]; intros a a'; simpl.
  - intros [= <-]. apply Rrefl.
  - destruct (f a x) as [b|e] eqn:E; simpl; [|discriminate].
    intros H. eapply Rtrans; [eapply Rstep, E|eapply IH, H].
Qed.

Lemma group_loop_appends (d : Json) (keys : list string) :
  forall st st',
    foldM (group_step repr_float repr_str m d) st keys = Ok st' ->
    exists groups, fst st' = (fst st ++ groups)%list.
Proof.
  apply (foldM_invariant
           (fun st st' : list string * Z =>
              exists groups, fst st' = (fst st ++ groups)%list)).
  - intros a. exists []. now rewrite app_nil_r.
  - intros a b c [g1 E1] [g2 E2]. exists (g1 ++ g2)%list.
    now rewrite E2, E1, app_assoc.
  - intros a x a'. unfold group_step.
    destruct (_build_obr_section _ _ _ _ _ _) as [segs|e]; [|discriminate].
    cbn [bind]. intros [= <-]. now exists segs.
Qed.

(** C2, as the code has it.  Every segment that needs the current time
    reads the clock when it is built: an encoding makes four readings,
    one for the batch header, two for the header and one for the order
    control, and each token is the reading made at that point.  The
    tokens of a message are the same text when the four readings are. *)
Theorem every_timestamp_is_a_reading (json_data : Json) (t : nat)
    (lines : list string) (t' : nat) :
  hl7_segments repr_float repr_str now m json_data t = (Ok lines, t') ->
  t' = (4 + t)%nat /\
  exists bt bi pid pv1 tr rest,
    lines
    = bhs_line (strftime (now t)) bt bi
        :: msh_line (strftime (now (1 + t)%nat)) (strftime (now (2 + t)%nat))
        :: pid :: pv1_line 1 pv1
        :: orc_line tr (strftime (now (3 + t)%nat)) :: rest /\
    ((forall i, (i < 4)%nat -> strftime (now (i + t)%nat) = strftime (now t)) ->
     lines
     = bhs_line (strftime (now t)) bt bi
         :: msh_line (strftime (now t)) (strftime (now t))
         :: pid :: pv1_line 1 pv1 :: orc_line tr (strftime (now t)) :: rest).
Proof.
  intros H.
  destruct (hl7_segments_shape _ _ _ _ H) as (fixed & tr & dev & st & F & _ & G & ->).
  destruct (fixed_segments_shape _ _ _ _ F)
    as (-> & bt & bi & pid & pv1 & otr & -> & _).
  destruct (group_loop_appends _ _ _ _ G) as [groups ->].
  split; [reflexivity|].
  exists bt, bi, pid, pv1, otr.
  eexists. split; [reflexivity|].
  intros Same.
  now rewrite (Same 1%nat), (Same 2%nat), (Same 3%nat) by lia.
Qed.

(** *** One configured group *)

Lemma adds_children_refl (segs : list string) : adds_children segs segs.
Proof. exists []. split; [now rewrite app_nil_r|constructor]. Qed.

Lemma adds_children_trans (a b c : list string) :
  adds_children a b -> adds_children b c -> adds_children a c.
Proof.
  intros (x & -> & Fx) (y & -> & Fy). exists (x ++ y)%list.
  split; [now rewrite app_assoc|]. apply Forall_app; now split.
Qed.

Lemma add_obx_adds_child (segs : list string) (obx_config : FieldConfig.t)
    (value : Json) (obr_set_id obx_set_id : Z) :
  adds_children segs
    (_add_obx_segment repr_float repr_str segs obx_config value obr_set_id
       obx_set_id).
Proof.
  exists [obx_line repr_float repr_str obx_config value obr_set_id obx_set_id].
  split; [reflexivity|]. constructor; [reflexivity|constructor].
Qed.

Lemma nested_attribute_adds (obr_counter : Z) (obx_config : FieldConfig.t)
    (st : list string * Z) (kv : string * Json) :
  adds_children (fst st)
    (fst (nested_attribute repr_float repr_str m obr_counter obx_config st kv)).
Proof.
  unfold nested_attribute. destruct (matching_config _ _ _); cbn [fst].
  - apply add_obx_adds_child.
  - apply adds_children_refl.
Qed.

Lemma nested_attributes_add (obr_counter : Z) (obx_config : FieldConfig.t)
    (attrs : list (string * Json)) :
  forall st,
    adds_children (fst st)
      (fst (fold_left (nested_attribute repr_float repr_str m obr_counter
                         obx_config) attrs st)).
Proof.
  induction attrs as [|kv r IH]; intros st; cbn [fold_left].
  - apply adds_children_refl.
  - eapply adds_children_trans; [apply nested_attribute_adds|apply IH].
Qed.

Lemma process_nested_obx_adds (segs : list string)
    (nested_data : list (string * Json)) (obr_counter : Z)
    (obx_config : FieldConfig.t) (obx_counter : Z) (segs' : list string) :
  _process_nested_obx repr_float repr_str m segs nested_data obr_counter
    obx_config obx_counter = Ok segs' ->
  adds_children segs segs'.
Proof.
  unfold _process_nested_obx.
  destruct (foldM _ _ _) as [st|e] eqn:F; [|discriminate].
  cbn [bind]. intros [= <-]. revert F.
  change segs with (fst (segs, obx_counter)) at 2.
  generalize (segs, obx_counter) as st0. intros st0 F. revert st0 st F.
  apply (foldM_invariant
           (fun a b : list string * Z => adds_children (fst a) (fst b))).
  - intros a. apply adds_children_refl.
  - intros a b c. apply adds_children_trans.
  - intros a kv a'. destruct (String.eqb (fst kv) "CYCLEATTRIBUTES").
    + destruct (json_items (snd kv)) as [attrs|e]; [|discriminate].
      cbn [bind]. intros [= <-]. apply nested_attributes_add.
    + intros [= <-]. apply nested_attribute_adds.
Qed.

Lemma section_item_adds (obx_config : FieldConfig.t) (st : SectionState)
    (item : Json) (st' : SectionState) :
  section_item repr_float repr_str m obx_config st item = Ok st' ->
  adds_children (state_lines st) (state_lines st').
Proof.
  destruct st as [[segs oc] xc]. unfold section_item, state_lines. cbn [fst].
  destruct item;
    try (intros [= <-]; cbn [fst]; apply add_obx_adds_child).
  destruct (_process_nested_obx _ _ _ _ _ _ _ _) as [segs'|e] eqn:P;
    [|discriminate].
  cbn [bind]. intros [= <-]. cbn [fst].
  eapply process_nested_obx_adds, P.
Qed.

Lemma section_field_adds (obr_section : string) (d : Json) (st : SectionState)
    (obx_config : FieldConfig.t) (st' : SectionState) :
  section_field repr_float repr_str m obr_section d st obx_config = Ok st' ->
  adds_children (state_lines st) (state_lines st').
Proof.
  unfold section_field.
  destruct (_get_field_value d _) as [direct|e]; [|discriminate]. cbn [bind].
  destruct (match direct with JNull => _ | _ => _ end) as [v|e];
    [|discriminate]. cbn [bind].
  assert (Items : forall l,
             foldM (section_item repr_float repr_str m obx_config) st l = Ok st' ->
             adds_children (state_lines st) (state_lines st')).
  { intros l. apply (foldM_invariant
               (fun a b : SectionState =>
                  adds_children (state_lines a) (state_lines b))).
    - intros a. apply adds_children_refl.
    - intros a b c. apply adds_children_trans.
    - intros a x a'. apply section_item_adds. }
  destruct st as [[segs oc] xc].
  destruct v; try (intros [= <-]; unfold state_lines; cbn [fst];
                   apply add_obx_adds_child).
  - intros [= <-]. apply adds_children_refl.
  - apply Items.
Qed.

(** A group gives no line, or one parent line followed by lines that
    are not parent lines. *)
Lemma build_obr_section_shape (obr_section : string) (d : Json) (c : Z)
    (segs : list string) :
  _build_obr_section repr_float repr_str m obr_section d c = Ok segs ->
  segs = [] \/
  exists identifier display_name children,
    segs = obr_line c identifier display_name :: children /\
    Forall (fun l => is_obr l = false) children.
Proof.
  unfold _build_obr_section.
  destruct (PyDict.get (segments m) (Some "OBR")) as [obr_fields|];
    [|discriminate]. cbn [bind].
  destruct (PyDict.get obr_fields obr_section) as [obr_config|];
    [|intros [= <-]; now left].
  destruct (foldM _ _ _) as [st|e] eqn:F; [|discriminate].
  cbn [bind]. intros [= <-]. right.
  assert (A : adds_children
                [obr_line c (format_text (FieldConfig.identifier obr_config))
                   (format_text (FieldConfig.display_name obr_config))]
                (state_lines st)).
  { revert F. apply (foldM_invariant
               (fun a b : SectionState =>
                  adds_children (state_lines a) (state_lines b))).
    - intros a. apply adds_children_refl.
    - intros a b x. apply adds_children_trans.
    - intros a x a'. apply section_field_adds. }
  destruct A as (children & E & N). unfold state_lines in E. rewrite E.
  do 3 eexists. split; [reflexivity|exact N].
Qed.

(** *** The parent counter *)

Lemma set_id_of_obr_line (c : Z) (identifier display_name : string) :
  set_id_of (obr_line c identifier display_name) = Some c.
Proof.
  unfold set_id_of, obr_line.
  change ("OBR|" ++ PyStr.str_int c ++ "|||" ++ identifier ++ "^" ++ display_name
          ++ "|||202510151234" ++ PyStr.str_int (23 + c))
    with (String "O" (String "B" (String "R" (String "|"
            (PyStr.str_int c ++
             String "|" ("||" ++ identifier ++ "^" ++ display_name
                         ++ "|||202510151234" ++ PyStr.str_int (23 + c))))))).
  cbn [PyStr.split Ascii.eqb Bool.eqb].
  rewrite PyStrFacts.split_field by apply PyStrFacts.str_int_holds_no_bar.
  apply PyStrFacts.read_str_int.
Qed.

Lemma parent_counters_app (a b : list string) :
  parent_counters (a ++ b) = (parent_counters a ++ parent_counters b)%list.
Proof. unfold parent_counters. now rewrite filter_app, map_app. Qed.

Lemma filter_none {A : Type} (f : A -> bool) (l : list A) :
  Forall (fun x => f x = false) l -> filter f l = [].
Proof.
  induction 1 as [|x r Hx _ IH]; simpl; [reflexivity|]. now rewrite Hx.
Qed.

Lemma parent_counters_children (children : list string) :
  Forall (fun l => is_obr l = false) children -> parent_counters children = [].
Proof. intros H. unfold parent_counters. now rewrite filter_none. Qed.

Lemma count_up_sorted (k : nat) :
  forall c, StronglySorted Z.lt (count_up c k) /\
            Forall (fun x => c <= x) (count_up c k).
Proof.
  induction k as [|k IH]; intros c; cbn [count_up].
  - split; constructor.
  - destruct (IH (c + 1)) as [S L]. split.
    + constructor; [exact S|].
      eapply Forall_impl; [|exact L]. cbn; intros; lia.
    + constructor; [lia|].
      eapply Forall_impl; [|exact L]. cbn; intros; lia.
Qed.

(** One turn of the loop over the groups adds no parent line and leaves
    the counter, or adds one that carries the counter and advances it
    by one. *)
Lemma group_step_counters (d : Json) (st : list string * Z) (obr_section : string)
    (st' : list string * Z) :
  group_step repr_float repr_str m d st obr_section = Ok st' ->
  exists segs k,
    fst st' = (fst st ++ segs)%list /\
    snd st' = snd st + Z.of_nat k /\
    parent_counters segs = map Some (count_up (snd st) k).
Proof.
  unfold group_step.
  destruct (_build_obr_section _ _ _ _ _ _) as [segs|e] eqn:B; [|discriminate].
  cbn [bind]. intros [= <-]. cbn [fst snd].
  destruct (build_obr_section_shape _ _ _ _ B)
    as [-> | (identifier & display_name & children & -> & N)].
  - exists [], 0%nat. repeat split. cbn. lia.
  - exists (obr_line (snd st) identifier display_name :: children), 1%nat.
    split; [reflexivity|]. split.
    + cbn [filter]. change (is_obr (obr_line (snd st) identifier display_name))
        with true. cbn iota. now rewrite filter_none.
    + change (obr_line (snd st) identifier display_name :: children)
        with ([obr_line (snd st) identifier display_name] ++ children)%list.
      rewrite parent_counters_app, (parent_counters_children _ N).
      unfold parent_counters. cbn [filter].
      change (is_obr (obr_line (snd st) identifier display_name)) with true.
      cbn [map app count_up]. now rewrite set_id_of_obr_line.
Qed.

Lemma count_up_app (k1 k2 : nat) :
  forall c, count_up c (k1 + k2)
            = (count_up c k1 ++ count_up (c + Z.of_nat k1) k2)%list.
Proof.
  induction k1 as [|k1 IH]; intros c.
  - cbn [count_up Nat.add app]. f_equal. cbn. lia.
  - cbn [count_up Nat.add app]. rewrite IH. do 3 f_equal. lia.
Qed.

Lemma group_loop_counters (d : Json) (keys : list string) :
  forall st st',
    foldM (group_step repr_float repr_str m d) st keys = Ok st' ->
    exists groups k,
      fst st' = (fst st ++ groups)%list /\
      snd st' = snd st + Z.of_nat k /\
      parent_counters groups = map Some (count_up (snd st) k).
Proof.
  induction keys as [|key rest IH]; intros st st'; cbn [foldM].
  - intros [= <-]. exists [], 0%nat. rewrite app_nil_r. repeat split. cbn. lia.
  - destruct (group_step _ _ _ _ st key) as [st1|e] eqn:G; [|discriminate].
    cbn [bind]. intros H.
    destruct (group_step_counters _ _ _ _ G) as (s1 & k1 & E1 & C1 & P1).
    destruct (IH _ _ H) as (s2 & k2 & E2 & C2 & P2).
    exists (s1 ++ s2)%list, (k1 + k2)%nat. repeat split.
    + now rewrite E2, E1, app_assoc.
    + rewrite C2, C1. lia.
    + rewrite parent_counters_app, P1, P2, count_up_app, map_app, C1.
      reflexivity.
Qed.

(** C3.  In a message that was encoded, the counters the parent lines
    carry are 1, 2, 3, ... in the order of the lines: the fixed parent
    line carries 1 and the lines of the configured groups carry 2
    onwards, each one more than the one before it.  So no two parent
    lines carry the same counter and the counter never decreases or
    starts again between groups. *)
Theorem parent_counter_increases (json_data : Json) (t : nat)
    (lines : list string) (t' : nat) :
  hl7_segments repr_float repr_str now m json_data t = (Ok lines, t') ->
  exists k,
    parent_counters lines = map Some (count_up 1 (S k)) /\
    StronglySorted Z.lt (count_up 1 (S k)) /\
    NoDup (count_up 1 (S k)).
Proof.
  intros H.
  destruct (hl7_segments_shape _ _ _ _ H) as (fixed & tr & dev & st & F & D & G & ->).
  destruct (fixed_segments_shape _ _ _ _ F)
    as (_ & bt & bi & pid & pv1 & otr & -> & P).
  destruct (group_loop_counters _ _ _ _ G) as (groups & k & E & _ & C).
  exists k. split; [|split].
  - rewrite E. cbn [fst snd] in *. unfold head_lines.
    rewrite !parent_counters_app, C, (parent_counters_children dev D).
    replace (parent_counters [bhs_line (strftime (now t)) bt bi;
               msh_line (strftime (now (1 + t)%nat)) (strftime (now (2 + t)%nat));
               pid; pv1_line 1 pv1; orc_line otr (strftime (now (3 + t)%nat))])
      with (@nil (option Z))
      by (unfold parent_counters; cbn [filter]; now rewrite P).
    change (parent_counters ["BTS|1|final segment|100"]) with (@nil (option Z)).
    rewrite !app_nil_r. reflexivity.
  - apply count_up_sorted.
  - destruct (count_up_sorted (S k) 1) as [S _].
    apply StronglySorted_Sorted in S.
    revert S. generalize (count_up 1 (S k)). intros l S.
    apply Sorted_StronglySorted in S; [|intros x y z; lia].
    induction S as [|x l S IH L]; constructor; [|exact IH].
    intros I. rewrite Forall_forall in L. specialize (L x I). lia.
Qed.

(** A group never gives more than one parent line, however many
    records its attributes hold. *)
Lemma group_has_at_most_one_parent_line (obr_section : string) (d : Json)
    (c : Z) (segs : list string) :
  _build_obr_section repr_float repr_str m obr_section d c = Ok segs ->
  (length (filter is_obr segs) <= 1)%nat.
Proof.
  intros B.
  destruct (build_obr_section_shape _ _ _ _ B)
    as [-> | (identifier & display_name & children & -> & N)].
  - cbn. lia.
  - cbn [filter].
    change (is_obr (obr_line c identifier display_name)) with true.
    cbn iota. rewrite filter_none by exact N. cbn. lia.
Qed.

End MessageFacts.

(** ** The sample message *)

Lemma two_cycles_encoded :
  hl7_segments Examples.no_float Examples.quote Examples.ticking_clock
    Examples.therapy_mappings Examples.two_cycles 0%nat
  = (Ok Examples.two_cycles_lines, 4%nat).
Proof. vm_compute. reflexivity. Defined.

(** C1.  The group [ACTUAL_THERAPY] has three child fields and the record
    holds two cycles under the attribute bound to the group.  The group
    gives one parent line, not two: the children of the first cycle follow
    it with parent number 2, the children of the second cycle carry the
    parent number 3, and no parent line with that number is among the
    lines of the group. *)
Theorem two_cycles_one_parent_line :
  option_map (@length FieldConfig.t)
    (PyDict.get (obr_sections Examples.therapy_mappings) "ACTUAL_THERAPY")
  = Some 3%nat /\
  _build_obr_section Examples.no_float Examples.quote Examples.therapy_mappings
    "ACTUAL_THERAPY" (_normalize_json_data Examples.two_cycles) 2
  = Ok ["OBR|2|||AT^Actual Therapy|||20251015123425";
        "OBX|1|ST|CT^Cycle Type|2|Night 5|||||F";
        "OBX|2|NM|FV^Fill Volume|2|100|mL|||||F";
        "OBX|1|ST|CT^Cycle Type|3|Night 6|||||F";
        "OBX|2|NM|FV^Fill Volume|3|200|mL|||||F";
        "OBX|1|ST|CT^Cycle Type|4|Night 5|||||F";
        "OBX|2|ST|CT^Cycle Type|4|Night 6|||||F"] /\
  length (filter is_obr
            ["OBR|2|||AT^Actual Therapy|||20251015123425";
             "OBX|1|ST|CT^Cycle Type|2|Night 5|||||F";
             "OBX|2|NM|FV^Fill Volume|2|100|mL|||||F";
             "OBX|1|ST|CT^Cycle Type|3|Night 6|||||F";
             "OBX|2|NM|FV^Fill Volume|3|200|mL|||||F";
             "OBX|1|ST|CT^Cycle Type|4|Night 5|||||F";
             "OBX|2|ST|CT^Cycle Type|4|Night 6|||||F"]) = 1%nat.
Proof. repeat split; vm_compute; reflexivity. Qed.

(** C2 as stated fails: with a clock that advances between two readings
    the header line alone holds two different timestamps, so no single
    timestamp is shared by the lines of the message. *)
Lemma timestamp_is_resampled :
  exists lines,
    hl7_segments Examples.no_float Examples.quote Examples.ticking_clock
      Examples.therapy_mappings Examples.two_cycles 0%nat
    = (Ok lines, 4%nat) /\
    nth 1%nat lines "" = msh_line "20251015123401" "20251015123402" /\
    ~ (exists ts bt bi tr,
         nth 0%nat lines "" = bhs_line ts bt bi /\
         nth 1%nat lines "" = msh_line ts ts /\
         nth 4%nat lines "" = orc_line tr ts).
Proof.
  exists Examples.two_cycles_lines. split; [apply two_cycles_encoded|].
  split; [reflexivity|].
  intros (ts & bt & bi & tr & _ & Hm & _).
  cbn in Hm.
  repeat (destruct ts as [|? ts]; cbn in Hm;
          [discriminate Hm|injection Hm as <- Hm]).
  destruct ts; discriminate Hm.
Qed.

Lemma every_timestamp_is_a_reading_witness :
  (4 = 4 + 0)%nat /\
  exists bt bi pid pv1 tr rest,
    Examples.two_cycles_lines
    = bhs_line (strftime (Examples.ticking_clock 0%nat)) bt bi
        :: msh_line (strftime (Examples.ticking_clock (1 + 0)%nat))
             (strftime (Examples.ticking_clock (2 + 0)%nat))
        :: pid :: pv1_line 1 pv1
        :: orc_line tr (strftime (Examples.ticking_clock (3 + 0)%nat)) :: rest /\
    ((forall i, (i < 4)%nat ->
                strftime (Examples.ticking_clock (i + 0)%nat)
                = strftime (Examples.ticking_clock 0%nat)) ->
     Examples.two_cycles_lines
     = bhs_line (strftime (Examples.ticking_clock 0%nat)) bt bi
         :: msh_line (strftime (Examples.ticking_clock 0%nat))
              (strftime (Examples.ticking_clock 0%nat))
         :: pid :: pv1_line 1 pv1
         :: orc_line tr (strftime (Examples.ticking_clock 0%nat)) :: rest).
Proof.
  apply (every_timestamp_is_a_reading Examples.no_float Examples.quote
           Examples.ticking_clock Examples.therapy_mappings Examples.two_cycles
           0%nat Examples.two_cycles_lines 4%nat two_cycles_encoded).
Defined.

Lemma parent_counter_increases_witness :
  exists k,
    parent_counters Examples.two_cycles_lines = map Some (count_up 1 (S k)) /\
    StronglySorted Z.lt (count_up 1 (S k)) /\
    NoDup (count_up 1 (S k)).
Proof.
  apply (parent_counter_increases Examples.no_float Examples.quote
           Examples.ticking_clock Examples.therapy_mappings Examples.two_cycles
           0%nat Examples.two_cycles_lines 4%nat two_cycles_encoded).
Defined.

(** ** The batch processor *)
Section BatchFacts.
Variable repr_float : float -> string.
Variable repr_str : string -> string.
Variable now : nat -> DateTime.
Variable m : Mappings.

Lemma alike_bind {A B : Type} (R : A -> A -> Prop) (Q : B -> B -> Prop)
    (c1 c2 : M A) (k1 k2 : A -> M B) :
  alike R c1 c2 ->
  (forall a1 a2, R a1 a2 -> alike Q (k1 a1) (k2 a2)) ->
  alike Q (bindM c1 k1) (bindM c2 k2).
Proof.
  intros C K t1 t2. unfold bindM. specialize (C t1 t2).
  destruct (c1 t1) as [[a1|e1] u1], (c2 t2) as [[a2|e2] u2]; cbn in C |- *;
    try contradiction; [|exact C].
  apply K, C.
Qed.

Lemma alike_lift {A : Type} (R : A -> A -> Prop) (r1 r2 : Result A) :
  agree R r1 r2 -> alike R (lift r1) (lift r2).
Proof. intros H t1 t2. exact H. Qed.

Lemma alike_ret {A : Type} (R : A -> A -> Prop) (a1 a2 : A) :
  R a1 a2 -> alike R (ret a1) (ret a2).
Proof. intros H t1 t2. exact H. Qed.

Lemma alike_timestamp : alike any (_get_timestamp now) (_get_timestamp now).
Proof. intros t1 t2. exact I. Qed.

Lemma agree_refl {A : Type} (r : Result A) : agree eq r r.
Proof. destruct r; reflexivity. Qed.

Lemma agree_any {A : Type} (R : A -> A -> Prop) (r1 r2 : Result A) :
  agree R r1 r2 -> agree any r1 r2.
Proof. destruct r1, r2; cbn; auto. intros _. exact I. Qed.

Lemma alike_pure {A : Type} (r : Result A) : alike eq (lift r) (lift r).
Proof. apply alike_lift, agree_refl. Qed.

(** Whether a fixed segment can be built does not depend on the clock. *)
Lemma build_segment_alike (segment_type : string) (d : Json) (set_id : Z) :
  alike any (_build_segment repr_float repr_str now m segment_type d set_id)
            (_build_segment repr_float repr_str now m segment_type d set_id).
Proof.
  unfold _build_segment.
  destruct (String.eqb segment_type "MSH").
  { apply (alike_bind any any); [apply alike_timestamp|]. intros ? ? _.
    apply (alike_bind any any); [apply alike_timestamp|]. intros ? ? _.
    now apply alike_ret. }
  destruct (String.eqb segment_type "BHS").
  { apply (alike_bind eq any); [apply alike_pure|]. intros b ? <-.
    apply (alike_bind any any); [apply alike_timestamp|]. intros ? ? _.
    apply (alike_bind eq any); [apply alike_pure|]. intros ? ? <-.
    apply (alike_bind eq any); [apply alike_pure|]. intros ? ? <-.
    now apply alike_ret. }
  destruct (String.eqb segment_type "PID").
  { apply alike_lift, (agree_any eq), agree_refl. }
  destruct (String.eqb segment_type "PV1").
  { apply (alike_bind eq any); [apply alike_pure|]. intros ? ? <-.
    now apply alike_ret. }
  destruct (String.eqb segment_type "ORC").
  { apply (alike_bind eq any); [apply alike_pure|]. intros ? ? <-.
    apply (alike_bind any any); [apply alike_timestamp|]. intros ? ? _.
    now apply alike_ret. }
  now apply alike_ret.
Qed.

Lemma fixed_segments_alike (d : Json) (types : list string) :
  forall acc1 acc2,
    alike any (foldMM (fixed_segment_step repr_float repr_str now m d) acc1 types)
              (foldMM (fixed_segment_step repr_float repr_str now m d) acc2 types).
Proof.
  induction types as [|ty rest IH]; intros acc1 acc2; cbn [foldMM].
  - now apply alike_ret.
  - apply (alike_bind any any); [|intros ? ? _; apply IH].
    unfold fixed_segment_step.
    apply (alike_bind any any); [apply build_segment_alike|].
    intros ? ? _. now apply alike_ret.
Qed.

(** Whether the groups can be built does not depend on the lines that
    stand before them. *)
Lemma group_loop_agree (d : Json) (keys : list string) :
  forall pre1 pre2 c,
    agree any (foldM (group_step repr_float repr_str m d) (pre1, c) keys)
              (foldM (group_step repr_float repr_str m d) (pre2, c) keys).
Proof.
  induction keys as [|key rest IH]; intros pre1 pre2 c; cbn [foldM].
  - exact I.
  - unfold group_step at 1 3. cbn [fst snd].
    destruct (_build_obr_section _ _ _ _ _ _) as [segs|e]; cbn [bind];
      [apply IH|reflexivity].
Qed.

Lemma hl7_segments_alike (json_data : Json) :
  alike any (hl7_segments repr_float repr_str now m json_data)
            (hl7_segments repr_float repr_str now m json_data).
Proof.
  unfold hl7_segments.
  apply (alike_bind any any); [apply fixed_segments_alike|]. intros l1 l2 _.
  apply (alike_bind eq any); [apply alike_pure|]. intros tr ? <-.
  apply (alike_bind eq any); [apply alike_pure|]. intros dev ? <-.
  apply (alike_bind any any).
  - apply alike_lift. destruct (truthy dev); apply group_loop_agree.
  - intros ? ? _. now apply alike_ret.
Qed.

(** Whether a record can be encoded, and with which exception it fails,
    does not depend on the clock. *)
Lemma generate_hl7_alike (json_data : Json) (t1 t2 : nat) :
  agree any (fst (generate_hl7 repr_float repr_str now m json_data t1))
            (fst (generate_hl7 repr_float repr_str now m json_data t2)).
Proof.
  revert t1 t2. change (alike any (generate_hl7 repr_float repr_str now m json_data)
                          (generate_hl7 repr_float repr_str now m json_data)).
  unfold generate_hl7.
  apply (alike_bind any any); [apply hl7_segments_alike|].
  intros ? ? _. now apply alike_ret.
Qed.

Lemma process_record_sequence (i : Z) (json_data : Json) (t : nat) :
  outcome_sequence (fst (process_record repr_float repr_str now m i json_data t)) = i.
Proof.
  unfold process_record.
  destruct (generate_hl7 _ _ _ _ _ _) as [[msg|e] t']; reflexivity.
Qed.

Lemma process_from_outcomes (json_data_list : list Json) :
  forall i t,
    length (fst (process_from repr_float repr_str now m i json_data_list t))
    = length json_data_list /\
    forall k json_data,
      nth_error json_data_list k = Some json_data ->
      exists tk,
        nth_error (fst (process_from repr_float repr_str now m i json_data_list t)) k
        = Some (fst (process_record repr_float repr_str now m (i + Z.of_nat k)
                       json_data tk)).
Proof.
  induction json_data_list as [|first rest IH]; intros i t; cbn [process_from].
  - split; [reflexivity|]. intros [|k] x; discriminate.
  - destruct (process_record _ _ _ _ i first t) as [o t1] eqn:P.
    destruct (process_from _ _ _ _ (i + 1) rest t1) as [os t2] eqn:R.
    specialize (IH (i + 1) t1). rewrite R in IH. destruct IH as [L N].
    cbn [fst length] in *. split; [now rewrite L|].
    intros [|k] x; cbn [nth_error].
    + intros [= <-]. exists t. rewrite Z.add_0_r, P. reflexivity.
    + intros H. destruct (N k x H) as [tk E]. exists tk. rewrite E.
      do 3 f_equal. lia.
Qed.

(** C7.  The batch gives one outcome per record, in the order of the
    records.  The outcome of record [k] (counted from 0) is the outcome of
    encoding that record on its own: it carries the number [k + 1] and a
    timestamp; it is an error with the text of the exception when encoding
    the record raises one, and a success with the message otherwise.
    Whether a record fails does not depend on the clock, hence not on the
    records before it. *)
Theorem batch_outcomes (json_data_list : list Json) (t : nat) :
  length (fst (process_batch repr_float repr_str now m json_data_list t))
  = length json_data_list /\
  forall k json_data,
    nth_error json_data_list k = Some json_data ->
    exists o tk,
      nth_error (fst (process_batch repr_float repr_str now m json_data_list t)) k
      = Some o /\
      o = fst (process_record repr_float repr_str now m (Z.of_nat k + 1)
                 json_data tk) /\
      outcome_sequence o = Z.of_nat k + 1 /\
      outcome_timestamp o
      = isoformat (now (snd (generate_hl7 repr_float repr_str now m json_data tk))) /\
      (encoding_fails repr_float repr_str now m json_data ->
       exists e,
         fst (generate_hl7 repr_float repr_str now m json_data tk) = Raise e /\
         o = Failure (Z.of_nat k + 1) (str_exn repr_str e) (outcome_timestamp o) /\
         outcome_status o = "error") /\
      (~ encoding_fails repr_float repr_str now m json_data ->
       exists hl7_message,
         fst (generate_hl7 repr_float repr_str now m json_data tk) = Ok hl7_message /\
         o = Success (Z.of_nat k + 1) hl7_message (outcome_timestamp o) /\
         outcome_status o = "success").
Proof.
  unfold process_batch.
  destruct (process_from_outcomes json_data_list 1 t) as [L N].
  split; [exact L|]. intros k json_data H.
  destruct (N k json_data H) as [tk E].
  exists (fst (process_record repr_float repr_str now m (Z.of_nat k + 1) json_data tk)), tk.
  split; [rewrite E; do 3 f_equal; lia|].
  split; [reflexivity|].
  split; [apply process_record_sequence|].
  unfold process_record.
  destruct (generate_hl7 repr_float repr_str now m json_data tk) as [[msg|e] t']
    eqn:G; cbn [fst snd outcome_timestamp outcome_status].
  - split; [reflexivity|]. split.
    + intros (t0 & e & F).
      pose proof (generate_hl7_alike json_data tk t0) as A.
      rewrite G, F in A. contradiction.
    + intros _. exists msg. repeat split.
  - split; [reflexivity|]. split.
    + intros _. exists e. repeat split.
    + intros NF. exfalso. apply NF. exists tk, e. now rewrite G.
Qed.

End BatchFacts.

Lemma text_batch_fails :
  encoding_fails Examples.no_float Examples.quote Examples.ticking_clock
    Examples.therapy_mappings Examples.text_batch.
Proof.
  exists 0%nat, (AttributeError "str" "get"). vm_compute. reflexivity.
Defined.

Lemma batch_outcomes_witness :
  exists o,
    nth_error
      (fst (process_batch Examples.no_float Examples.quote Examples.ticking_clock
              Examples.therapy_mappings
              [Examples.two_cycles; Examples.text_batch; Examples.two_cycles]
              0%nat))
      1%nat = Some o /\
    outcome_sequence o = 2 /\
    outcome_status o = "error".
Proof.
  destruct (proj2 (batch_outcomes Examples.no_float Examples.quote
                     Examples.ticking_clock Examples.therapy_mappings
                     [Examples.two_cycles; Examples.text_batch; Examples.two_cycles]
                     0%nat)
              1%nat Examples.text_batch eq_refl)
    as (o & tk & N & _ & S & _ & F & _).
  exists o. split; [exact N|]. split; [exact S|].
  destruct (F text_batch_fails) as (e & _ & _ & St). exact St.
Defined.

(** The sample batch: the second record fails, the first and the third
    are encoded as they would be on their own. *)
Lemma sample_batch_statuses :
  map (fun o => (outcome_sequence o, outcome_status o))
    (fst (process_batch Examples.no_float Examples.quote Examples.ticking_clock
            Examples.therapy_mappings
            [Examples.two_cycles; Examples.text_batch; Examples.two_cycles]
            0%nat))
  = [(1, "success"); (2, "error"); (3, "success")].
Proof. vm_compute. reflexivity. Qed.

(** ** Sorting *)
Section SortedFacts.
Context {A : Type} (key : A -> Z).

Lemma insert_by_perm (x : A) (l : list A) :
  Permutation (x :: l) (insert_by key x l).
Proof.
  induction l as [|y r IH]; cbn [insert_by]; [reflexivity|].
  destruct (key x <=? key y); [reflexivity|].
  rewrite perm_swap. now constructor.
Qed.

Lemma sorted_by_perm (l : list A) : Permutation l (sorted_by key l).
Proof.
  induction l as [|x r IH]; cbn [sorted_by]; [constructor|].
  rewrite <- insert_by_perm. now constructor.
Qed.

Lemma insert_by_ascending (x : A) (l : list A) :
  StronglySorted (fun a b => key a <= key b) l ->
  StronglySorted (fun a b => key a <= key b) (insert_by key x l).
Proof.
  induction 1 as [|y r S IH F]; cbn [insert_by].
  - repeat constructor.
  - destruct (Z.leb_spec (key x) (key y)) as [L|G].
    + constructor; [now constructor|].
      constructor; [exact L|].
      eapply Forall_impl; [|exact F]. cbn; intros; lia.
    + constructor; [exact IH|].
      rewrite <- (insert_by_perm x r). constructor; [lia|exact F].
Qed.

Lemma sorted_by_ascending (l : list A) :
  StronglySorted (fun a b => key a <= key b) (sorted_by key l).
Proof.
  induction l as [|x r IH]; cbn [sorted_by]; [constructor|].
  now apply insert_by_ascending.
Qed.

(** Insertion does not change the order of the elements of one key. *)
Lemma insert_by_stable (k : Z) (x : A) (l : list A) :
  filter (fun a => key a =? k) (insert_by key x l)
  = filter (fun a => key a =? k) (x :: l).
Proof.
  induction l as [|y r IH]; cbn [insert_by]; [reflexivity|].
  destruct (Z.leb_spec (key x) (key y)) as [L|G]; [reflexivity|].
  cbn [filter] in *. rewrite IH.
  destruct (Z.eqb_spec (key x) k), (Z.eqb_spec (key y) k); try reflexivity.
  lia.
Qed.

Lemma sorted_by_stable (k : Z) (l : list A) :
  filter (fun a => key a =? k) (sorted_by key l)
  = filter (fun a => key a =? k) l.
Proof.
  induction l as [|x r IH]; cbn [sorted_by]; [reflexivity|].
  rewrite insert_by_stable. cbn [filter]. now rewrite IH.
Qed.
End SortedFacts.

(** ** Dictionaries *)
Lemma string_key_eq (a b : string) : key_eqb a b = true <-> a = b.
Proof. apply String.eqb_eq. Qed.

Lemma option_string_key_eq (a b : option string) : key_eqb a b = true <-> a = b.
Proof.
  destruct a as [x|], b as [y|]; cbn; try (split; congruence).
  unfold key_eqb, option_string_key. rewrite String.eqb_eq. split; congruence.
Qed.

Section DictFacts.
Context {K V : Type} `{EqKey K}.
Hypothesis key_eqb_eq : forall a b : K, key_eqb a b = true <-> a = b.

Lemma key_eqb_refl (k : K) : key_eqb k k = true.
Proof. now apply key_eqb_eq. Qed.

Lemma key_eqb_neq (a b : K) : a <> b -> key_eqb a b = false.
Proof.
  intros N. destruct (key_eqb a b) eqn:E; [|reflexivity].
  apply key_eqb_eq in E. contradiction.
Qed.

Lemma get_set_same (d : PyDict.dict K V) (k : K) (v : V) :
  PyDict.get (PyDict.set d k v) k = Some v.
Proof.
  induction d as [|[k' v'] r IH]; cbn.
  - now rewrite key_eqb_refl.
  - destruct (key_eqb k' k) eqn:E; cbn; rewrite E; [reflexivity|exact IH].
Qed.

Lemma get_set_other (d : PyDict.dict K V) (k k' : K) (v : V) :
  k <> k' -> PyDict.get (PyDict.set d k v) k' = PyDict.get d k'.
Proof.
  intros N. induction d as [|[k0 v0] r IH]; cbn.
  - now rewrite key_eqb_neq.
  - destruct (key_eqb k0 k) eqn:E; cbn.
    + apply key_eqb_eq in E. subst k0. now rewrite key_eqb_neq.
    + now rewrite IH.
Qed.

Lemma get_none_keys (d : PyDict.dict K V) (k : K) :
  PyDict.get d k = None <-> ~ In k (PyDict.keys d).
Proof.
  induction d as [|[k' v'] r IH]; cbn; [tauto|].
  destruct (key_eqb k' k) eqn:E.
  - apply key_eqb_eq in E. split; [discriminate|]. intros N. tauto.
  - rewrite IH. split; [|tauto]. intros N [->|I]; [|tauto].
    now rewrite key_eqb_refl in E.
Qed.

Lemma set_fresh (d : PyDict.dict K V) (k : K) (v : V) :
  ~ In k (PyDict.keys d) -> PyDict.set d k v = (d ++ [(k, v)])%list.
Proof.
  induction d as [|[k' v'] r IH]; cbn; [reflexivity|]. intros N.
  rewrite key_eqb_neq by tauto. rewrite IH by tauto. reflexivity.
Qed.

Lemma keys_set (d : PyDict.dict K V) (k : K) (v : V) :
  PyDict.keys (PyDict.set d k v)
  = if PyDict.mem d k then PyDict.keys d else (PyDict.keys d ++ [k])%list.
Proof.
  unfold PyDict.mem, PyDict.keys.
  induction d as [|[k' v'] r IH]; cbn; [reflexivity|].
  destruct (key_eqb k' k) eqn:E; cbn; [reflexivity|].
  rewrite IH. now destruct (PyDict.get r k).
Qed.

Lemma keys_set_NoDup (d : PyDict.dict K V) (k : K) (v : V) :
  NoDup (PyDict.keys d) -> NoDup (PyDict.keys (PyDict.set d k v)).
Proof.
  intros N. rewrite keys_set. unfold PyDict.mem.
  destruct (PyDict.get d k) eqn:G; [exact N|].
  apply get_none_keys in G.
  apply NoDup_rev in N. rewrite <- (rev_involutive (PyDict.keys d ++ [k])).
  apply NoDup_rev. rewrite rev_app_distr. cbn. constructor; [|exact N].
  now rewrite <- in_rev.
Qed.

Lemma fold_set_NoDup (l : list (K * V)) :
  forall d, NoDup (PyDict.keys d) ->
            NoDup (PyDict.keys
                     (fold_left (fun d kv => PyDict.set d (fst kv) (snd kv)) l d)).
Proof.
  induction l as [|kv r IH]; intros d N; cbn [fold_left]; [exact N|].
  now apply IH, keys_set_NoDup.
Qed.

Lemma of_items_NoDup_keys (l : list (K * V)) : NoDup (PyDict.keys (PyDict.of_items l)).
Proof. apply fold_set_NoDup. constructor. Qed.

(** Building a dictionary from pairs of distinct keys keeps the pairs as
    they are. *)
Lemma fold_set_distinct (l : list (K * V)) :
  forall d : PyDict.dict K V, NoDup (PyDict.keys (d ++ l)%list) ->
            fold_left (fun d kv => PyDict.set d (fst kv) (snd kv)) l d
            = (d ++ l)%list.
Proof.
  induction l as [|[k v] r IH]; intros d N; cbn [fold_left fst snd].
  - now rewrite app_nil_r.
  - assert (F : ~ In k (PyDict.keys d)).
    { unfold PyDict.keys in *. rewrite map_app in N. cbn in N.
      apply NoDup_remove_2 in N. intros I. apply N, in_or_app. now left. }
    rewrite set_fresh by exact F.
    rewrite IH; rewrite <- app_assoc; [reflexivity|exact N].
Qed.

Lemma of_items_distinct (l : list (K * V)) :
  NoDup (PyDict.keys l) -> PyDict.of_items l = l.
Proof. intros N. unfold PyDict.of_items. now rewrite fold_set_distinct. Qed.

Lemma get_map_values {W : Type} (f : V -> W) (d : PyDict.dict K V) (k : K) :
  PyDict.get (map (fun kv => (fst kv, f (snd kv))) d) k
  = option_map f (PyDict.get d k).
Proof.
  induction d as [|[k' v'] r IH]; cbn; [reflexivity|].
  now destruct (key_eqb k' k).
Qed.
End DictFacts.

(** ** The compiled configuration *)

Lemma foldM_add_row (rows : list Row) :
  forall m m',
    foldM add_row m rows = Ok m' <->
    exists cfgs, mapM read_row rows = Ok cfgs /\ m' = file_rows cfgs m.
Proof.
  induction rows as [|row rest IH]; intros m m'; cbn [foldM mapM].
  - split.
    + intros [= <-]. now exists [].
    + intros (cfgs & [= <-] & ->). reflexivity.
  - unfold add_row at 1. destruct (read_row row) as [r|e]; cbn [bind].
    + rewrite IH. split.
      * intros (cfgs & E & ->). exists (r :: cfgs). rewrite E. now split.
      * intros (cfgs & E & ->).
        destruct (mapM read_row rest) as [cs|e]; [|discriminate].
        injection E as <-. now exists cs.
    + split; [discriminate|]. intros (cfgs & E & _). discriminate.
Qed.

(** What filing a row changes in a segment's dictionary. *)
Lemma lookup_segment_file_row (m : Mappings) (s : option string)
    (fc : FieldConfig.t) (segment : option string) :
  lookup_segment (file_row m s fc) segment
  = if is_direct segment (s, fc)
    then PyDict.set (lookup_segment m segment) (FieldConfig.json_attribute fc) fc
    else lookup_segment m segment.
Proof.
  unfold is_direct, lookup_segment, file_row. cbn [fst snd].
  destruct (key_eqb s segment) eqn:E.
  - apply option_string_key_eq in E. subst segment. cbn [andb].
    destruct (group_of s fc) as [tag|]; cbn [segments].
    + unfold PyDict.mem. destruct (PyDict.get (segments m) s) eqn:G;
        [now rewrite G|].
      now rewrite (get_set_same option_string_key_eq).
    + rewrite (get_set_same option_string_key_eq).
      unfold PyDict.mem. destruct (PyDict.get (segments m) s) eqn:G;
        [now rewrite G|].
      now rewrite (get_set_same option_string_key_eq).
  - cbn [andb].
    assert (N : s <> segment).
    { intros ->. now rewrite (key_eqb_refl option_string_key_eq) in E. }
    destruct (group_of s fc) as [tag|]; cbn [segments];
      rewrite ?(get_set_other option_string_key_eq) by exact N;
      unfold PyDict.mem; destruct (PyDict.get (segments m) s);
      rewrite ?(get_set_other option_string_key_eq) by exact N; reflexivity.
Qed.

(** What filing a row changes in a group's list. *)
Lemma lookup_group_file_row (m : Mappings) (s : option string)
    (fc : FieldConfig.t) (tag : string) :
  lookup_group (file_row m s fc) tag
  = if in_group tag (s, fc) then (lookup_group m tag ++ [fc])%list
    else lookup_group m tag.
Proof.
  unfold in_group, lookup_group, file_row. cbn [fst snd].
  destruct (group_of s fc) as [t|]; cbn [obr_sections]; [|reflexivity].
  destruct (key_eqb t tag) eqn:E.
  - apply string_key_eq in E. subst t.
    now rewrite (get_set_same string_key_eq).
  - rewrite (get_set_other string_key_eq); [reflexivity|].
    intros ->. now rewrite (key_eqb_refl string_key_eq) in E.
Qed.

Lemma lookup_segment_file_rows (segment : option string) (cfgs : list ReadRow) :
  forall m,
    lookup_segment (file_rows cfgs m) segment
    = fold_left (fun d kv => PyDict.set d (fst kv) (snd kv))
        (direct_rows segment cfgs) (lookup_segment m segment).
Proof.
  unfold file_rows, direct_rows.
  induction cfgs as [|[s fc] rest IH]; intros m; cbn [fold_left filter];
    [reflexivity|].
  rewrite IH, lookup_segment_file_row. cbn [fst snd].
  destruct (is_direct segment (s, fc)); reflexivity.
Qed.

Lemma lookup_group_file_rows (tag : string) (cfgs : list ReadRow) :
  forall m,
    lookup_group (file_rows cfgs m) tag
    = (lookup_group m tag ++ group_rows tag cfgs)%list.
Proof.
  unfold file_rows, group_rows.
  induction cfgs as [|[s fc] rest IH]; intros m; cbn [fold_left filter].
  - now rewrite app_nil_r.
  - rewrite IH, lookup_group_file_row. cbn [fst snd].
    destruct (in_group tag (s, fc)); cbn [map]; [|reflexivity].
    now rewrite <- app_assoc.
Qed.

Lemma sorted_items_distinct (d : PyDict.dict string FieldConfig.t) :
  NoDup (PyDict.keys d) ->
  PyDict.of_items (sorted_by sequence_of_item (PyDict.items d))
  = sorted_by sequence_of_item d.
Proof.
  intros N. apply (of_items_distinct string_key_eq).
  unfold PyDict.keys in *.
  eapply Permutation_NoDup; [|exact N].
  apply Permutation_map, sorted_by_perm.
Qed.

(** The compiled mappings, told from the rows. *)
Lemma compiled_from_rows (rows : list Row) (m : Mappings) :
  _build_dynamic_mappings rows = Ok m ->
  exists cfgs,
    mapM read_row rows = Ok cfgs /\
    (forall segment fields,
        PyDict.get (segments m) segment = Some fields ->
        fields = sorted_by sequence_of_item
                   (PyDict.of_items (direct_rows segment cfgs))) /\
    (forall tag fields,
        PyDict.get (obr_sections m) tag = Some fields ->
        fields = sorted_by FieldConfig.sequence (group_rows tag cfgs)).
Proof.
  unfold _build_dynamic_mappings.
  destruct (foldM add_row empty_mappings rows) as [m0|e] eqn:F; [|discriminate].
  cbn [bind]. intros [= <-].
  apply foldM_add_row in F as (cfgs & R & ->).
  exists cfgs. split; [exact R|]. split.
  - intros segment fields. unfold sort_mappings. cbn [segments].
    rewrite (get_map_values
               (fun d : PyDict.dict string FieldConfig.t =>
                  PyDict.of_items (sorted_by sequence_of_item (PyDict.items d)))).
    pose proof (lookup_segment_file_rows segment cfgs empty_mappings) as L.
    unfold lookup_segment in L.
    destruct (PyDict.get (segments (file_rows cfgs empty_mappings)) segment)
      as [d|]; [|discriminate].
    cbn [option_map]. intros [= <-]. cbn [segments empty_mappings PyDict.get] in L.
    subst d. fold (PyDict.of_items (direct_rows segment cfgs)).
    apply sorted_items_distinct, (of_items_NoDup_keys string_key_eq).
  - intros tag fields. unfold sort_mappings. cbn [obr_sections].
    rewrite (get_map_values (sorted_by FieldConfig.sequence)).
    pose proof (lookup_group_file_rows tag cfgs empty_mappings) as L.
    unfold lookup_group in L.
    destruct (PyDict.get (obr_sections (file_rows cfgs empty_mappings)) tag)
      as [l|]; [|discriminate].
    cbn [option_map]. intros [= <-]. cbn in L. now subst l.
Qed.

Lemma ascending_values (d : PyDict.dict string FieldConfig.t) :
  StronglySorted (fun a b => sequence_of_item a <= sequence_of_item b) d ->
  ascending (PyDict.values d).
Proof.
  unfold ascending, PyDict.values.
  induction 1 as [|kv r S IH F]; cbn [map]; constructor; [exact IH|].
  apply Forall_map. exact F.
Qed.

Lemma with_sequence_values (k : Z) (d : PyDict.dict string FieldConfig.t) :
  with_sequence k (PyDict.values d)
  = map snd (filter (fun kv => sequence_of_item kv =? k) d).
Proof.
  unfold with_sequence, PyDict.values, sequence_of_item.
  induction d as [|kv r IH]; cbn [map filter]; [reflexivity|].
  destruct (FieldConfig.sequence (snd kv) =? k); cbn [map]; now rewrite IH.
Qed.

(** C8, as the code has it.  In the compiled configuration every
    segment's mapping and every group's list is ascending by sequence
    number.  In a group, the fields of one sequence number stand in the
    order of their rows.  In a segment, they stand in the order in which
    their attributes were first filed for the segment, a later row of the
    same attribute taking the place of the earlier one; that is the order
    of the rows when no attribute is named twice for the segment. *)
Theorem compiled_fields_sorted (rows : list Row) (m : Mappings) :
  _build_dynamic_mappings rows = Ok m ->
  exists cfgs,
    mapM read_row rows = Ok cfgs /\
    (forall segment fields,
        PyDict.get (segments m) segment = Some fields ->
        ascending (PyDict.values fields) /\
        (forall k,
            with_sequence k (PyDict.values fields)
            = with_sequence k
                (PyDict.values (PyDict.of_items (direct_rows segment cfgs)))) /\
        (NoDup (PyDict.keys (direct_rows segment cfgs)) ->
         forall k,
           with_sequence k (PyDict.values fields)
           = with_sequence k (PyDict.values (direct_rows segment cfgs)))) /\
    (forall tag fields,
        PyDict.get (obr_sections m) tag = Some fields ->
        ascending fields /\
        forall k, with_sequence k fields = with_sequence k (group_rows tag cfgs)).
Proof.
  intros C. destruct (compiled_from_rows rows m C) as (cfgs & R & Seg & Grp).
  exists cfgs. split; [exact R|]. split.
  - intros segment fields G. rewrite (Seg segment fields G).
    split; [|split].
    + apply ascending_values, sorted_by_ascending.
    + intros k. rewrite !with_sequence_values. f_equal.
      apply (sorted_by_stable sequence_of_item).
    + intros N k. rewrite (of_items_distinct string_key_eq) by exact N.
      rewrite !with_sequence_values. f_equal.
      apply (sorted_by_stable sequence_of_item).
  - intros tag fields G. rewrite (Grp tag fields G). split.
    + apply sorted_by_ascending.
    + intros k. apply (sorted_by_stable FieldConfig.sequence).
Qed.

Lemma therapy_config_compiled :
  _build_dynamic_mappings Examples.therapy_config = Ok Examples.therapy_mappings.
Proof. vm_compute. reflexivity. Defined.

Lemma compiled_fields_sorted_witness :
  exists cfgs,
    mapM read_row Examples.therapy_config = Ok cfgs /\
    (forall segment fields,
        PyDict.get (segments Examples.therapy_mappings) segment = Some fields ->
        ascending (PyDict.values fields) /\
        (forall k,
            with_sequence k (PyDict.values fields)
            = with_sequence k
                (PyDict.values (PyDict.of_items (direct_rows segment cfgs)))) /\
        (NoDup (PyDict.keys (direct_rows segment cfgs)) ->
         forall k,
           with_sequence k (PyDict.values fields)
           = with_sequence k (PyDict.values (direct_rows segment cfgs)))) /\
    (forall tag fields,
        PyDict.get (obr_sections Examples.therapy_mappings) tag = Some fields ->
        ascending fields /\
        forall k, with_sequence k fields = with_sequence k (group_rows tag cfgs)).
Proof.
  apply (compiled_fields_sorted Examples.therapy_config Examples.therapy_mappings
           therapy_config_compiled).
Defined.

(** C8 as stated fails for a segment: the third row names the attribute
    of the first again, so its field takes the first place of the
    mapping, ahead of the field of the second row, although the three
    rows have the same sequence number. *)
Lemma repeated_attribute_breaks_row_order :
  exists m cfgs fields,
    _build_dynamic_mappings Examples.repeated_attribute_config = Ok m /\
    mapM read_row Examples.repeated_attribute_config = Ok cfgs /\
    PyDict.get (segments m) (Some "PID") = Some fields /\
    map FieldConfig.identifier (with_sequence 1 (PyDict.values fields))
    = [Some "SECOND"; Some "ERP"] /\
    map FieldConfig.identifier (with_sequence 1 (map snd cfgs))
    = [Some "FIRST"; Some "ERP"; Some "SECOND"] /\
    ~ subsequence
        (map FieldConfig.identifier (with_sequence 1 (PyDict.values fields)))
        (map FieldConfig.identifier (map snd cfgs)).
Proof.
  eexists. eexists. eexists.
  split; [vm_compute; reflexivity|].
  split; [vm_compute; reflexivity|].
  split; [vm_compute; reflexivity|].
  split; [vm_compute; reflexivity|].
  split; [vm_compute; reflexivity|].
  vm_compute. intros S.
  repeat match goal with
         | S : subsequence _ _ |- _ => inversion S; clear S; subst
         end.
Qed.

(** * Further properties *)

(** ** Normalisation of a record *)

Lemma normalize_dict (d : list (string * Json)) :
  _normalize_json_data (JDict d) = JDict (PyDict.of_items (normalized_items d)).
Proof.
  cbn [_normalize_json_data]. f_equal. unfold PyDict.of_items, normalized_items.
  generalize (@nil (string * Json)) as acc.
  induction d as [|[k x] r IH]; intros acc; cbn [fold_left map fst snd];
    [reflexivity|].
  apply IH.
Qed.

Lemma set_keeps {V : Type} (P : string * V -> Prop) (d : PyDict.dict string V)
    (k : string) (v : V) :
  Forall P d -> P (k, v) -> Forall P (PyDict.set d k v).
Proof.
  intros F Pk. induction F as [|[k' v'] r Pk' F IH]; cbn [PyDict.set].
  - repeat constructor. exact Pk.
  - destruct (key_eqb k' k) eqn:E.
    + apply string_key_eq in E. subst k'. now constructor.
    + constructor; [exact Pk'|exact IH].
Qed.

Lemma of_items_keeps {V : Type} (P : string * V -> Prop) (l : list (string * V)) :
  Forall P l -> Forall P (PyDict.of_items l).
Proof.
  unfold PyDict.of_items. intros F.
  assert (G : forall d, Forall P d ->
              Forall P (fold_left (fun d kv => PyDict.set d (fst kv) (snd kv)) l d)).
  { induction F as [|[k v] r Pk F IH]; intros d Fd; cbn [fold_left fst snd];
      [exact Fd|].
    apply IH, set_keeps; assumption. }
  apply G. constructor.
Qed.

(** A normalised record is in canonical form. *)
Lemma normalized_canonical (v : Json) : canonical (_normalize_json_data v).
Proof.
  induction v as [| | | | |l IH|d IH] using Json_induction;
    try (cbn [_normalize_json_data]; constructor; fail).
  - change (_normalize_json_data (JList l))
      with (JList (map _normalize_json_data l)).
    constructor. apply Forall_map. exact IH.
  - rewrite normalize_dict. constructor.
    + apply (of_items_NoDup_keys string_key_eq).
    + apply of_items_keeps. unfold normalized_items.
      induction IH as [|kv r Hx _ IHr]; cbn [map]; constructor; [|exact IHr].
      cbn [fst snd]. split; [apply normalized_key_fixed|exact Hx].
Qed.

(** Normalising a record in canonical form changes nothing. *)
Lemma canonical_fixed (v : Json) : canonical v -> _normalize_json_data v = v.
Proof.
  induction v as [| | | | |l IH|d IH] using Json_induction; try reflexivity.
  - intros C. inversion C as [| | | | |l' F|]; subst.
    change (_normalize_json_data (JList l))
      with (JList (map _normalize_json_data l)). f_equal.
    clear C. induction IH as [|x r Hx _ IHr]; cbn [map]; [reflexivity|].
    inversion F; subst. f_equal; [now apply Hx|now apply IHr].
  - intros C. inversion C as [| | | | | |d' N F]; subst.
    rewrite normalize_dict.
    replace (normalized_items d) with d.
    + f_equal. now apply (of_items_distinct string_key_eq).
    + clear N C. unfold normalized_items.
      induction IH as [|[k x] r Hx _ IHr]; cbn [map]; [reflexivity|].
      inversion F as [|? ? [Hk Hc] Fr]; subst. cbn [fst snd] in *.
      rewrite Hk, (Hx Hc). f_equal. now apply IHr.
Qed.

(** X1.  Normalising a record twice gives the same record as normalising
    it once, at every depth, whatever its keys. *)
Theorem normalize_json_data_idempotent (json_data : Json) :
  _normalize_json_data (_normalize_json_data json_data)
  = _normalize_json_data json_data.
Proof. apply canonical_fixed, normalized_canonical. Qed.

(** X2.  After normalisation every dictionary of the record, at every
    depth, has pairwise distinct keys, and each key is in the form the
    normalisation gives (normalising it again leaves it as it is). *)
Theorem normalized_record_is_canonical (json_data : Json) :
  canonical (_normalize_json_data json_data).
Proof. apply normalized_canonical. Qed.

(** ** Paths on a normalised record *)

Lemma split_component (sep c : ascii) (s : string) :
  In c (chars s) -> c <> sep ->
  exists part, In part (PyStr.split sep s) /\ In c (chars part).
Proof.
  intros I N. induction s as [|a r IH]; [destruct I|].
  cbn [PyStr.split]. destruct (Ascii.eqb_spec a sep) as [->|Na].
  - destruct I as [->|I]; [contradiction|].
    destruct (IH I) as (part & P & C). exists part. split; [now right|exact C].
  - destruct (PyStr.split sep r) as [|p ps] eqn:S.
    + destruct I as [<-|I]; [|destruct (IH I) as (? & [] & _)].
      exists (String a ""). split; [now left|now left].
    + destruct I as [<-|I].
      * exists (String a p). split; [now left|now left].
      * destruct (IH I) as (part & [<-|P] & C).
        -- exists (String a p). split; [now left|now right].
        -- exists part. split; [now right|exact C].
Qed.

Lemma get_some_in {V : Type} (d : PyDict.dict string V) (k : string) (v : V) :
  PyDict.get d k = Some v -> In (k, v) d.
Proof.
  induction d as [|[k' v'] r IH]; cbn; [discriminate|].
  destruct (key_eqb k' k) eqn:E.
  - apply string_key_eq in E. intros [= <-]. subst. now left.
  - intros G. right. now apply IH.
Qed.

Lemma canonical_entry (d : list (string * Json)) (k : string) (v : Json) :
  canonical (JDict d) -> PyDict.get d k = Some v ->
  normalize_key k = k /\ canonical v.
Proof.
  intros C G. inversion C as [| | | | | |d' N F]; subst.
  rewrite Forall_forall in F. exact (F (k, v) (get_some_in d k v G)).
Qed.

Lemma projected_canonical (key : string) (items projected : list Json) :
  Forall canonical items ->
  mapM (item_get key) items = Ok projected ->
  Forall canonical projected.
Proof.
  intros F. revert projected.
  induction F as [|item rest C F IH]; intros projected; cbn [mapM].
  - intros [= <-]. constructor.
  - destruct (item_get key item) as [v|e] eqn:G; cbn [bind]; [|discriminate].
    destruct (mapM (item_get key) rest) as [vs|e]; cbn [bind]; [|discriminate].
    intros [= <-]. constructor; [|now apply IH].
    destruct item; try discriminate. cbn in G.
    destruct (PyDict.get d key) eqn:Gd; injection G as <-; [|constructor].
    now destruct (canonical_entry d key j C Gd).
Qed.

Lemma walk_non_canonical (key : string) (keys : list string) :
  normalize_key key <> key -> In key keys ->
  forall current v,
    canonical current -> walk current keys = Ok v -> v = JNull.
Proof.
  intros N. induction keys as [|key0 rest IH]; intros I current v C;
    [destruct I|].
  cbn -[mapM].
  destruct current as [| | | | |l|d]; try (intros [= <-]; reflexivity).
  - destruct l as [|first others]; [intros [= <-]; reflexivity|].
    destruct first as [| | | | | |d0]; try (intros [= <-]; reflexivity).
    unfold PyDict.mem. destruct (PyDict.get d0 key0) as [x|] eqn:G;
      [|intros [= <-]; reflexivity].
    inversion C as [| | | | |l' F|]; subst.
    assert (C0 : canonical (JDict d0)) by now inversion F.
    destruct (canonical_entry d0 key0 x C0 G) as [K _].
    destruct I as [->|I]; [contradiction|].
    destruct (mapM (item_get key0) (JDict d0 :: others)) as [projected|e] eqn:P;
      cbn -[mapM]; [|discriminate].
    apply (IH I). constructor. eapply projected_canonical; eassumption.
  - destruct (PyDict.get d key0) as [x|] eqn:G; [|intros [= <-]; reflexivity].
    destruct (canonical_entry d key0 x C G) as [K Cx].
    destruct I as [->|I]; [contradiction|]. now apply (IH I).
Qed.

Lemma raw_path_resolves_to_none_aux (json_data : Json) (field_path key : string)
    (v : Json) :
  In key (PyStr.split "." field_path) -> normalize_key key <> key ->
  _get_field_value (_normalize_json_data json_data) field_path = Ok v ->
  v = JNull.
Proof.
  intros I N. unfold _get_field_value, except_lookup_errors.
  destruct (walk _ _) as [w|e] eqn:W.
  - intros [= <-]. apply (walk_non_canonical key (PyStr.split "." field_path))
      with (current := _normalize_json_data json_data);
      [exact N|exact I|apply normalized_canonical|exact W].
  - destruct e; try discriminate; intros [= <-]; reflexivity.
Qed.



Lemma string_map_in (f : ascii -> ascii) (s : string) (c : ascii) :
  In c (chars s) -> In (f c) (chars (PyStr.string_map f s)).
Proof.
  induction s as [|a r IH]; cbn; [tauto|].
  intros [<-|I]; [now left|right; now apply IH].
Qed.

Lemma chars_app_right (a b : string) (c : ascii) :
  In c (chars b) -> In c (chars (a ++ b)).
Proof. induction a as [|x r IH]; cbn; [tauto|]. intros I. right. now apply IH. Qed.

(** X4.  The compiler replaces the spaces of an attribute name but not
    its hyphens, while the record's keys lose both.  So a field compiled
    from an attribute name that holds a hyphen keeps the hyphen in its
    key, and on every normalised record that key, alone or behind any
    prefix, never resolves to a value. *)
Theorem hyphenated_attribute_never_resolves (row : Row) (segment : option string)
    (fc : FieldConfig.t) (attribute : string) :
  read_row row = Ok (segment, fc) ->
  PyDict.get row "JSON_ATTRIBUTE" = Some (Some attribute) ->
  In "-"%char (chars attribute) ->
  In "-"%char (chars (FieldConfig.json_attribute fc)) /\
  forall json_data prefix v,
    _get_field_value (_normalize_json_data json_data)
      (prefix ++ FieldConfig.json_attribute fc) = Ok v ->
    v = JNull.
Proof.
  intros R A I.
  assert (J : FieldConfig.json_attribute fc
              = PyStr.upper (PyStr.replace " " "_" attribute)).
  { revert R. unfold read_row, row_item. rewrite A.
    destruct (PyDict.get row "SEGMENT"); [|discriminate]. cbn [bind].
    destruct (PyDict.get row "IDENTIFIER"); [|discriminate]. cbn [bind].
    destruct (PyDict.get row "DISPLAY_NAME"); [|discriminate]. cbn [bind].
    destruct (PyDict.get row "DATA_TYPE"); [|discriminate]. cbn [bind].
    destruct (PyDict.get row "SEQUENCE"); [|discriminate]. cbn [bind].
    destruct (sequence_of _); [|discriminate]. cbn [bind].
    intros [= _ <-]. reflexivity. }
  assert (H : In "-"%char (chars (FieldConfig.json_attribute fc))).
  { rewrite J. apply upper_keeps_hyphen. unfold PyStr.replace.
    apply (string_map_in (PyStr.replace_char " " "_") _ "-"), I. }
  split; [exact H|]. intros json_data prefix v G.
  destruct (split_component "." "-" (prefix ++ FieldConfig.json_attribute fc))
    as (part & P & Cp); [now apply chars_app_right|discriminate|].
  apply (raw_path_resolves_to_none_aux json_data
           (prefix ++ FieldConfig.json_attribute fc) part v);
    [exact P| |exact G].
  intros K. rewrite <- K in Cp.
  now destruct (normalized_key_bytes part "-" Cp).
Qed.

Lemma hyphenated_attribute_never_resolves_witness :
  In "-"%char (chars (FieldConfig.json_attribute MoreExamples.hyphen_field)) /\
  exists v,
    _get_field_value (_normalize_json_data MoreExamples.hyphen_record)
      ("VITALS." ++ FieldConfig.json_attribute MoreExamples.hyphen_field) = Ok v /\
    v = JNull.
Proof.
  destruct (hyphenated_attribute_never_resolves MoreExamples.hyphen_row
              (Some "OBX") MoreExamples.hyphen_field "Pre-Treatment Weight")
    as [H N].
  - reflexivity.
  - reflexivity.
  - cbn. tauto.
  - split; [exact H|]. eexists. split; [reflexivity|].
    apply (N MoreExamples.hyphen_record "VITALS." JNull). reflexivity.
Defined.

(** ** Resolution of a path *)

Lemma split_single (sep : ascii) (s : string) :
  forallb (fun c => negb (Ascii.eqb c sep)) (list_ascii_of_string s) = true ->
  PyStr.split sep s = [s].
Proof.
  induction s as [|c r IH]; cbn; [reflexivity|].
  intros H. apply andb_prop in H as [Hc Hr].
  destruct (Ascii.eqb c sep); [discriminate|]. now rewrite IH.
Qed.

Lemma split_first (key rest : string) :
  no_dot key ->
  PyStr.split "." (key ++ "." ++ rest) = key :: PyStr.split "." rest.
Proof. intros N. now apply PyStrFacts.split_field. Qed.

(** X5.  The only exception that leaves [_get_field_value] is the
    [AttributeError] of calling [get] on a value that is not a
    dictionary; it never raises a [KeyError], an [IndexError] or a
    [TypeError]. *)
Theorem resolution_raises_only_attribute_error (data : Json)
    (field_path : string) (e : Exn) :
  _get_field_value data field_path = Raise e ->
  exists type, e = AttributeError type "get".
Proof. apply get_field_value_raises. Qed.

Lemma resolution_raises_only_attribute_error_witness :
  exists type, AttributeError "str" "get" = AttributeError type "get".
Proof.
  apply (resolution_raises_only_attribute_error
           (_normalize_json_data Examples.mixed_cycles)
           "ACTUAL_THERAPY.CYCLE_TYPE").
  reflexivity.
Defined.

(** X6.  Under a dictionary a path is resolved key by key: a path of one
    key gives the value the dictionary holds under it, a longer path is
    the rest of the path resolved in that value, and a key the dictionary
    does not hold gives [None] at once. *)
Theorem path_descends_through_dict (d : list (string * Json)) (key rest : string) :
  no_dot key ->
  _get_field_value (JDict d) key
  = Ok (match PyDict.get d key with Some v => v | None => JNull end) /\
  _get_field_value (JDict d) (key ++ "." ++ rest)
  = match PyDict.get d key with
    | Some v => _get_field_value v rest
    | None => Ok JNull
    end.
Proof.
  intros N. unfold _get_field_value. split.
  - rewrite (split_single "." key N). cbn [walk].
    now destruct (PyDict.get d key).
  - rewrite (split_first key rest N). cbn [walk].
    now destruct (PyDict.get d key).
Qed.

Lemma path_descends_through_dict_witness :
  _get_field_value
    (JDict [("PATIENT_INFO", JDict [("CLINIC_PATIENT_ID", JStr "9820609")])])
    ("PATIENT_INFO" ++ "." ++ "CLINIC_PATIENT_ID")
  = _get_field_value (JDict [("CLINIC_PATIENT_ID", JStr "9820609")])
      "CLINIC_PATIENT_ID".
Proof.
  apply (proj2 (path_descends_through_dict
                  [("PATIENT_INFO", JDict [("CLINIC_PATIENT_ID", JStr "9820609")])]
                  "PATIENT_INFO" "CLINIC_PATIENT_ID" eq_refl)).
Defined.

Lemma project_dicts (key : string) (items : list Json) :
  forallb is_dict items = true ->
  mapM (item_get key) items = Ok (map (record_value key) items).
Proof.
  induction items as [|item rest IH]; cbn [forallb mapM map]; [reflexivity|].
  intros H. apply andb_prop in H as [Hd Hr].
  destruct item; try discriminate. cbn [item_get record_value].
  rewrite (IH Hr). now destruct (PyDict.get d key).
Qed.

Lemma project_stops (key : string) (before : list Json) (x : Json)
    (after : list Json) :
  forallb is_dict before = true -> is_dict x = false ->
  mapM (item_get key) (before ++ x :: after)
  = Raise (AttributeError (type_name x) "get").
Proof.
  intros Hb Hx. induction before as [|item rest IH]; cbn [app mapM].
  - destruct x; try discriminate; reflexivity.
  - cbn [forallb] in Hb. apply andb_prop in Hb as [Hd Hr].
    destruct item; try discriminate. cbn [item_get].
    rewrite (IH Hr). now destruct (PyDict.get d key).
Qed.

(** X7.  Over a list of records whose first record holds the key, the key
    is projected: the result is the list of what each record holds under
    the key, [None] for a record that does not hold it, so it has one
    entry per record; a longer path goes on in that list. *)
Theorem key_projects_over_records (d0 : list (string * Json))
    (others : list Json) (key rest : string) :
  no_dot key ->
  PyDict.mem d0 key = true ->
  forallb is_dict others = true ->
  _get_field_value (JList (JDict d0 :: others)) key
  = Ok (JList (map (record_value key) (JDict d0 :: others))) /\
  _get_field_value (JList (JDict d0 :: others)) (key ++ "." ++ rest)
  = _get_field_value (JList (map (record_value key) (JDict d0 :: others))) rest.
Proof.
  intros N M D. unfold _get_field_value.
  assert (P : mapM (item_get key) (JDict d0 :: others)
              = Ok (map (record_value key) (JDict d0 :: others))).
  { apply project_dicts. cbn [forallb is_dict]. exact D. }
  split.
  - rewrite (split_single "." key N). cbn -[mapM map]. rewrite M, P.
    reflexivity.
  - rewrite (split_first key rest N). cbn -[mapM map]. rewrite M, P.
    reflexivity.
Qed.

Lemma key_projects_over_records_witness :
  _get_field_value
    (JList [JDict [("CYCLE_TYPE", JStr "Night 5")]; JDict []]) "CYCLE_TYPE"
  = Ok (JList [JStr "Night 5"; JNull]).
Proof.
  apply (proj1 (key_projects_over_records [("CYCLE_TYPE", JStr "Night 5")]
                  [JDict []] "CYCLE_TYPE" "" eq_refl eq_refl eq_refl)).
Defined.

(** X8.  Over a list whose first record holds the key and which holds
    something that is not a dictionary, the projection fails: the
    resolution raises the [AttributeError] of the first such element,
    whatever follows in the list or in the path. *)
Theorem projection_fails_on_non_record (d0 : list (string * Json))
    (before : list Json) (x : Json) (after : list Json) (key rest : string) :
  no_dot key ->
  PyDict.mem d0 key = true ->
  forallb is_dict before = true ->
  is_dict x = false ->
  _get_field_value (JList (JDict d0 :: before ++ x :: after)) key
  = Raise (AttributeError (type_name x) "get") /\
  _get_field_value (JList (JDict d0 :: before ++ x :: after)) (key ++ "." ++ rest)
  = Raise (AttributeError (type_name x) "get").
Proof.
  intros N M B X. unfold _get_field_value.
  assert (P : mapM (item_get key) (JDict d0 :: before ++ x :: after)
              = Raise (AttributeError (type_name x) "get")).
  { apply (project_stops key (JDict d0 :: before) x after); [|exact X].
    cbn [forallb is_dict]. exact B. }
  split.
  - rewrite (split_single "." key N). cbn -[mapM app]. rewrite M, P.
    reflexivity.
  - rewrite (split_first key rest N). cbn -[mapM app]. rewrite M, P.
    reflexivity.
Qed.

Lemma projection_fails_on_non_record_witness :
  _get_field_value
    (JList (JDict [("CYCLE_TYPE", JStr "Night 5")] :: [] ++ JNull :: [JInt 3]))
    "CYCLE_TYPE"
  = Raise (AttributeError (type_name JNull) "get").
Proof.
  apply (proj1 (projection_fails_on_non_record [("CYCLE_TYPE", JStr "Night 5")]
                  [] JNull [JInt 3] "CYCLE_TYPE" "" eq_refl eq_refl eq_refl
                  eq_refl)).
Defined.

(** ** Rows the compiler accepts *)

(** X9.  The compiler reads a row exactly when the row has the columns
    SEGMENT, IDENTIFIER, DISPLAY_NAME and DATA_TYPE, a text in the column
    JSON_ATTRIBUTE, and a SEQUENCE column that holds nothing, the empty
    text, or the text of an integer. *)
Theorem row_reads_iff (row : Row) :
  reads row <-> other_columns_read row /\ sequence_reads row.
Proof.
  unfold reads, other_columns_read, sequence_reads, read_row, row_item. split.
  - intros [r R]. revert R.
    destruct (PyDict.get row "SEGMENT") as [seg|]; [|discriminate]. cbn [bind].
    destruct (PyDict.get row "JSON_ATTRIBUTE") as [[a|]|]; try discriminate.
    cbn [bind].
    destruct (PyDict.get row "IDENTIFIER") as [i|]; [|discriminate]. cbn [bind].
    destruct (PyDict.get row "DISPLAY_NAME") as [d|]; [|discriminate]. cbn [bind].
    destruct (PyDict.get row "DATA_TYPE") as [t|]; [|discriminate]. cbn [bind].
    destruct (PyDict.get row "SEQUENCE") as [q|]; [|discriminate]. cbn [bind].
    intros R. split; [repeat split; eauto|]. exists q. split; [reflexivity|].
    destruct q as [s|]; [|now left]. right.
    destruct (String.eqb_spec s "") as [->|N]; [now left|right].
    revert R. unfold sequence_of, truthy_text.
    destruct (String.eqb_spec s ""); [contradiction|]. cbn [negb].
    destruct (PyStr.py_int s) as [z|] eqn:P; [|discriminate]. intros _.
    exists s, z. now split.
  - intros (([seg Hs] & [a Ha] & [i Hi] & [d Hd] & [t Ht]) & q & Hq & C).
    rewrite Hs, Ha, Hi, Hd, Ht, Hq. cbn [bind].
    destruct C as [-> | [-> | (s & z & -> & P)]]; cbn; eauto.
    unfold sequence_of, truthy_text.
    destruct (String.eqb_spec s "") as [->|N]; cbn; eauto.
    rewrite P. cbn. eauto.
Qed.

Lemma foldM_add_row_raises (rows : list Row) (e : Exn) :
  forall m, foldM add_row m rows = Raise e <-> mapM read_row rows = Raise e.
Proof.
  induction rows as [|row rest IH]; intros m; cbn [foldM mapM].
  - split; discriminate.
  - unfold add_row at 1. destruct (read_row row) as [r|e']; cbn [bind].
    + rewrite IH. destruct (mapM read_row rest); cbn [bind]; split; congruence.
    + split; congruence.
Qed.

Lemma mapM_ok_iff {A B : Type} (f : A -> Result B) (l : list A) :
  (exists ys, mapM f l = Ok ys) <-> Forall (fun x => exists y, f x = Ok y) l.
Proof.
  induction l as [|x r IH]; cbn [mapM].
  - split; [constructor|eauto].
  - split.
    + intros [ys E]. destruct (f x) as [y|e] eqn:F; [|discriminate].
      cbn [bind] in E. destruct (mapM f r) as [zs|e] eqn:M; [|discriminate].
      constructor; [eauto|]. apply IH. eauto.
    + intros H. inversion H as [|? ? [y F] Hr]; subst.
      apply IH in Hr as [zs M]. rewrite F, M. cbn. eauto.
Qed.

Lemma mapM_raises_iff {A B : Type} (f : A -> Result B) (l : list A) (e : Exn) :
  mapM f l = Raise e <->
  exists before x after,
    l = (before ++ x :: after)%list /\
    (exists ys, mapM f before = Ok ys) /\ f x = Raise e.
Proof.
  induction l as [|x r IH]; cbn [mapM].
  - split; [discriminate|]. intros (b & y & a & E & _). now destruct b.
  - destruct (f x) as [y|e'] eqn:F; cbn [bind].
    + split.
      * intros H. destruct (mapM f r) as [zs|e''] eqn:M; [discriminate|].
        injection H as ->.
        destruct (proj1 IH eq_refl) as (b & z & a & -> & [ys Mb] & Fz).
        exists (x :: b), z, a. repeat split; [|exact Fz].
        cbn [mapM]. rewrite F, Mb. cbn. eauto.
      * intros (b & z & a & E & [ys Mb] & Fz). destruct b as [|x' b].
        -- injection E as -> _. congruence.
        -- injection E as -> ->. cbn [mapM] in Mb. rewrite F in Mb.
           cbn [bind] in Mb.
           destruct (mapM f b) as [ws|] eqn:Mw; [|discriminate].
           assert (R : mapM f (b ++ z :: a) = Raise e).
           { apply IH. exists b, z, a. eauto. }
           now rewrite R.
    + split.
      * intros [= ->]. exists [], x, r. repeat split; [|exact F]. now exists [].
      * intros (b & z & a & E & [ys Mb] & Fz). destruct b as [|x' b].
        -- injection E as -> _. congruence.
        -- injection E as -> _. cbn [mapM] in Mb. now rewrite F in Mb.
Qed.

(** X10.  The compilation succeeds exactly when every row can be read.
    When it fails, it fails with the exception of the first row that
    cannot be read: the rows before it are read, and the rows after it
    play no part. *)
Theorem compilation_fails_at_first_bad_row (config_data : list Row) :
  ((exists m, _build_dynamic_mappings config_data = Ok m) <->
   Forall reads config_data) /\
  forall e,
    _build_dynamic_mappings config_data = Raise e <->
    exists before row after,
      config_data = (before ++ row :: after)%list /\
      Forall reads before /\ read_row row = Raise e.
Proof.
  unfold _build_dynamic_mappings. split.
  - rewrite <- (mapM_ok_iff read_row). split.
    + intros [m E].
      destruct (foldM add_row empty_mappings config_data) as [m0|e] eqn:F;
        [|discriminate].
      apply foldM_add_row in F as (cfgs & R & _). eauto.
    + intros [cfgs R].
      destruct (foldM add_row empty_mappings config_data) as [m0|e] eqn:F;
        [cbn; eauto|].
      apply foldM_add_row_raises in F. congruence.
  - intros e. split.
    + intros H.
      destruct (foldM add_row empty_mappings config_data) as [m0|e'] eqn:F;
        [discriminate|].
      injection H as ->. apply foldM_add_row_raises in F.
      apply mapM_raises_iff in F.
      destruct F as (b & x & a & E & M & R). exists b, x, a.
      repeat split; [exact E| |exact R]. now apply (mapM_ok_iff read_row).
    + intros (b & x & a & E & M & R).
      assert (F : foldM add_row empty_mappings config_data = Raise e).
      { apply foldM_add_row_raises. apply mapM_raises_iff. exists b, x, a.
        repeat split; [exact E| |exact R]. now apply (mapM_ok_iff read_row). }
      now rewrite F.
Qed.

(** ** The segments and groups of the compiled configuration *)

Lemma mem_existsb (d : PyDict.dict (option string) (PyDict.dict string FieldConfig.t))
    (k : option string) :
  PyDict.mem d k = existsb (key_eqb k) (PyDict.keys d).
Proof.
  unfold PyDict.mem, PyDict.keys.
  induction d as [|[k' v] r IH]; cbn; [reflexivity|].
  destruct (key_eqb k' k) eqn:E.
  - apply option_string_key_eq in E. subst k'.
    now rewrite (key_eqb_refl option_string_key_eq).
  - rewrite (key_eqb_neq option_string_key_eq k k'); [exact IH|].
    intros ->. now rewrite (key_eqb_refl option_string_key_eq) in E.
Qed.

Lemma file_row_order (m : Mappings) (s : option string) (fc : FieldConfig.t) :
  segment_order (file_row m s fc) = see (segment_order m) s.
Proof. unfold file_row. destruct (group_of s fc); reflexivity. Qed.

Lemma file_row_keys (m : Mappings) (s : option string) (fc : FieldConfig.t) :
  PyDict.keys (segments (file_row m s fc)) = see (PyDict.keys (segments m)) s.
Proof.
  unfold file_row, see. rewrite <- mem_existsb.
  destruct (group_of s fc); cbn [segments].
  - destruct (PyDict.mem (segments m) s) eqn:M; [reflexivity|].
    now rewrite keys_set, M.
  - rewrite keys_set.
    destruct (PyDict.mem (segments m) s) eqn:M; [now rewrite M|].
    rewrite keys_set, M.
    unfold PyDict.mem. now rewrite (get_set_same option_string_key_eq).
Qed.

Lemma filter_other_in (x : option string) (l : list (option string)) :
  forall y, In y (filter (fun z => negb (key_eqb x z)) l) <-> In y l /\ y <> x.
Proof.
  intros y. rewrite filter_In. split; intros [I H]; (split; [exact I|]).
  - intros ->. now rewrite (key_eqb_refl option_string_key_eq) in H.
  - rewrite (key_eqb_neq option_string_key_eq); [reflexivity|congruence].
Qed.

Lemma first_seen_in (l : list (option string)) :
  forall y, In y (first_seen l) <-> In y l.
Proof.
  induction l as [|x r IH]; intros y; cbn [first_seen In]; [tauto|].
  rewrite filter_other_in, IH.
  destruct (key_eqb x y) eqn:K.
  - apply option_string_key_eq in K. tauto.
  - assert (N : x <> y).
    { intros ->. now rewrite (key_eqb_refl option_string_key_eq) in K. }
    split; [tauto|].
    intros [->|I]; [tauto|]. right. split; [exact I|congruence].
Qed.

Lemma existsb_in (x : option string) (l : list (option string)) :
  existsb (key_eqb x) l = true <-> In x l.
Proof.
  rewrite existsb_exists. split.
  - intros (y & I & E). apply option_string_key_eq in E. now subst.
  - intros I. exists x. split; [exact I|apply (key_eqb_refl option_string_key_eq)].
Qed.

Lemma first_seen_snoc (l : list (option string)) (x : option string) :
  first_seen (l ++ [x]) = see (first_seen l) x.
Proof.
  unfold see. induction l as [|a r IH]; cbn [app first_seen].
  - cbn. reflexivity.
  - rewrite IH. cbn [existsb].
    destruct (key_eqb x a) eqn:K.
    + apply option_string_key_eq in K. subst a. cbn [orb].
      destruct (existsb (key_eqb x) (first_seen r)) eqn:X; [reflexivity|].
      rewrite filter_app. cbn [filter].
      rewrite (key_eqb_refl option_string_key_eq). cbn. now rewrite app_nil_r.
    + cbn [orb].
      assert (N : x <> a).
      { intros ->. now rewrite (key_eqb_refl option_string_key_eq) in K. }
      assert (X : existsb (key_eqb x)
                    (filter (fun z => negb (key_eqb a z)) (first_seen r))
                  = existsb (key_eqb x) (first_seen r)).
      { apply eq_true_iff_eq. rewrite !existsb_in, filter_other_in. tauto. }
      rewrite X. destruct (existsb (key_eqb x) (first_seen r)); [reflexivity|].
      rewrite filter_app. cbn [filter].
      rewrite (key_eqb_neq option_string_key_eq a x) by congruence.
      reflexivity.
Qed.

Lemma filed_order (cfgs : list ReadRow) :
  segment_order (file_rows cfgs empty_mappings) = first_seen (map fst cfgs) /\
  PyDict.keys (segments (file_rows cfgs empty_mappings)) = first_seen (map fst cfgs).
Proof.
  induction cfgs as [|r rest IH] using rev_ind; [split; reflexivity|].
  unfold file_rows in *. rewrite fold_left_app, map_app. cbn [fold_left map].
  rewrite file_row_order, file_row_keys, first_seen_snoc.
  destruct IH as [O K]. split; f_equal; assumption.
Qed.

Lemma first_seen_NoDup (l : list (option string)) : NoDup (first_seen l).
Proof.
  induction l as [|x r IH]; cbn [first_seen]; constructor.
  - rewrite filter_other_in. tauto.
  - now apply NoDup_filter.
Qed.

(** X11.  In the compiled configuration [segment_order] lists the
    segment names of the rows in the order in which they first occur,
    each once, and the dictionary [segments] has exactly these names as
    its keys, in the same order: also the name of a segment all of whose
    rows went to groups. *)
Theorem segments_follow_first_occurrence (config_data : list Row) (m : Mappings) :
  _build_dynamic_mappings config_data = Ok m ->
  exists cfgs,
    mapM read_row config_data = Ok cfgs /\
    segment_order m = first_seen (map fst cfgs) /\
    PyDict.keys (segments m) = segment_order m /\
    NoDup (segment_order m) /\
    forall segment, In segment (segment_order m) <-> In segment (map fst cfgs).
Proof.
  unfold _build_dynamic_mappings.
  destruct (foldM add_row empty_mappings config_data) as [m0|e] eqn:F;
    [|discriminate].
  cbn [bind]. intros [= <-].
  apply foldM_add_row in F as (cfgs & R & ->).
  exists cfgs. split; [exact R|].
  destruct (filed_order cfgs) as [O K].
  unfold sort_mappings. cbn [segment_order segments].
  assert (K' : PyDict.keys
                 (map (fun kv : option string * PyDict.dict string FieldConfig.t =>
                         (fst kv,
                          PyDict.of_items
                            (sorted_by sequence_of_item (PyDict.items (snd kv)))))
                    (segments (file_rows cfgs empty_mappings)))
               = PyDict.keys (segments (file_rows cfgs empty_mappings))).
  { unfold PyDict.keys. rewrite map_map. reflexivity. }
  rewrite K', K, O. repeat split.
  - apply first_seen_NoDup.
  - apply first_seen_in.
  - apply first_seen_in.
Qed.

Lemma segments_follow_first_occurrence_witness :
  exists cfgs,
    mapM read_row Examples.therapy_config = Ok cfgs /\
    segment_order Examples.therapy_mappings = first_seen (map fst cfgs) /\
    PyDict.keys (segments Examples.therapy_mappings)
    = segment_order Examples.therapy_mappings /\
    NoDup (segment_order Examples.therapy_mappings) /\
    forall segment,
      In segment (segment_order Examples.therapy_mappings)
      <-> In segment (map fst cfgs).
Proof.
  apply (segments_follow_first_occurrence Examples.therapy_config
           Examples.therapy_mappings therapy_config_compiled).
Defined.

Lemma group_of_some (s : option string) (fc : FieldConfig.t) (tag : string) :
  group_of s fc = Some tag ->
  FieldConfig.child_obr fc = Some tag /\ tag <> "" /\ s = Some "OBX".
Proof.
  unfold group_of.
  destruct (key_eqb s (Some "OBX")) eqn:K; cbn [andb]; [|discriminate].
  apply option_string_key_eq in K.
  destruct (FieldConfig.child_obr fc) as [c|]; cbn; [|discriminate].
  destruct (String.eqb_spec c ""); cbn; [discriminate|].
  intros [= <-]. repeat split; assumption.
Qed.

Lemma in_group_iff (tag : string) (r : ReadRow) :
  in_group tag r = true <-> group_of (fst r) (snd r) = Some tag.
Proof.
  unfold in_group. destruct (group_of (fst r) (snd r)) as [t|].
  - rewrite string_key_eq. split; congruence.
  - split; discriminate.
Qed.

Lemma get_group_file_row (m : Mappings) (s : option string) (fc : FieldConfig.t)
    (tag : string) :
  PyDict.get (obr_sections (file_row m s fc)) tag
  = if in_group tag (s, fc) then Some (lookup_group m tag ++ [fc])%list
    else PyDict.get (obr_sections m) tag.
Proof.
  unfold in_group, lookup_group, file_row. cbn [fst snd].
  destruct (group_of s fc) as [t|]; cbn [obr_sections]; [|reflexivity].
  destruct (key_eqb t tag) eqn:E.
  - apply string_key_eq in E. subst t.
    now rewrite (get_set_same string_key_eq).
  - rewrite (get_set_other string_key_eq); [reflexivity|].
    intros ->. now rewrite (key_eqb_refl string_key_eq) in E.
Qed.

Lemma get_group_file_rows (tag : string) (cfgs : list ReadRow) :
  forall m,
    PyDict.get (obr_sections (file_rows cfgs m)) tag
    = match group_rows tag cfgs with
      | [] => PyDict.get (obr_sections m) tag
      | _ => Some (lookup_group m tag ++ group_rows tag cfgs)%list
      end.
Proof.
  induction cfgs as [|[s fc] rest IH]; intros m; [reflexivity|].
  change (file_rows ((s, fc) :: rest) m) with (file_rows rest (file_row m s fc)).
  rewrite IH, get_group_file_row, lookup_group_file_row.
  unfold group_rows. cbn [filter].
  destruct (in_group tag (s, fc)); cbn [map snd].
  - destruct (map snd (filter (in_group tag) rest)); [reflexivity|].
    now rewrite <- app_assoc.
  - reflexivity.
Qed.

(** X12.  Every child row (an OBX row with a group tag that is not
    empty) is kept, once, in the list of its group: the list of a group is
    a rearrangement of the rows filed under its tag, it is never empty,
    and all its fields name the group's tag as their [child_obr]. *)
Theorem group_holds_its_rows (config_data : list Row) (m : Mappings) :
  _build_dynamic_mappings config_data = Ok m ->
  exists cfgs,
    mapM read_row config_data = Ok cfgs /\
    (forall tag fields,
        PyDict.get (obr_sections m) tag = Some fields ->
        Permutation (group_rows tag cfgs) fields /\
        fields <> [] /\ tag <> "" /\
        Forall (fun fc => FieldConfig.child_obr fc = Some tag) fields) /\
    (forall r tag,
        In r cfgs -> group_of (fst r) (snd r) = Some tag ->
        exists fields,
          PyDict.get (obr_sections m) tag = Some fields /\ In (snd r) fields).
Proof.
  unfold _build_dynamic_mappings.
  destruct (foldM add_row empty_mappings config_data) as [m0|e] eqn:F;
    [|discriminate].
  cbn [bind]. intros [= <-].
  apply foldM_add_row in F as (cfgs & R & ->).
  exists cfgs. split; [exact R|].
  assert (G : forall tag,
             PyDict.get (obr_sections (sort_mappings (file_rows cfgs empty_mappings)))
               tag
             = match group_rows tag cfgs with
               | [] => None
               | _ => Some (sorted_by FieldConfig.sequence (group_rows tag cfgs))
               end).
  { intros tag. unfold sort_mappings. cbn [obr_sections].
    rewrite (get_map_values (sorted_by FieldConfig.sequence)).
    rewrite get_group_file_rows. cbn [obr_sections empty_mappings PyDict.get].
    unfold lookup_group. cbn [obr_sections empty_mappings PyDict.get app].
    now destruct (group_rows tag cfgs). }
  assert (Members : forall tag fc,
             In fc (group_rows tag cfgs) ->
             FieldConfig.child_obr fc = Some tag /\ tag <> "").
  { intros tag fc I. unfold group_rows in I. apply in_map_iff in I.
    destruct I as (r & <- & I). apply filter_In in I as [_ I].
    apply in_group_iff, group_of_some in I. tauto. }
  split.
  - intros tag fields. rewrite G.
    destruct (group_rows tag cfgs) as [|fc0 l] eqn:E; [discriminate|].
    pose proof (sorted_by_perm FieldConfig.sequence (fc0 :: l)) as P.
    remember (sorted_by FieldConfig.sequence (fc0 :: l)) as sorted eqn:S.
    clear S. intros [= <-].
    split; [exact P|]. split; [|split].
    + intros ->. apply Permutation_sym, Permutation_nil in P. discriminate.
    + apply (Members tag fc0). rewrite E. now left.
    + apply Forall_forall. intros fc I.
      apply (Permutation_in _ (Permutation_sym P)) in I.
      apply (Members tag fc). rewrite E. exact I.
  - intros r tag I Gr.
    assert (J : In (snd r) (group_rows tag cfgs)).
    { unfold group_rows. apply in_map, filter_In. split; [exact I|].
      now apply in_group_iff. }
    rewrite G. destruct (group_rows tag cfgs) as [|fc0 l] eqn:E; [destruct J|].
    eexists. split; [reflexivity|].
    apply (Permutation_in _ (sorted_by_perm FieldConfig.sequence (fc0 :: l))), J.
Qed.

Lemma group_holds_its_rows_witness :
  exists cfgs,
    mapM read_row Examples.therapy_config = Ok cfgs /\
    (forall tag fields,
        PyDict.get (obr_sections Examples.therapy_mappings) tag = Some fields ->
        Permutation (group_rows tag cfgs) fields /\
        fields <> [] /\ tag <> "" /\
        Forall (fun fc => FieldConfig.child_obr fc = Some tag) fields) /\
    (forall r tag,
        In r cfgs -> group_of (fst r) (snd r) = Some tag ->
        exists fields,
          PyDict.get (obr_sections Examples.therapy_mappings) tag = Some fields /\
          In (snd r) fields).
Proof.
  apply (group_holds_its_rows Examples.therapy_config Examples.therapy_mappings
           therapy_config_compiled).
Defined.

(** ** Rows that name an attribute again *)

Lemma get_app {V : Type} (d1 d2 : PyDict.dict string V) (k : string) :
  PyDict.get (d1 ++ d2)%list k
  = match PyDict.get d1 k with
    | Some v => Some v
    | None => PyDict.get d2 k
    end.
Proof.
  induction d1 as [|[k' v'] r IH]; cbn; [reflexivity|].
  now destruct (key_eqb k' k).
Qed.

Lemma get_set {V : Type} (d : PyDict.dict string V) (k0 k : string) (v0 : V) :
  PyDict.get (PyDict.set d k0 v0) k
  = if key_eqb k0 k then Some v0 else PyDict.get d k.
Proof.
  destruct (key_eqb k0 k) eqn:E.
  - apply string_key_eq in E. subst. apply (get_set_same string_key_eq).
  - apply (get_set_other string_key_eq). intros ->.
    now rewrite (key_eqb_refl string_key_eq) in E.
Qed.

Lemma get_fold_set {V : Type} (l : list (string * V)) (k : string) :
  forall d,
    PyDict.get (fold_left (fun d kv => PyDict.set d (fst kv) (snd kv)) l d) k
    = match PyDict.get (rev l) k with
      | Some v => Some v
      | None => PyDict.get d k
      end.
Proof.
  induction l as [|[k0 v0] r IH]; intros d; cbn [fold_left rev fst snd];
    [reflexivity|].
  rewrite IH, get_app, get_set. cbn [PyDict.get].
  destruct (PyDict.get (rev r) k); [reflexivity|].
  now destruct (key_eqb k0 k).
Qed.

Lemma get_perm {V : Type} (d d' : PyDict.dict string V) (k : string) :
  Permutation d d' -> NoDup (PyDict.keys d) -> PyDict.get d k = PyDict.get d' k.
Proof.
  unfold PyDict.keys.
  induction 1 as [|[k0 v0] l l' P IH|[k1 v1] [k2 v2] l|l1 l2 l3 P1 IH1 P2 IH2];
    intros N.
  - reflexivity.
  - cbn. inversion N; subst. now rewrite IH.
  - cbn. destruct (key_eqb k1 k) eqn:E1, (key_eqb k2 k) eqn:E2; try reflexivity.
    apply string_key_eq in E1, E2. subst. inversion N as [|? ? X _]; subst.
    exfalso. apply X. now left.
  - rewrite IH1 by exact N. apply IH2.
    eapply Permutation_NoDup; [|exact N]. now apply Permutation_map.
Qed.

(** X13.  When several rows of a segment name the same attribute, the
    mapping of the segment holds one field for it, that of the last of
    these rows: looking an attribute up in the mapping gives what looking
    it up in the rows of the segment, last row first, gives. *)
Theorem last_row_of_an_attribute_wins (config_data : list Row) (m : Mappings) :
  _build_dynamic_mappings config_data = Ok m ->
  exists cfgs,
    mapM read_row config_data = Ok cfgs /\
    forall segment fields,
      PyDict.get (segments m) segment = Some fields ->
      NoDup (PyDict.keys fields) /\
      forall attribute,
        PyDict.get fields attribute
        = PyDict.get (rev (direct_rows segment cfgs)) attribute.
Proof.
  intros C. destruct (compiled_from_rows config_data m C) as (cfgs & R & Seg & _).
  exists cfgs. split; [exact R|]. intros segment fields G.
  rewrite (Seg segment fields G).
  assert (N : NoDup (PyDict.keys (PyDict.of_items (direct_rows segment cfgs))))
    by apply (of_items_NoDup_keys string_key_eq).
  assert (P : Permutation (PyDict.of_items (direct_rows segment cfgs))
                (sorted_by sequence_of_item
                   (PyDict.of_items (direct_rows segment cfgs))))
    by apply sorted_by_perm.
  split.
  - unfold PyDict.keys in *. eapply Permutation_NoDup; [|exact N].
    now apply Permutation_map.
  - intros attribute. rewrite <- (get_perm _ _ attribute P N).
    unfold PyDict.of_items. rewrite get_fold_set.
    now destruct (PyDict.get (rev (direct_rows segment cfgs)) attribute).
Qed.

Lemma repeated_attribute_compiled :
  _build_dynamic_mappings Examples.repeated_attribute_config
  = Ok MoreExamples.repeated_attribute_mappings.
Proof. vm_compute. reflexivity. Defined.

Lemma last_row_of_an_attribute_wins_witness :
  exists cfgs,
    mapM read_row Examples.repeated_attribute_config = Ok cfgs /\
    forall segment fields,
      PyDict.get (segments MoreExamples.repeated_attribute_mappings) segment
      = Some fields ->
      NoDup (PyDict.keys fields) /\
      forall attribute,
        PyDict.get fields attribute
        = PyDict.get (rev (direct_rows segment cfgs)) attribute.
Proof.
  apply (last_row_of_an_attribute_wins Examples.repeated_attribute_config
           MoreExamples.repeated_attribute_mappings repeated_attribute_compiled).
Defined.

(** ** Configurations that cannot encode *)

Lemma read_row_segment (row : Row) (s : option string) (fc : FieldConfig.t) :
  read_row row = Ok (s, fc) -> PyDict.get row "SEGMENT" = Some s.
Proof.
  unfold read_row, row_item.
  destruct (PyDict.get row "SEGMENT") as [seg|]; [|discriminate]. cbn [bind].
  destruct (PyDict.get row "JSON_ATTRIBUTE") as [[a|]|]; try discriminate.
  cbn [bind].
  destruct (PyDict.get row "IDENTIFIER"); [|discriminate]. cbn [bind].
  destruct (PyDict.get row "DISPLAY_NAME"); [|discriminate]. cbn [bind].
  destruct (PyDict.get row "DATA_TYPE"); [|discriminate]. cbn [bind].
  destruct (PyDict.get row "SEQUENCE"); [|discriminate]. cbn [bind].
  destruct (sequence_of _); [|discriminate]. cbn [bind].
  intros [= -> _]. reflexivity.
Qed.

Lemma read_segments (rows : list Row) (name : string) :
  Forall (fun row => PyDict.get row "SEGMENT" <> Some (Some name)) rows ->
  forall cfgs, mapM read_row rows = Ok cfgs -> ~ In (Some name) (map fst cfgs).
Proof.
  induction 1 as [|row rest N _ IH]; intros cfgs; cbn [mapM].
  - intros [= <-] [].
  - destruct (read_row row) as [[s fc]|e] eqn:R; [|discriminate]. cbn [bind].
    destruct (mapM read_row rest) as [cs|e]; [|discriminate]. cbn [bind].
    intros [= <-]. cbn [map fst]. intros [->|I]; [|now apply (IH cs)].
    apply N. now apply read_row_segment in R.
Qed.

Lemma compiled_segment_keys (config_data : list Row) (m : Mappings) :
  _build_dynamic_mappings config_data = Ok m ->
  exists cfgs,
    mapM read_row config_data = Ok cfgs /\
    PyDict.keys (segments m) = first_seen (map fst cfgs).
Proof.
  unfold _build_dynamic_mappings.
  destruct (foldM add_row empty_mappings config_data) as [m0|e] eqn:F;
    [|discriminate].
  cbn [bind]. intros [= <-].
  apply foldM_add_row in F as (cfgs & R & ->).
  exists cfgs. split; [exact R|].
  destruct (filed_order cfgs) as [_ K]. rewrite <- K.
  unfold sort_mappings, PyDict.keys. cbn [segments]. now rewrite map_map.
Qed.

Lemma no_rows_no_segment (config_data : list Row) (m : Mappings) (name : string) :
  _build_dynamic_mappings config_data = Ok m ->
  Forall (fun row => PyDict.get row "SEGMENT" <> Some (Some name)) config_data ->
  PyDict.get (segments m) (Some name) = None.
Proof.
  intros C N. destruct (compiled_segment_keys config_data m C) as (cfgs & R & K).
  apply (get_none_keys option_string_key_eq). rewrite K, first_seen_in.
  now apply (read_segments config_data name N).
Qed.

Section EncodingFacts.
Variable repr_float : float -> string.
Variable repr_str : string -> string.
Variable now : nat -> DateTime.

Lemma hl7_segments_needs_pid (m : Mappings) (json_data : Json) (t : nat) :
  PyDict.get (segments m) (Some "PID") = None ->
  exists e t',
    hl7_segments repr_float repr_str now m json_data t = (Raise e, t') /\
    (e = KeyError "PID" \/ exists type, e = AttributeError type "get").
Proof.
  intros P. unfold hl7_segments.
  generalize (_normalize_json_data json_data) as d. intros d.
  cbn [foldMM]. unfold fixed_segment_step, _build_segment.
  cbn -[strftime bhs_line msh_line orc_line pv1_line py_str pid_fields_line
        _get_field_value foldM nte_line device_line group_step PyStr.join
        json_get PyDict.get].
  unfold bindM, lift, ret, _get_timestamp, pid_segment. rewrite P.
  assert (J : forall v key default e,
             json_get v key default = Raise e ->
             exists type, e = AttributeError type "get").
  { intros v key default e. unfold json_get.
    destruct v; try (intros [= <-]; eauto).
    destruct (PyDict.get d0 key); discriminate. }
  destruct (json_get d "BATCH" (JDict [])) as [b|e] eqn:B;
    [|exists e; eexists; split; [reflexivity|right; eapply J, B]].
  destruct (json_get b "TYPE" (JStr "Normal")) as [ty|e] eqn:T;
    [|exists e; eexists; split; [reflexivity|right; eapply J, T]].
  destruct (json_get b "ID" (JStr "")) as [id|e] eqn:I;
    [|exists e; eexists; split; [reflexivity|right; eapply J, I]].
  cbn [bind]. exists (KeyError "PID"). eexists. split; [reflexivity|now left].
Qed.

(** X14.  A configuration without a row for the segment PID compiles,
    but no record can be encoded with it: every encoding raises an
    exception, the [KeyError] for ['PID'] unless the batch entry of the
    record already stopped the batch header. *)
Theorem configuration_without_pid_never_encodes (config_data : list Row)
    (m : Mappings) :
  _build_dynamic_mappings config_data = Ok m ->
  Forall (fun row => PyDict.get row "SEGMENT" <> Some (Some "PID")) config_data ->
  forall json_data t,
    exists e,
      fst (generate_hl7 repr_float repr_str now m json_data t) = Raise e /\
      (e = KeyError "PID" \/ exists type, e = AttributeError type "get").
Proof.
  intros C N json_data t.
  pose proof (no_rows_no_segment config_data m "PID" C N) as P.
  destruct (hl7_segments_needs_pid m json_data t P) as (e & t' & H & E).
  exists e. split; [|exact E]. unfold generate_hl7, bindM. now rewrite H.
Qed.

(** X15.  A configuration that has child rows of a group but no row for
    the segment OBR compiles, but no record can be encoded with it: the
    first group asks for the mapping of OBR, which is not there. *)
Theorem groups_without_obr_rows_never_encode (config_data : list Row)
    (m : Mappings) :
  _build_dynamic_mappings config_data = Ok m ->
  Forall (fun row => PyDict.get row "SEGMENT" <> Some (Some "OBR")) config_data ->
  obr_sections m <> [] ->
  forall json_data t,
    exists e, fst (generate_hl7 repr_float repr_str now m json_data t) = Raise e.
Proof.
  intros C N G json_data t.
  pose proof (no_rows_no_segment config_data m "OBR" C N) as O.
  unfold generate_hl7, bindM.
  destruct (hl7_segments repr_float repr_str now m json_data t) as [[lines|e] t']
    eqn:H; [|now exists e].
  exfalso.
  destruct (hl7_segments_shape repr_float repr_str now m json_data t lines t' H)
    as (fixed & tr & dev & st & _ & _ & L & _).
  destruct (obr_sections m) as [|[tag fields] rest]; [now apply G|].
  cbn [PyDict.keys map fst foldM] in L.
  unfold group_step at 1 in L. unfold _build_obr_section in L.
  rewrite O in L. discriminate L.
Qed.

End EncodingFacts.

Lemma no_pid_config_compiled :
  _build_dynamic_mappings MoreExamples.no_pid_config
  = Ok MoreExamples.no_pid_mappings.
Proof. vm_compute. reflexivity. Defined.

Lemma no_obr_config_compiled :
  _build_dynamic_mappings MoreExamples.no_obr_config
  = Ok MoreExamples.no_obr_mappings.
Proof. vm_compute. reflexivity. Defined.

Lemma configuration_without_pid_never_encodes_witness :
  exists e,
    fst (generate_hl7 Examples.no_float Examples.quote Examples.ticking_clock
           MoreExamples.no_pid_mappings Examples.two_cycles 0%nat) = Raise e /\
    (e = KeyError "PID" \/ exists type, e = AttributeError type "get").
Proof.
  apply (configuration_without_pid_never_encodes Examples.no_float Examples.quote
           Examples.ticking_clock MoreExamples.no_pid_config
           MoreExamples.no_pid_mappings no_pid_config_compiled).
  repeat constructor. discriminate.
Defined.

Lemma groups_without_obr_rows_never_encode_witness :
  exists e,
    fst (generate_hl7 Examples.no_float Examples.quote Examples.ticking_clock
           MoreExamples.no_obr_mappings Examples.two_cycles 0%nat) = Raise e.
Proof.
  apply (groups_without_obr_rows_never_encode Examples.no_float Examples.quote
           Examples.ticking_clock MoreExamples.no_obr_config
           MoreExamples.no_obr_mappings no_obr_config_compiled).
  - repeat constructor; discriminate.
  - discriminate.
Defined.

(** ** The lines of a group *)
Section GroupLines.
Variable repr_float : float -> string.
Variable repr_str : string -> string.
Variable m : Mappings.

Lemma adds_lines_refl (P : string -> Prop) (segs : list string) :
  adds_lines P segs segs.
Proof. exists []. split; [now rewrite app_nil_r|constructor]. Qed.

Lemma adds_lines_trans (P : string -> Prop) (a b c : list string) :
  adds_lines P a b -> adds_lines P b c -> adds_lines P a c.
Proof.
  intros (x & -> & Fx) (y & -> & Fy). exists (x ++ y)%list.
  split; [now rewrite app_assoc|]. apply Forall_app; now split.
Qed.

Lemma obx_line_is_child (obx_config : FieldConfig.t) (value : Json)
    (obr_set_id obx_set_id : Z) :
  is_child_line (obx_line repr_float repr_str obx_config value obr_set_id
                   obx_set_id).
Proof.
  unfold obx_line.
  match goal with |- is_child_line ("OBX|" ++ ?x) => generalize x end.
  intros x. unfold is_child_line. cbn. now destruct x.
Qed.

Lemma child_line_is_not_parent (line : string) :
  is_child_line line -> is_obr line = false.
Proof.
  unfold is_child_line, is_obr.
  destruct line as [|a line]; cbn [PyStr.startswith]; [discriminate|].
  destruct (Ascii.eqb "O" a); cbn [andb]; [|discriminate].
  destruct line as [|b line]; cbn [PyStr.startswith]; [discriminate|].
  destruct (Ascii.eqb "B" b); cbn [andb]; [|discriminate].
  destruct line as [|x line]; cbn [PyStr.startswith]; [discriminate|].
  destruct (Ascii.eqb_spec "X" x) as [<-|]; cbn [andb]; [|discriminate].
  intros _. reflexivity.
Qed.

Lemma add_obx_adds_line (segs : list string) (obx_config : FieldConfig.t)
    (value : Json) (obr_set_id obx_set_id : Z) :
  adds_lines is_child_line segs
    (_add_obx_segment repr_float repr_str segs obx_config value obr_set_id
       obx_set_id).
Proof.
  eexists. split; [reflexivity|].
  constructor; [apply obx_line_is_child|constructor].
Qed.

Lemma nested_attribute_adds_lines (obr_counter : Z) (obx_config : FieldConfig.t)
    (st : list string * Z) (kv : string * Json) :
  adds_lines is_child_line (fst st)
    (fst (nested_attribute repr_float repr_str m obr_counter obx_config st kv)).
Proof.
  unfold nested_attribute. destruct (matching_config _ _ _); cbn [fst].
  - apply add_obx_adds_line.
  - apply adds_lines_refl.
Qed.

Lemma nested_attributes_add_lines (obr_counter : Z) (obx_config : FieldConfig.t)
    (attrs : list (string * Json)) :
  forall st,
    adds_lines is_child_line (fst st)
      (fst (fold_left (nested_attribute repr_float repr_str m obr_counter
                         obx_config) attrs st)).
Proof.
  induction attrs as [|kv r IH]; intros st; cbn [fold_left].
  - apply adds_lines_refl.
  - eapply adds_lines_trans; [apply nested_attribute_adds_lines|apply IH].
Qed.

Lemma process_nested_obx_adds_lines (segs : list string)
    (nested_data : list (string * Json)) (obr_counter : Z)
    (obx_config : FieldConfig.t) (obx_counter : Z) (segs' : list string) :
  _process_nested_obx repr_float repr_str m segs nested_data obr_counter
    obx_config obx_counter = Ok segs' ->
  adds_lines is_child_line segs segs'.
Proof.
  unfold _process_nested_obx.
  destruct (foldM _ _ _) as [st|e] eqn:F; [|discriminate].
  cbn [bind]. intros [= <-]. revert F.
  change segs with (fst (segs, obx_counter)) at 2.
  generalize (segs, obx_counter) as st0. intros st0 F. revert st0 st F.
  apply (foldM_invariant
           (fun a b : list string * Z => adds_lines is_child_line (fst a) (fst b))).
  - intros a. apply adds_lines_refl.
  - intros a b c. apply adds_lines_trans.
  - intros a kv a'. destruct (String.eqb (fst kv) "CYCLEATTRIBUTES").
    + destruct (json_items (snd kv)) as [attrs|e]; [|discriminate].
      cbn [bind]. intros [= <-]. apply nested_attributes_add_lines.
    + intros [= <-]. apply nested_attribute_adds_lines.
Qed.

Lemma section_item_adds_lines (obx_config : FieldConfig.t) (st : SectionState)
    (item : Json) (st' : SectionState) :
  section_item repr_float repr_str m obx_config st item = Ok st' ->
  adds_lines is_child_line (state_lines st) (state_lines st').
Proof.
  destruct st as [[segs oc] xc]. unfold section_item, state_lines. cbn [fst].
  destruct item;
    try (intros [= <-]; cbn [fst]; apply add_obx_adds_line).
  destruct (_process_nested_obx _ _ _ _ _ _ _ _) as [segs'|e] eqn:P;
    [|discriminate].
  cbn [bind]. intros [= <-]. cbn [fst].
  eapply process_nested_obx_adds_lines, P.
Qed.

Lemma section_field_adds_lines (obr_section : string) (d : Json)
    (st : SectionState) (obx_config : FieldConfig.t) (st' : SectionState) :
  section_field repr_float repr_str m obr_section d st obx_config = Ok st' ->
  adds_lines is_child_line (state_lines st) (state_lines st').
Proof.
  unfold section_field.
  destruct (_get_field_value d _) as [direct|e]; [|discriminate]. cbn [bind].
  destruct (match direct with JNull => _ | _ => _ end) as [v|e];
    [|discriminate]. cbn [bind].
  assert (Items : forall l,
             foldM (section_item repr_float repr_str m obx_config) st l = Ok st' ->
             adds_lines is_child_line (state_lines st) (state_lines st')).
  { intros l. apply (foldM_invariant
               (fun a b : SectionState =>
                  adds_lines is_child_line (state_lines a) (state_lines b))).
    - intros a. apply adds_lines_refl.
    - intros a b c. apply adds_lines_trans.
    - intros a x a'. apply section_item_adds_lines. }
  destruct st as [[segs oc] xc].
  destruct v; try (intros [= <-]; unfold state_lines; cbn [fst];
                   apply add_obx_adds_line).
  - intros [= <-]. apply adds_lines_refl.
  - apply Items.
Qed.

Lemma obr_section_lines (obr_section : string) (d : Json)
    (c : Z) (segs : list string) :
  _build_obr_section repr_float repr_str m obr_section d c = Ok segs ->
  exists obr_fields,
    PyDict.get (segments m) (Some "OBR") = Some obr_fields /\
    match PyDict.get obr_fields obr_section with
    | None => segs = []
    | Some obr_config =>
        exists children,
          segs = obr_line c (format_text (FieldConfig.identifier obr_config))
                   (format_text (FieldConfig.display_name obr_config))
                 :: children /\
          Forall is_child_line children /\
          length (filter is_obr segs) = 1%nat
    end.
Proof.
  unfold _build_obr_section.
  destruct (PyDict.get (segments m) (Some "OBR")) as [obr_fields|];
    [|discriminate]. cbn [bind].
  intros H. exists obr_fields. split; [reflexivity|]. revert H.
  destruct (PyDict.get obr_fields obr_section) as [obr_config|];
    [|now intros [= <-]].
  destruct (foldM _ _ _) as [st|e] eqn:F; [|discriminate].
  cbn [bind]. intros [= <-].
  assert (A : adds_lines is_child_line
                [obr_line c (format_text (FieldConfig.identifier obr_config))
                   (format_text (FieldConfig.display_name obr_config))]
                (state_lines st)).
  { revert F. apply (foldM_invariant
               (fun a b : SectionState =>
                  adds_lines is_child_line (state_lines a) (state_lines b))).
    - intros a. apply adds_lines_refl.
    - intros a b x. apply adds_lines_trans.
    - intros a x a'. apply section_field_adds_lines. }
  destruct A as (children & E & N). unfold state_lines in E. rewrite E.
  exists children. split; [reflexivity|]. split; [exact N|].
  cbn [app filter].
  change (is_obr (obr_line c (format_text (FieldConfig.identifier obr_config))
                    (format_text (FieldConfig.display_name obr_config))))
    with true.
  cbn iota. rewrite filter_none; [reflexivity|].
  eapply Forall_impl; [|exact N]. apply child_line_is_not_parent.
Qed.

(** X16.  A group gives no line when no OBR row names its tag.
    Otherwise it gives exactly one parent line, first, which carries the
    counter the group was given and the identifier and display name of
    that OBR row, and after it child lines only, however many records
    the attributes of the group hold. *)
Theorem group_is_one_parent_line_and_children (obr_section : string) (d : Json)
    (c : Z) (segs : list string) :
  _build_obr_section repr_float repr_str m obr_section d c = Ok segs ->
  exists obr_fields,
    PyDict.get (segments m) (Some "OBR") = Some obr_fields /\
    match PyDict.get obr_fields obr_section with
    | None => segs = []
    | Some obr_config =>
        exists children,
          segs = obr_line c (format_text (FieldConfig.identifier obr_config))
                   (format_text (FieldConfig.display_name obr_config))
                 :: children /\
          Forall is_child_line children /\
          length (filter is_obr segs) = 1%nat
    end.
Proof. apply obr_section_lines. Qed.




End GroupLines.

Lemma group_is_one_parent_line_and_children_witness :
  exists obr_fields,
    PyDict.get (segments Examples.therapy_mappings) (Some "OBR") = Some obr_fields /\
    match PyDict.get obr_fields "ACTUAL_THERAPY" with
    | None =>
        ["OBR|2|||AT^Actual Therapy|||20251015123425";
         "OBX|1|ST|CT^Cycle Type|2|Night 5|||||F";
         "OBX|2|NM|FV^Fill Volume|2|100|mL|||||F";
         "OBX|1|ST|CT^Cycle Type|3|Night 6|||||F";
         "OBX|2|NM|FV^Fill Volume|3|200|mL|||||F";
         "OBX|1|ST|CT^Cycle Type|4|Night 5|||||F";
         "OBX|2|ST|CT^Cycle Type|4|Night 6|||||F"] = []
    | Some obr_config =>
        exists children,
          ["OBR|2|||AT^Actual Therapy|||20251015123425";
           "OBX|1|ST|CT^Cycle Type|2|Night 5|||||F";
           "OBX|2|NM|FV^Fill Volume|2|100|mL|||||F";
           "OBX|1|ST|CT^Cycle Type|3|Night 6|||||F";
           "OBX|2|NM|FV^Fill Volume|3|200|mL|||||F";
           "OBX|1|ST|CT^Cycle Type|4|Night 5|||||F";
           "OBX|2|ST|CT^Cycle Type|4|Night 6|||||F"]
          = obr_line 2 (format_text (FieldConfig.identifier obr_config))
              (format_text (FieldConfig.display_name obr_config))
            :: children /\
          Forall is_child_line children /\
          length (filter is_obr
                    ["OBR|2|||AT^Actual Therapy|||20251015123425";
                     "OBX|1|ST|CT^Cycle Type|2|Night 5|||||F";
                     "OBX|2|NM|FV^Fill Volume|2|100|mL|||||F";
                     "OBX|1|ST|CT^Cycle Type|3|Night 6|||||F";
                     "OBX|2|NM|FV^Fill Volume|3|200|mL|||||F";
                     "OBX|1|ST|CT^Cycle Type|4|Night 5|||||F";
                     "OBX|2|ST|CT^Cycle Type|4|Night 6|||||F"]) = 1%nat
    end.
Proof.
  apply (group_is_one_parent_line_and_children Examples.no_float Examples.quote
           Examples.therapy_mappings "ACTUAL_THERAPY"
           (_normalize_json_data Examples.two_cycles) 2).
  vm_compute. reflexivity.
Defined.

(** ** The layout of a message *)
Section LayoutFacts.
Variable repr_float : float -> string.
Variable repr_str : string -> string.
Variable now : nat -> DateTime.
Variable m : Mappings.



End LayoutFacts.


(** ** Records without lists *)

Lemma normalized_list_free (v : Json) :
  list_free v -> list_free (_normalize_json_data v).
Proof.
  induction v as [| | | | |l IH|d IH] using Json_induction;
    try (intros _; constructor; fail).
  - intros L. inversion L.
  - intros L. inversion L as [| | | | |d' F]; subst.
    rewrite normalize_dict. constructor.
    apply of_items_keeps. unfold normalized_items.
    induction IH as [|kv r Hx _ IHr]; cbn [map]; constructor.
    + cbn [snd]. apply Hx. now inversion F.
    + apply IHr; [constructor|]; now inversion F.
Qed.

Lemma walk_list_free (keys : list string) :
  forall current,
    list_free current ->
    exists v, walk current keys = Ok v /\ list_free v.
Proof.
  induction keys as [|key rest IH]; intros current L; cbn [walk].
  - now exists current.
  - destruct L as [| | | | |d F]; try (exists JNull; split; [reflexivity|constructor]).
    destruct (PyDict.get d key) as [x|] eqn:G;
      [|exists JNull; split; [reflexivity|constructor]].
    apply IH. rewrite Forall_forall in F.
    exact (F (key, x) (get_some_in d key x G)).
Qed.

Lemma resolves_list_free (d : Json) (field_path : string) :
  list_free d ->
  exists v, _get_field_value d field_path = Ok v /\ list_free v.
Proof.
  intros L. unfold _get_field_value.
  destruct (walk_list_free (PyStr.split "." field_path) d L) as (v & -> & Lv).
  now exists v.
Qed.

Section TotalFacts.
Variable repr_float : float -> string.
Variable repr_str : string -> string.
Variable now : nat -> DateTime.
Variable m : Mappings.

Lemma pid_segment_list_free (d : Json) (set_id : Z) :
  list_free d ->
  PyDict.get (segments m) (Some "PID") <> None ->
  exists segs, pid_segment repr_float repr_str m d set_id = Ok segs.
Proof.
  intros L P. unfold pid_segment, pid_fields_line.
  destruct (PyDict.get (segments m) (Some "PID")) as [fields|]; [|contradiction].
  cbn [bind].
  assert (I : forall l acc,
             exists ids,
               foldM (fun id_fields fc =>
                        field_value <-
                          _get_field_value d
                            ("PATIENT_INFO." ++ FieldConfig.json_attribute fc) ;;
                        Ok (id_fields
                            ++ pid_token repr_float repr_str fc field_value)%list)
                     acc l = Ok ids).
  { induction l as [|fc r IH]; intros acc; cbn [foldM]; [eauto|].
    destruct (resolves_list_free d
                ("PATIENT_INFO." ++ FieldConfig.json_attribute fc) L)
      as (v & -> & _).
    cbn [bind]. apply IH. }
  unfold pid_id_fields. destruct (I (PyDict.values fields) []) as [ids ->].
  cbn [bind].
  destruct (resolves_list_free d "PATIENT_INFO.FIRST_NAME" L) as (f & -> & _).
  destruct (resolves_list_free d "PATIENT_INFO.LAST_NAME" L) as (l & -> & _).
  destruct (resolves_list_free d "PATIENT_INFO.MIDDLE_NAME" L) as (x & -> & _).
  cbn [bind]. eauto.
Qed.

Lemma section_field_list_free (obr_section : string) (d : Json)
    (st : SectionState) (obx_config : FieldConfig.t) :
  list_free d ->
  exists st', section_field repr_float repr_str m obr_section d st obx_config
              = Ok st'.
Proof.
  intros L. unfold section_field.
  destruct (resolves_list_free d (FieldConfig.json_attribute obx_config) L)
    as (direct & -> & Ld).
  cbn [bind].
  assert (V : exists v,
             match direct with
             | JNull =>
                 _get_field_value d
                   (obr_section ++ "." ++ FieldConfig.json_attribute obx_config)
             | _ => Ok direct
             end = Ok v /\ list_free v).
  { destruct direct; try (eexists; split; [reflexivity|exact Ld]).
    apply resolves_list_free, L. }
  destruct V as (v & -> & Lv). cbn [bind].
  destruct st as [[segs oc] xc].
  destruct Lv; eauto.
Qed.

Lemma build_obr_section_list_free (obr_section : string) (d : Json) (c : Z) :
  list_free d ->
  PyDict.get (segments m) (Some "OBR") <> None ->
  exists segs, _build_obr_section repr_float repr_str m obr_section d c = Ok segs.
Proof.
  intros L O. unfold _build_obr_section.
  destruct (PyDict.get (segments m) (Some "OBR")) as [obr_fields|];
    [|contradiction].
  cbn [bind]. destruct (PyDict.get obr_fields obr_section); [|eauto].
  assert (I : forall l st,
             exists st',
               foldM (section_field repr_float repr_str m obr_section d) st l
               = Ok st').
  { induction l as [|fc r IH]; intros st; cbn [foldM]; [eauto|].
    destruct (section_field_list_free obr_section d st fc L) as [st1 ->].
    cbn [bind]. apply IH. }
  match goal with
  | |- context [foldM _ ?st ?l] => destruct (I l st) as [st' ->]
  end.
  cbn [bind]. eauto.
Qed.

Lemma group_loop_list_free (d : Json) (keys : list string) :
  list_free d ->
  keys = [] \/ PyDict.get (segments m) (Some "OBR") <> None ->
  forall st,
    exists st', foldM (group_step repr_float repr_str m d) st keys = Ok st'.
Proof.
  intros L [->|O] st; [cbn; eauto|]. revert st.
  induction keys as [|key rest IH]; intros st; cbn [foldM]; [eauto|].
  unfold group_step at 1.
  destruct (build_obr_section_list_free key d (snd st) L O) as [segs ->].
  cbn [bind]. apply IH.
Qed.

(** X18.  A record that holds no list is always encoded, with every
    configuration that has a PID row and, if it has groups, an OBR row,
    provided the batch entry of the record is missing or is a dictionary:
    missing attributes, empty values and nested dictionaries never make
    the encoding fail, and it makes four readings of the clock. *)
Theorem record_without_lists_is_encoded (json_data : Json) (t : nat)
    (batch : list (string * Json)) :
  list_free json_data ->
  json_get (_normalize_json_data json_data) "BATCH" (JDict []) = Ok (JDict batch) ->
  PyDict.get (segments m) (Some "PID") <> None ->
  obr_sections m = [] \/ PyDict.get (segments m) (Some "OBR") <> None ->
  exists lines,
    hl7_segments repr_float repr_str now m json_data t = (Ok lines, (4 + t)%nat) /\
    generate_hl7 repr_float repr_str now m json_data t
    = (Ok (PyStr.join (String "010"%char "") lines), (4 + t)%nat).
Proof.
  intros L B P O.
  assert (H : exists lines,
             hl7_segments repr_float repr_str now m json_data t
             = (Ok lines, (4 + t)%nat)).
  { unfold hl7_segments. apply normalized_list_free in L. revert L B.
    generalize (_normalize_json_data json_data) as d. intros d L B.
    cbn [foldMM]. unfold fixed_segment_step, _build_segment.
    cbn -[strftime bhs_line msh_line orc_line pv1_line py_str pid_segment
          _get_field_value foldM nte_line device_line group_step PyStr.join
          json_get PyDict.get].
    unfold bindM, lift, ret, _get_timestamp. rewrite B.
    assert (J : forall key default,
               exists v, json_get (JDict batch) key default = Ok v).
    { intros key default. cbn. destruct (PyDict.get batch key); eauto. }
    destruct (J "TYPE" (JStr "Normal")) as [ty ->].
    destruct (J "ID" (JStr "")) as [id ->].
    destruct (pid_segment_list_free d 1 L P) as [segs ->].
    destruct (resolves_list_free d "PATIENT_INFO.CLINIC_NAME" L) as (c & -> & _).
    destruct (resolves_list_free d "PATIENT_INFO.TREATMENT_ID" L) as (tr & -> & _).
    destruct (resolves_list_free d "PATIENT_INFO.DEVICE_TYPE" L) as (dev & -> & _).
    assert (K : PyDict.keys (obr_sections m) = []
                \/ PyDict.get (segments m) (Some "OBR") <> None).
    { destruct O as [->|O]; [now left|now right]. }
    match goal with
    | |- context [foldM _ ?st ?l] =>
        destruct (group_loop_list_free d l L K st) as [st' ->]
    end.
    eauto. }
  destruct H as [lines H]. exists lines. split; [exact H|].
  unfold generate_hl7, bindM. now rewrite H.
Qed.

End TotalFacts.

Lemma flat_record_list_free : list_free MoreExamples.flat_record.
Proof. repeat constructor. Defined.

Lemma record_without_lists_is_encoded_witness :
  exists lines,
    hl7_segments Examples.no_float Examples.quote Examples.ticking_clock
      Examples.therapy_mappings MoreExamples.flat_record 0%nat
    = (Ok lines, (4 + 0)%nat) /\
    generate_hl7 Examples.no_float Examples.quote Examples.ticking_clock
      Examples.therapy_mappings MoreExamples.flat_record 0%nat
    = (Ok (PyStr.join (String "010"%char "") lines), (4 + 0)%nat).
Proof.
  apply (record_without_lists_is_encoded Examples.no_float Examples.quote
           Examples.ticking_clock Examples.therapy_mappings
           MoreExamples.flat_record 0%nat [("ID", JStr "b-1")]
           flat_record_list_free).
  - reflexivity.
  - discriminate.
  - right. discriminate.
Defined.

(** ** The child lines of a group *)
Section ChildFacts.
Variable repr_float : float -> string.
Variable repr_str : string -> string.
Variable m : Mappings.

Lemma numbered_app (c : Z) (a b : list (FieldConfig.t * Json)) :
  forall n,
    numbered repr_float repr_str c n (a ++ b)
    = (numbered repr_float repr_str c n a ++ numbered repr_float repr_str c (n + Z.of_nat (length a)) b)%list.
Proof.
  induction a as [|[fc v] r IH]; intros n; cbn [app numbered length].
  - f_equal. lia.
  - rewrite IH. do 3 f_equal. lia.
Qed.

Lemma section_items_numbered (obx_config : FieldConfig.t) (c : Z)
    (items : list Json) :
  forallb (fun item => negb (is_dict item)) items = true ->
  forall segs n,
    foldM (section_item repr_float repr_str m obx_config) (segs, c, n) items
    = Ok ((segs ++ numbered repr_float repr_str c n (map (pair obx_config) items))%list, c,
          n + Z.of_nat (length items)).
Proof.
  induction items as [|item rest IH]; intros D segs n; cbn [foldM map numbered length].
  - rewrite app_nil_r. do 2 f_equal. lia.
  - cbn [forallb] in D. apply andb_prop in D as [Di Dr].
    assert (S : section_item repr_float repr_str m obx_config (segs, c, n) item
                = Ok (_add_obx_segment repr_float repr_str segs obx_config item c n,
                      c, n + 1)).
    { destruct item; try reflexivity. discriminate. }
    rewrite S. cbn [bind]. rewrite (IH Dr). unfold _add_obx_segment.
    rewrite <- app_assoc. cbn [app]. do 2 f_equal. lia.
Qed.

Lemma section_field_numbered (obr_section : string) (d : Json)
    (obx_config : FieldConfig.t) (v : Json) (segs : list string) (c n : Z) :
  resolved obr_section d obx_config = Ok v ->
  no_records v ->
  section_field repr_float repr_str m obr_section d (segs, c, n) obx_config
  = Ok ((segs ++ numbered repr_float repr_str c n (map (pair obx_config) (child_values v)))%list, c,
        n + Z.of_nat (length (child_values v))).
Proof.
  unfold resolved, section_field.
  destruct (_get_field_value d (FieldConfig.json_attribute obx_config))
    as [direct|e]; [|discriminate].
  cbn [bind]. intros -> N. cbn [bind].
  destruct v; cbn [child_values map numbered length];
    try (unfold _add_obx_segment; do 2 f_equal; lia).
  - rewrite app_nil_r. do 2 f_equal. lia.
  - now apply section_items_numbered.
Qed.

Lemma section_fields_numbered (obr_section : string) (d : Json) (c : Z)
    (fields : list FieldConfig.t) :
  forall values segs n,
    mapM (resolved obr_section d) fields = Ok values ->
    Forall no_records values ->
    exists n',
      foldM (section_field repr_float repr_str m obr_section d) (segs, c, n) fields
      = Ok ((segs ++ numbered repr_float repr_str c n (child_items fields values))%list, c, n').
Proof.
  induction fields as [|fc rest IH]; intros values segs n; cbn [mapM].
  - intros [= <-] _. exists n. cbn. now rewrite app_nil_r.
  - destruct (resolved obr_section d fc) as [v|e] eqn:R; [|discriminate].
    cbn [bind].
    destruct (mapM (resolved obr_section d) rest) as [vs|e] eqn:M; [|discriminate].
    cbn [bind]. intros [= <-] F. inversion F as [|? ? Nv Fv]; subst.
    cbn [foldM]. rewrite (section_field_numbered obr_section d fc v segs c n R Nv).
    cbn [bind].
    destruct (IH vs (segs ++ numbered repr_float repr_str c n (map (pair fc) (child_values v)))%list
                (n + Z.of_nat (length (child_values v))) eq_refl Fv) as [n' ->].
    exists n'. do 3 f_equal. unfold child_items. cbn [combine flat_map fst snd].
    rewrite numbered_app, <- app_assoc, length_map. reflexivity.
Qed.

(** X19.  When no value of a group holds a record, the group is its
    parent line followed by one child line for every value, in the order
    of the fields: a field whose value is missing gives no line, a field
    whose value is a list gives one line per element (also for an element
    that is [None]), and any other value gives one line.  The child lines
    are numbered 1, 2, 3, ... without gaps and all carry the counter of
    the parent line. *)
Theorem children_are_numbered_in_order (obr_section : string) (d : Json) (c : Z)
    (obr_fields : PyDict.dict string FieldConfig.t) (obr_config : FieldConfig.t)
    (values : list Json) :
  PyDict.get (segments m) (Some "OBR") = Some obr_fields ->
  PyDict.get obr_fields obr_section = Some obr_config ->
  mapM (resolved obr_section d) (section_fields m (Some obr_section)) = Ok values ->
  Forall no_records values ->
  _build_obr_section repr_float repr_str m obr_section d c
  = Ok (obr_line c (format_text (FieldConfig.identifier obr_config))
          (format_text (FieldConfig.display_name obr_config))
        :: numbered repr_float repr_str c 1
             (child_items (section_fields m (Some obr_section)) values)).
Proof.
  intros O C R N. unfold _build_obr_section. rewrite O. cbn [bind]. rewrite C.
  destruct (section_fields_numbered obr_section d c
              (section_fields m (Some obr_section)) values
              [obr_line c (format_text (FieldConfig.identifier obr_config))
                 (format_text (FieldConfig.display_name obr_config))]
              1 R N) as [n' ->].
  reflexivity.
Qed.

End ChildFacts.

Lemma children_are_numbered_in_order_witness :
  _build_obr_section Examples.no_float Examples.quote Examples.therapy_mappings
    "VITALS" MoreExamples.readings_record 2
  = Ok ["OBR|2|||VT^Vitals|||20251015123425";
        "OBX|1|NM|WT^Weight|2|70|kg|||||F";
        "OBX|2|NM|WT^Weight|2|None|kg|||||F";
        "OBX|3|NM|WT^Weight|2|71|kg|||||F"].
Proof.
  destruct (PyDict.get (segments Examples.therapy_mappings) (Some "OBR"))
    as [obr_fields|] eqn:O; [|discriminate O].
  destruct (PyDict.get obr_fields "VITALS") as [obr_config|] eqn:C;
    [|vm_compute in O; injection O as <-; discriminate C].
  rewrite (children_are_numbered_in_order Examples.no_float Examples.quote
             Examples.therapy_mappings "VITALS" MoreExamples.readings_record 2
             obr_fields obr_config [JList [JInt 70; JNull; JInt 71]] O C).
  - vm_compute in O. injection O as <-. vm_compute in C. injection C as <-.
    reflexivity.
  - reflexivity.
  - repeat constructor.
Defined.

(** * Writing the messages to files *)

(** ** File names *)

Lemma append_cancel_head (a x y : string) : a ++ x = a ++ y -> x = y.
Proof. induction a as [|c a IH]; cbn; [auto|]. intros [= H]. auto. Qed.

Lemma length_append (a b : string) :
  String.length (a ++ b) = (String.length a + String.length b)%nat.
Proof. induction a as [|c a IH]; cbn; [reflexivity|]. now rewrite IH. Qed.

Lemma append_cancel_tail (c : string) :
  forall a b, a ++ c = b ++ c -> a = b.
Proof.
  induction a as [|x a IH]; intros [|y b] H; cbn in H.
  - reflexivity.
  - apply (f_equal String.length) in H. cbn in H. rewrite length_append in H. lia.
  - apply (f_equal String.length) in H. cbn in H. rewrite length_append in H. lia.
  - injection H as -> H. f_equal. now apply IH.
Qed.

Lemma digits_value_zero (s : string) :
  digits_value (String "0" s) = digits_value s.
Proof.
  unfold digits_value. cbn [NilEmpty.uint_of_string].
  destruct (NilEmpty.uint_of_string s) as [d|]; reflexivity.
Qed.

Lemma digits_value_zfill (width : nat) (s : string) :
  digits_value (PyStr.zfill width s) = digits_value s.
Proof.
  unfold PyStr.zfill. induction (width - String.length s)%nat as [|k IH]; cbn.
  - reflexivity.
  - change (digits_value
              (String "0" (string_of_list_ascii (repeat "0"%char k) ++ s))
            = digits_value s).
    now rewrite digits_value_zero.
Qed.

Lemma digits_value_str_int (n : Z) :
  0 <= n -> digits_value (PyStr.str_int n) = Some n.
Proof.
  intros H. unfold PyStr.str_int, digits_value.
  destruct n as [|p|p]; [reflexivity| |lia].
  cbn [Z.to_int NilZero.string_of_int].
  assert (E : NilZero.string_of_uint (Pos.to_uint p)
              = NilEmpty.string_of_uint (Pos.to_uint p)).
  { unfold NilZero.string_of_uint.
    destruct (Pos.to_uint p) eqn:U; try reflexivity.
    exfalso. pose proof (DecimalPos.Unsigned.of_to p) as Q.
    rewrite U in Q. discriminate. }
  rewrite E, NilEmpty.usu. cbn [option_map]. f_equal.
  unfold Z.of_uint. rewrite DecimalPos.Unsigned.of_to. reflexivity.
Qed.

Lemma digits_value_no_sign (r : string) : digits_value (String "-" r) = None.
Proof.
  unfold digits_value. cbn [NilEmpty.uint_of_string].
  destruct (NilEmpty.uint_of_string r); reflexivity.
Qed.

Lemma read_number_digits (s : string) (n : Z) :
  digits_value s = Some n -> read_number s = Some n.
Proof.
  intros H. destruct s as [|c r]; [exact H|].
  destruct (Ascii.eqb c "-") eqn:E.
  - apply Ascii.eqb_eq in E. subst. now rewrite digits_value_no_sign in H.
  - unfold read_number.
    destruct c as [[] [] [] [] [] [] [] []]; try exact H. discriminate.
Qed.

(** The number of a file name can be read back from it. *)
Lemma read_format_03d (n : Z) : read_number (format_03d n) = Some n.
Proof.
  unfold format_03d. destruct (n <? 0) eqn:E.
  - apply Z.ltb_lt in E.
    change (option_map Z.opp
              (digits_value (PyStr.zfill 2 (PyStr.str_int (- n)))) = Some n).
    rewrite digits_value_zfill, digits_value_str_int by lia. cbn. f_equal. lia.
  - apply Z.ltb_ge in E. apply read_number_digits.
    now rewrite digits_value_zfill, digits_value_str_int.
Qed.

Lemma output_filename_injective (output_prefix : string) (i j : Z) :
  output_filename output_prefix i = output_filename output_prefix j -> i = j.
Proof.
  unfold output_filename. intros H.
  apply append_cancel_head in H. apply (append_cancel_head "_") in H.
  apply append_cancel_tail in H.
  pose proof (read_format_03d i) as Ri. rewrite H, read_format_03d in Ri.
  congruence.
Qed.

(** X20.  Two different sequence numbers never share a file name, whatever
    the prefix: the three-digit padding is a minimum width, so the numbers
    from 1000 on, and negative ones, still give names of their own. *)
Theorem file_names_are_distinct (output_prefix : string) (i j : Z) :
  i <> j -> output_filename output_prefix i <> output_filename output_prefix j.
Proof. intros N E. apply N. exact (output_filename_injective output_prefix i j E). Qed.

Lemma file_names_are_distinct_witness :
  output_filename "hl7_output" 7 = "hl7_output_007.hl7" /\
  output_filename "hl7_output" 1007 = "hl7_output_1007.hl7" /\
  output_filename "hl7_output" 7 <> output_filename "hl7_output" 1007.
Proof.
  split; [reflexivity|]. split; [reflexivity|].
  apply (file_names_are_distinct "hl7_output" 7 1007). lia.
Defined.

(** ** The loop over the outcomes *)



Lemma written_app (output_prefix : string) (pre post : list Outcome) :
  written output_prefix (pre ++ post)
  = (written output_prefix pre ++ written output_prefix post)%list.
Proof.
  induction pre as [|[j m s|j e s] rest IH]; cbn [written app].
  - reflexivity.
  - now rewrite IH.
  - exact IH.
Qed.






Section FileFacts.

Variable repr_float : PrimFloat.float -> string.
Variable repr_str : string -> string.
Variable now : nat -> DateTime.
Variable m : Mappings.
Variable can_open : string -> bool.


Lemma save_results_opened (output_prefix : string) (outcomes : list Outcome) :
  forall files c c' files',
    save_results can_open output_prefix outcomes files c = (inr c', files') ->
    forall name, In name (map fst (written output_prefix outcomes)) ->
                 can_open name = true.
Proof.
  induction outcomes as [|[i msg ts|i e ts] rest IH]; intros files c c' files';
    cbn [save_results written map fst In].
  - tauto.
  - destruct (can_open (output_filename output_prefix i)) eqn:E; [|discriminate].
    intros S name [<-|I]; [exact E|]. exact (IH _ _ _ _ S name I).
  - apply IH.
Qed.










End FileFacts.



